(** * Endfield check-in adapter: a shallow embedding and its properties

    The development follows [src/games/endfield_adapter.py] (class
    [EndfieldAdapter]) and [src/games/game.py] (method [Game.sign]).

    - Python values that come out of [response.json()] are the type [json];
      the dynamic operations the adapter applies to them ([.get], truth
      value, [==], [in], subscripting, iteration, [str()]) are functions
      that return a [result], [Raise] standing for a Python exception of
      class [Exception].
    - [hashlib] and [hmac] are embedded as executable functions on bytes.
    - The adapter object is a record of its mutable fields together with
      the list of HTTP requests it has issued; its methods are written in a
      state-and-exception monad, and the upstream service is a record of
      the replies it gives during one invocation. *)

From Stdlib Require Import ZArith List String Ascii Bool Lia.
From Stdlib Require Import DecimalString.
Import ListNotations.
Local Open Scope string_scope.
Local Open Scope Z_scope.

(* ================================================================== *)
(** * Bytes, words and hexadecimal text *)

Module Bytes.

(** A Python [str] is held as its UTF-8 encoding, so [s.encode()] is the
    list of the character codes of the Rocq string. *)
Fixpoint encode (s : string) : list Z :=
  match s with
  | EmptyString => []
  | String c r => Z.of_N (N_of_ascii c) :: encode r
  end.

Definition hex_digit (d : Z) : ascii :=
  ascii_of_N (Z.to_N (if d <? 10 then 48 + d else 87 + d)).

Definition hex_byte (b : Z) : string :=
  String (hex_digit (Z.shiftr b 4)) (String (hex_digit (Z.land b 15)) "").

(** [bytes.hex()]: two lowercase digits per byte. *)
Fixpoint hex (bs : list Z) : string :=
  match bs with
  | [] => ""
  | b :: r => hex_byte b ++ hex r
  end.

Definition w32 (x : Z) : Z := Z.land x 0xffffffff.
Definition add32 (a b : Z) : Z := w32 (a + b).
Definition not32 (a : Z) : Z := Z.lxor a 0xffffffff.
Definition rotl (n x : Z) : Z :=
  w32 (Z.lor (Z.shiftl x n) (Z.shiftr x (32 - n))).
Definition rotr (n x : Z) : Z :=
  w32 (Z.lor (Z.shiftr x n) (Z.shiftl x (32 - n))).

(** Big-endian and little-endian layouts of a [k]-byte integer. *)
Fixpoint le_bytes (k : nat) (x : Z) : list Z :=
  match k with
  | O => []
  | S k' => Z.land x 255 :: le_bytes k' (Z.shiftr x 8)
  end.
Definition be_bytes (k : nat) (x : Z) : list Z := rev (le_bytes k x).

Definition le_word (bs : list Z) : Z :=
  fold_right (fun b acc => Z.lor b (Z.shiftl acc 8)) 0 bs.
Definition be_word (bs : list Z) : Z := le_word (rev bs).

(** Cut a byte string into pieces of [n] bytes; [fuel] bounds the number
    of pieces and is always given as the length of the input. *)
Fixpoint chunks (fuel : nat) (n : nat) (bs : list Z) : list (list Z) :=
  match fuel with
  | O => []
  | S f =>
      match bs with
      | [] => []
      | _ => firstn n bs :: chunks f n (skipn n bs)
      end
  end.

Definition blocks (n : nat) (bs : list Z) : list (list Z) :=
  chunks (List.length bs) n bs.

(** Merkle-Damgard padding to a multiple of 64 bytes: a [0x80] byte,
    zeros, and the bit length on eight bytes laid out by [len_bytes]. *)
Definition pad64 (len_bytes : Z -> list Z) (msg : list Z) : list Z :=
  let l := Z.of_nat (List.length msg) in
  let zeros := Z.to_nat ((55 - l) mod 64) in
  (msg ++ [0x80] ++ repeat 0 zeros ++ len_bytes (8 * l))%list.

End Bytes.

(* ================================================================== *)
(** * hashlib.sha256 *)

Module Sha256.
Import Bytes.

(** The first 64 primes. *)
Definition primes : list Z :=
  [2; 3; 5; 7; 11; 13; 17; 19; 23; 29; 31; 37; 41; 43; 47; 53; 59; 61; 67;
   71; 73; 79; 83; 89; 97; 101; 103; 107; 109; 113; 127; 131; 137; 139; 149;
   151; 157; 163; 167; 173; 179; 181; 191; 193; 197; 199; 211; 223; 227;
   229; 233; 239; 241; 251; 257; 263; 269; 271; 277; 281; 283; 293; 307;
   311].

(** The largest [r] below [2^bits] with [pow r <= n], one bit at a time. *)
Fixpoint iroot (pow : Z -> Z) (bits : nat) (n r : Z) : Z :=
  match bits with
  | O => r
  | S b =>
      let c := Z.lor r (Z.shiftl 1 (Z.of_nat b)) in
      iroot pow b n (if pow c <=? n then c else r)
  end.

(** The round constants: the first 32 bits of the fractional part of the
    cube root of each prime. *)
Definition K : list Z :=
  Eval vm_compute in
    map (fun p => w32 (iroot (fun x => x * x * x) 40 (Z.shiftl p 96) 0)) primes.

(** The initial state: the same of the square roots of the first eight. *)
Definition H0 : list Z :=
  Eval vm_compute in
    map (fun p => w32 (iroot (fun x => x * x) 40 (Z.shiftl p 64) 0))
        (firstn 8 primes).

Definition ssig0 x := Z.lxor (Z.lxor (rotr 7 x) (rotr 18 x)) (Z.shiftr x 3).
Definition ssig1 x := Z.lxor (Z.lxor (rotr 17 x) (rotr 19 x)) (Z.shiftr x 10).
Definition bsig0 x := Z.lxor (Z.lxor (rotr 2 x) (rotr 13 x)) (rotr 22 x).
Definition bsig1 x := Z.lxor (Z.lxor (rotr 6 x) (rotr 11 x)) (rotr 25 x).
Definition ch x y z := Z.lxor (Z.land x y) (Z.land (not32 x) z).
Definition maj x y z :=
  Z.lxor (Z.lxor (Z.land x y) (Z.land x z)) (Z.land y z).

(** The message schedule; [recent] holds the words produced so far, the
    latest first, so that [W(t-2)] is its element 1 and [W(t-16)] its
    element 15. *)
Fixpoint schedule (n : nat) (recent : list Z) : list Z :=
  match n with
  | O => rev recent
  | S n' =>
      let w := add32 (add32 (ssig1 (nth 1 recent 0)) (nth 6 recent 0))
                     (add32 (ssig0 (nth 14 recent 0)) (nth 15 recent 0)) in
      schedule n' (w :: recent)
  end.

Definition round (st : list Z) (kw : Z * Z) : list Z :=
  match st with
  | [a; b; c; d; e; f; g; h] =>
      let t1 := add32 (add32 (add32 h (bsig1 e)) (add32 (ch e f g) (fst kw)))
                      (snd kw) in
      let t2 := add32 (bsig0 a) (maj a b c) in
      [add32 t1 t2; a; b; c; add32 d t1; e; f; g]
  | _ => st
  end.

Definition compress (h : list Z) (block : list Z) : list Z :=
  let w0 := map be_word (blocks 4 block) in
  let w := schedule 48 (rev w0) in
  let st := fold_left round (combine K w) h in
  map (fun p => add32 (fst p) (snd p)) (combine h st).

Definition digest (msg : list Z) : list Z :=
  let h := fold_left compress (blocks 64 (pad64 (be_bytes 8) msg)) H0 in
  flat_map (be_bytes 4) h.

Definition hexdigest (msg : list Z) : string := hex (digest msg).

End Sha256.

(* ================================================================== *)
(** * hashlib.md5 *)

Module Md5.
Import Bytes.

Definition T : list Z :=
[0xd76aa478; 0xe8c7b756; 0x242070db; 0xc1bdceee; 0xf57c0faf; 0x4787c62a;
 0xa8304613; 0xfd469501; 0x698098d8; 0x8b44f7af; 0xffff5bb1; 0x895cd7be;
 0x6b901122; 0xfd987193; 0xa679438e; 0x49b40821; 0xf61e2562; 0xc040b340;
 0x265e5a51; 0xe9b6c7aa; 0xd62f105d; 0x02441453; 0xd8a1e681; 0xe7d3fbc8;
 0x21e1cde6; 0xc33707d6; 0xf4d50d87; 0x455a14ed; 0xa9e3e905; 0xfcefa3f8;
 0x676f02d9; 0x8d2a4c8a; 0xfffa3942; 0x8771f681; 0x6d9d6122; 0xfde5380c;
 0xa4beea44; 0x4bdecfa9; 0xf6bb4b60; 0xbebfbc70; 0x289b7ec6; 0xeaa127fa;
 0xd4ef3085; 0x04881d05; 0xd9d4d039; 0xe6db99e5; 0x1fa27cf8; 0xc4ac5665;
 0xf4292244; 0x432aff97; 0xab9423a7; 0xfc93a039; 0x655b59c3; 0x8f0ccc92;
 0xffeff47d; 0x85845dd1; 0x6fa87e4f; 0xfe2ce6e0; 0xa3014314; 0x4e0811a1;
 0xf7537e82; 0xbd3af235; 0x2ad7d2bb; 0xeb86d391].

Definition shifts : list Z :=
  [7; 12; 17; 22; 7; 12; 17; 22; 7; 12; 17; 22; 7; 12; 17; 22;
   5; 9; 14; 20; 5; 9; 14; 20; 5; 9; 14; 20; 5; 9; 14; 20;
   4; 11; 16; 23; 4; 11; 16; 23; 4; 11; 16; 23; 4; 11; 16; 23;
   6; 10; 15; 21; 6; 10; 15; 21; 6; 10; 15; 21; 6; 10; 15; 21].

Definition A0 : list Z := [0x67452301; 0xefcdab89; 0x98badcfe; 0x10325476].

(** Round [i] mixes [b], [c], [d] and picks message word [g]. *)
Definition mix (i b c d : Z) : Z * Z :=
  if i <? 16 then (Z.lor (Z.land b c) (Z.land (not32 b) d), i)
  else if i <? 32 then
    (Z.lor (Z.land d b) (Z.land (not32 d) c), (5 * i + 1) mod 16)
  else if i <? 48 then (Z.lxor (Z.lxor b c) d, (3 * i + 5) mod 16)
  else (Z.lxor c (Z.lor b (not32 d)), (7 * i) mod 16).

Definition round (m : list Z) (st : list Z) (i : Z) : list Z :=
  match st with
  | [a; b; c; d] =>
      let '(f, g) := mix i b c d in
      let x := add32 (add32 a f)
                     (add32 (nth (Z.to_nat i) T 0) (nth (Z.to_nat g) m 0)) in
      [d; add32 b (rotl (nth (Z.to_nat i) shifts 0) x); b; c]
  | _ => st
  end.

Definition compress (h : list Z) (block : list Z) : list Z :=
  let m := map le_word (blocks 4 block) in
  let st := fold_left (round m) (map Z.of_nat (seq 0 64)) h in
  map (fun p => add32 (fst p) (snd p)) (combine h st).

Definition digest (msg : list Z) : list Z :=
  let h := fold_left compress (blocks 64 (pad64 (le_bytes 8) msg)) A0 in
  flat_map (le_bytes 4) h.

Definition hexdigest (msg : list Z) : string := hex (digest msg).

End Md5.

(* ================================================================== *)
(** * hmac.new(key, msg, hashlib.sha256) *)

Module Hmac.
Import Bytes.

Definition block_size : nat := 64.

Definition block_key (key : list Z) : list Z :=
  let k := if (Z.of_nat block_size <? Z.of_nat (List.length key))
           then Sha256.digest key else key in
  (k ++ repeat 0 (block_size - List.length k))%list.

Definition digest (key msg : list Z) : list Z :=
  let k := block_key key in
  let inner := Sha256.digest (map (Z.lxor 0x36) k ++ msg)%list in
  Sha256.digest (map (Z.lxor 0x5c) k ++ inner)%list.

Definition hexdigest (key msg : list Z) : string := hex (digest key msg).

End Hmac.

(* ================================================================== *)
(** * Python values and the operations the adapter applies to them *)

Module Py.

(** What [response.json()] can hand back.  Numbers are the integers the
    upstream uses for codes, flags and counts (a JSON number with a
    fraction or an exponent is not represented); a [str] is held as its
    UTF-8 encoding, so it has no lone surrogate; a [dict] is its list of
    items, looked up from the front (an item behind another item with the
    same key is dead). *)
#[warnings="-register-all"] Inductive json : Type :=
| JNull
| JBool (b : bool)
| JInt (n : Z)
| JStr (s : string)
| JList (l : list json)
| JDict (d : list (string * json)).

(** An exception of class [Exception]: its class name and [str(e)].  The
    texts follow CPython's wording; no property below depends on them. *)
Record exn : Type := Exn { exn_class : string; exn_text : string }.

Inductive result (A : Type) : Type :=
| Ok (a : A)
| Raise (e : exn).
Arguments Ok {A} a.
Arguments Raise {A} e.

Definition bind {A B} (r : result A) (f : A -> result B) : result B :=
  match r with
  | Ok a => f a
  | Raise e => Raise e
  end.

Definition type_name (v : json) : string :=
  match v with
  | JNull => "NoneType"
  | JBool _ => "bool"
  | JInt _ => "int"
  | JStr _ => "str"
  | JList _ => "list"
  | JDict _ => "dict"
  end.

Definition attribute_error {A} (v : json) (attr : string) : result A :=
  Raise (Exn "AttributeError"
           ("'" ++ type_name v ++ "' object has no attribute '" ++ attr ++ "'")).

Definition type_error {A} (text : string) : result A :=
  Raise (Exn "TypeError" text).

Definition unhashable {A} (v : json) : result A :=
  type_error ("unhashable type: '" ++ type_name v ++ "'").

(** ** Strings *)

Definition quote : string := String "034"%char "".
Definition backslash : string := String "092"%char "".

Definition char_code (c : ascii) : Z := Z.of_N (N_of_ascii c).

(** A byte [10xxxxxx] continues the character begun before it. *)
Definition is_cont (c : ascii) : bool := Z.land (char_code c) 0xc0 =? 0x80.

Fixpoint split_chars (s : string) : string * list string :=
  match s with
  | EmptyString => (EmptyString, [])
  | String c r =>
      let '(cont, cs) := split_chars r in
      if is_cont c then (String c cont, cs)
      else (EmptyString, String c cont :: cs)
  end.

(** The characters of a [str], each as a one-character [str]. *)
Definition chars (s : string) : list string :=
  let '(cont, cs) := split_chars s in
  match cont with
  | EmptyString => cs
  | _ => cont :: cs
  end.

(** [len(s)] *)
Definition len (s : string) : Z := Z.of_nat (List.length (chars s)).

(** [s.startswith(p)] *)
Definition startswith (s p : string) : bool := String.prefix p s.

(** [needle in hay] *)
Fixpoint contains (needle hay : string) : bool :=
  String.prefix needle hay
  || match hay with
     | EmptyString => false
     | String _ r => contains needle r
     end.

Definition lower_char (c : ascii) : ascii :=
  if (65 <=? char_code c) && (char_code c <=? 90)
  then ascii_of_N (Z.to_N (char_code c + 32)) else c.

(** [s.lower()] on the letters A to Z.  Python also folds letters outside
    ASCII; none of them becomes a letter of the word the adapter searches
    for, and their encodings hold no ASCII byte, so the search
    [contains "already" (lower s)] is not affected. *)
Fixpoint lower (s : string) : string :=
  match s with
  | EmptyString => EmptyString
  | String c r => String (lower_char c) (lower r)
  end.

Fixpoint join (sep : string) (l : list string) : string :=
  match l with
  | [] => ""
  | [x] => x
  | x :: r => x ++ sep ++ join sep r
  end.

(** [str(n)] for an [int]. *)
Definition str_int (n : Z) : string := NilZero.string_of_int (Z.to_int n).

(** ** Dictionaries *)

Fixpoint lookup (k : string) (d : list (string * json)) : option json :=
  match d with
  | [] => None
  | (k', v) :: r => if String.eqb k k' then Some v else lookup k r
  end.

Definition mem (k : string) (l : list string) : bool :=
  existsb (String.eqb k) l.

(** The live items of a dictionary, in insertion order. *)
Fixpoint live (seen : list string) (d : list (string * json))
  : list (string * json) :=
  match d with
  | [] => []
  | (k, v) :: r =>
      if mem k seen then live seen r else (k, v) :: live (k :: seen) r
  end.

Definition items (d : list (string * json)) : list (string * json) :=
  live [] d.

Definition keys (d : list (string * json)) : list string :=
  map fst (items d).

(** [v.get(k, default)]: only a [dict] has the method. *)
Definition get (v : json) (k : string) (default : json) : result json :=
  match v with
  | JDict d =>
      Ok (match lookup k d with Some x => x | None => default end)
  | _ => attribute_error v "get"
  end.

(** ** Truth value and equality *)

Definition truthy (v : json) : bool :=
  match v with
  | JNull => false
  | JBool b => b
  | JInt n => negb (n =? 0)
  | JStr s => negb (String.eqb s "")
  | JList l => match l with [] => false | _ => true end
  | JDict d => match d with [] => false | _ => true end
  end.

Definition int_of_bool (b : bool) : Z := if b then 1 else 0.

(** [a == b].  [bool] is a subclass of [int], so [True == 1]; two
    dictionaries are equal when they have the same keys with equal
    values, whatever the order. *)
Fixpoint equal (a b : json) {struct a} : bool :=
  match a, b with
  | JNull, JNull => true
  | JBool x, JBool y => Bool.eqb x y
  | JBool x, JInt n => int_of_bool x =? n
  | JInt n, JBool x => n =? int_of_bool x
  | JInt m, JInt n => m =? n
  | JStr s, JStr t => String.eqb s t
  | JList l, JList l' =>
      (fix go (l l' : list json) {struct l} : bool :=
         match l, l' with
         | [], [] => true
         | x :: r, y :: r' => equal x y && go r r'
         | _, _ => false
         end) l l'
  | JDict d, JDict d' =>
      (Nat.eqb (List.length (keys d)) (List.length (keys d')))
      && (fix go (d : list (string * json)) (seen : list string)
              {struct d} : bool :=
            match d with
            | [] => true
            | (k, v) :: r =>
                (if mem k seen then true
                 else match lookup k d' with
                      | Some v' => equal v v'
                      | None => false
                      end)
                && go r (k :: seen)
            end) d []
  | _, _ => false
  end.

(** ** Containers *)

(** [item in container] *)
Definition contains_item (container item : json) : result bool :=
  match container with
  | JDict d =>
      match item with
      | JStr k => Ok (match lookup k d with Some _ => true | None => false end)
      | JList _ | JDict _ => unhashable item
      | _ => Ok false
      end
  | JList l => Ok (existsb (fun x => equal x item) l)
  | JStr s =>
      match item with
      | JStr t => Ok (contains t s)
      | _ => type_error ("'in <string>' requires string as left operand, not "
                           ++ type_name item)
      end
  | _ => type_error ("argument of type '" ++ type_name container
                       ++ "' is not iterable")
  end.

(** A sequence index: [i] itself when it is in range, counted from the
    end when negative.  [kind] is the name of the sequence in the text of
    the [IndexError]: "list" or "string". *)
Definition seq_index {A} (kind : string) (l : list A) (i : Z) : result A :=
  let n := Z.of_nat (List.length l) in
  let j := if i <? 0 then i + n else i in
  if (0 <=? j) && (j <? n)
  then match nth_error l (Z.to_nat j) with
       | Some x => Ok x
       | None => Raise (Exn "IndexError" (kind ++ " index out of range"))
       end
  else Raise (Exn "IndexError" (kind ++ " index out of range")).

Definition as_index (i : json) : option Z :=
  match i with
  | JInt n => Some n
  | JBool b => Some (int_of_bool b)
  | _ => None
  end.

(** [v[i]] *)
Definition getitem (v i : json) : result json :=
  match v with
  | JDict d =>
      match i with
      | JStr k =>
          match lookup k d with
          | Some x => Ok x
          | None => Raise (Exn "KeyError" ("'" ++ k ++ "'"))
          end
      | JList _ | JDict _ => unhashable i
      | JNull => Raise (Exn "KeyError" "None")
      | JBool b => Raise (Exn "KeyError" (if b then "True" else "False"))
      | JInt n => Raise (Exn "KeyError" (str_int n))
      end
  | JList l =>
      match as_index i with
      | Some n => seq_index "list" l n
      | None => type_error ("list indices must be integers or slices, not "
                              ++ type_name i)
      end
  | JStr s =>
      match as_index i with
      | Some n => bind (seq_index "string" (chars s) n) (fun c => Ok (JStr c))
      | None => type_error ("string indices must be integers, not '"
                              ++ type_name i ++ "'")
      end
  | _ => type_error ("'" ++ type_name v ++ "' object is not subscriptable")
  end.

(** [v[:10]] is evaluated for a log line only, so what matters is whether
    it raises: a [str] and a [list] can be sliced, nothing else can. *)
Definition slice_prefix (v : json) : result unit :=
  match v with
  | JStr _ | JList _ => Ok tt
  | JDict _ => type_error "unhashable type: 'slice'"
  | _ => type_error ("'" ++ type_name v ++ "' object is not subscriptable")
  end.

(** The elements a [for] loop sees. *)
Definition iter (v : json) : result (list json) :=
  match v with
  | JList l => Ok l
  | JDict d => Ok (map JStr (keys d))
  | JStr s => Ok (map JStr (chars s))
  | _ => type_error ("'" ++ type_name v ++ "' object is not iterable")
  end.

Definition is_dict (v : json) : bool :=
  match v with JDict _ => true | _ => false end.

(** ** [str()] and [repr()] *)

Definition apostrophe : string := "'".

Definition repr_char (q : string) (c : ascii) : string :=
  let s := String c "" in
  let n := char_code c in
  if String.eqb s backslash then backslash ++ backslash
  else if String.eqb s q then backslash ++ q
  else if n =? 9 then backslash ++ "t"
  else if n =? 10 then backslash ++ "n"
  else if n =? 13 then backslash ++ "r"
  else if (n <? 32) || (n =? 127) then backslash ++ "x" ++ Bytes.hex_byte n
  else s.

(** [repr(s)]: single quotes unless the text has one and no double quote.
    This is CPython's [repr] on ASCII text.  Outside ASCII CPython asks the
    Unicode database whether a character is printable and escapes it when
    it is not; that table is not modelled, and a character outside ASCII
    is written as it is.  So [repr], and [str] of a list or an object, are
    exact on the values [printed_exactly] accepts; a theorem that states
    such a text takes that as a hypothesis. *)
Definition repr_str (s : string) : string :=
  let q := if contains apostrophe s && negb (contains quote s)
           then quote else apostrophe in
  q ++ String.concat "" (map (repr_char q) (list_ascii_of_string s)) ++ q.

Fixpoint repr (v : json) : string :=
  match v with
  | JNull => "None"
  | JBool b => if b then "True" else "False"
  | JInt n => str_int n
  | JStr s => repr_str s
  | JList l => "[" ++ join ", " (map repr l) ++ "]"
  | JDict d =>
      "{" ++ join ", "
        ((fix go (d : list (string * json)) (seen : list string)
              {struct d} : list string :=
            match d with
            | [] => []
            | (k, x) :: r =>
                if mem k seen then go r seen
                else (repr_str k ++ ": " ++ repr x) :: go r (k :: seen)
            end) d [])
      ++ "}"
  end.

(** [str(v)], which is also what an f-string field [{v}] produces. *)
Definition str (v : json) : string :=
  match v with
  | JStr s => s
  | _ => repr v
  end.

(** A text all of whose characters are ASCII. *)
Definition ascii_text (s : string) : bool :=
  forallb (fun c => char_code c <? 128) (list_ascii_of_string s).

(** A value in which every text, keys included, is ASCII. *)
Fixpoint plain (v : json) : bool :=
  match v with
  | JStr s => ascii_text s
  | JList l => forallb plain l
  | JDict d =>
      (fix go (d : list (string * json)) {struct d} : bool :=
         match d with
         | [] => true
         | (k, x) :: r => ascii_text k && plain x && go r
         end) d
  | _ => true
  end.

(** The values whose [str] is modelled exactly: a [str] prints as itself,
    whatever its characters; a list or an object goes through [repr] and
    must be [plain]. *)
Definition printed_exactly (v : json) : bool :=
  match v with
  | JStr _ => true
  | _ => plain v
  end.

(** ** [json.dumps] *)

Definition hex4 (n : Z) : string :=
  Bytes.hex_byte (Z.shiftr n 8) ++ Bytes.hex_byte (Z.land n 255).

(** The code point of one character, from its UTF-8 bytes. *)
Definition code_point (ch : string) : Z :=
  match ch with
  | EmptyString => 0
  | String c r =>
      let n := char_code c in
      let lead := if n <? 0x80 then n
                  else if n <? 0xe0 then Z.land n 0x1f
                  else if n <? 0xf0 then Z.land n 0x0f
                  else Z.land n 0x07 in
      fold_left (fun acc b => Z.lor (Z.shiftl acc 6) (Z.land b 0x3f))
                (Bytes.encode r) lead
  end.

(** One character of a JSON string under [ensure_ascii=True]. *)
Definition escape_char (ch : string) : string :=
  let cp := code_point ch in
  if cp =? 34 then backslash ++ quote
  else if cp =? 92 then backslash ++ backslash
  else if cp =? 10 then backslash ++ "n"
  else if cp =? 13 then backslash ++ "r"
  else if cp =? 9 then backslash ++ "t"
  else if cp =? 8 then backslash ++ "b"
  else if cp =? 12 then backslash ++ "f"
  else if (32 <=? cp) && (cp <=? 126) then ch
  else if cp <? 0x10000 then backslash ++ "u" ++ hex4 cp
  else
    let v := cp - 0x10000 in
    backslash ++ "u" ++ hex4 (Z.lor 0xd800 (Z.shiftr v 10))
    ++ backslash ++ "u" ++ hex4 (Z.lor 0xdc00 (Z.land v 0x3ff)).

Definition dumps_str (s : string) : string :=
  quote ++ String.concat "" (map escape_char (chars s)) ++ quote.

(** [json.dumps(v, separators=(item_sep, key_sep))] *)
Fixpoint dumps (item_sep key_sep : string) (v : json) : string :=
  match v with
  | JNull => "null"
  | JBool b => if b then "true" else "false"
  | JInt n => str_int n
  | JStr s => dumps_str s
  | JList l => "[" ++ join item_sep (map (dumps item_sep key_sep) l) ++ "]"
  | JDict d =>
      "{" ++ join item_sep
        ((fix go (d : list (string * json)) (seen : list string)
              {struct d} : list string :=
            match d with
            | [] => []
            | (k, x) :: r =>
                if mem k seen then go r seen
                else (dumps_str k ++ key_sep ++ dumps item_sep key_sep x)
                       :: go r (k :: seen)
            end) d [])
      ++ "}"
  end.

(** [s.encode()]: only a [str] has the method. *)
Definition encode (v : json) : result (list Z) :=
  match v with
  | JStr s => Ok (Bytes.encode s)
  | _ => attribute_error v "encode"
  end.

End Py.

(* ================================================================== *)
(** * The adapter: [class EndfieldAdapter] *)

Module Endfield.
Import Py.

Definition BASE_URL : string := "https://zonai.skport.com/web/v1".
Definition API_BASE_URL : string := "https://zonai.skport.com/api/v1".
Definition OAUTH_URL : string := "https://as.gryphline.com".

Definition APP_CODE : string := "6eb76d4e13aa36e6".
Definition PLATFORM : string := "3".
Definition VNAME : string := "1.0.0".
Definition ENDFIELD_GAME_ID : string := "3".

(** ** The upstream service and the adapter object *)

Inductive http_method : Type := GET | POST.

(** One call of [self.session.get] or [self.session.post]: the [json=]
    argument is [req_json].  Header values are the Python values the
    adapter puts in the [headers] dictionary. *)
Record request : Type := Request {
  req_method : http_method;
  req_url : string;
  req_headers : list (string * json);
  req_json : option json
}.

(** What a call followed by [response.json()] gives: the decoded payload,
    or the exception raised by the transport or by the decoder. *)
Definition reply : Type := result json.

Definition exchange : Type := (request * reply)%type.

(** The world outside the adapter: the clock, read as
    [int(time.time())], and the service, which may answer a request
    according to everything exchanged before. *)
Record upstream : Type := Upstream {
  time : nat -> Z;
  respond : list exchange -> request -> reply
}.

(** The fields of [self].  [None] is [JNull]; [trace] lists the calls made
    through [self.session], oldest first, and [ticks] counts the readings
    of the clock.  [account_name] only appears in log lines and is left
    out, as are the log lines whose arguments cannot raise. *)
Record adapter : Type := Adapter {
  account_token : string;
  cred : json;
  sign_token : json;
  game_role : json;
  trace : list exchange;
  ticks : nat
}.

Definition set_cred (v : json) (a : adapter) : adapter :=
  Adapter (account_token a) v (sign_token a) (game_role a) (trace a) (ticks a).
Definition set_sign_token (v : json) (a : adapter) : adapter :=
  Adapter (account_token a) (cred a) v (game_role a) (trace a) (ticks a).
Definition set_game_role (v : json) (a : adapter) : adapter :=
  Adapter (account_token a) (cred a) (sign_token a) v (trace a) (ticks a).
Definition log_exchange (x : exchange) (a : adapter) : adapter :=
  Adapter (account_token a) (cred a) (sign_token a) (game_role a)
          (trace a ++ [x]) (ticks a).
Definition tick (a : adapter) : adapter :=
  Adapter (account_token a) (cred a) (sign_token a) (game_role a)
          (trace a) (S (ticks a)).

(** ** Methods run in a state-and-exception monad

    A method takes the object and returns a value or a raised exception
    together with the object as the method left it. *)

Definition M (A : Type) : Type := adapter -> result A * adapter.

Definition ret {A} (x : A) : M A := fun a => (Ok x, a).

Definition mbind {A B} (m : M A) (f : A -> M B) : M B :=
  fun a =>
    match m a with
    | (Ok x, a') => f x a'
    | (Raise e, a') => (Raise e, a')
    end.

Definition lift {A} (r : result A) : M A := fun a => (r, a).

Definition self : M adapter := fun a => (Ok a, a).

Definition modify (f : adapter -> adapter) : M unit := fun a => (Ok tt, f a).

(** [try: body except Exception as e: handler] *)
Definition try_except {A} (body : M A) (handler : exn -> M A) : M A :=
  fun a =>
    match body a with
    | (Ok x, a') => (Ok x, a')
    | (Raise e, a') => handler e a'
    end.

Declare Scope py_scope.
Delimit Scope py_scope with py.
Notation "x <- r ;; k" := (Py.bind r (fun x => k))
  (at level 61, r at next level, right associativity) : py_scope.

Declare Scope method_scope.
Delimit Scope method_scope with method.
Notation "x <- m ;; k" := (mbind m (fun x => k))
  (at level 61, m at next level, right associativity) : method_scope.
Notation "m ;; k" := (mbind m (fun _ => k))
  (at level 61, right associativity) : method_scope.

(** [str(int(time.time()))] *)
Definition timestamp_now (w : upstream) : M string :=
  fun a => (Ok (str_int (time w (ticks a))), tick a).

(** [self.session.<method>(url, ...)] followed by [response.json()]. *)
Definition http (w : upstream) (req : request) : M json :=
  fun a =>
    let r := respond w (trace a) req in
    (r, log_exchange (req, r) a).

(** [EndfieldAdapter.__init__]: a token that does not look like an encoded
    one and is shorter than 100 characters is taken as the cred itself. *)
Definition __init__ (token : string) : adapter :=
  let a := Adapter token JNull JNull JNull [] 0 in
  if negb (startswith token "eyJ") && (len token <? 100)
  then set_cred (JStr token) a
  else a.

(** ** The credential exchange chain *)

Definition grant_url : string := OAUTH_URL ++ "/user/oauth2/v2/grant".
Definition cred_url : string := BASE_URL ++ "/user/auth/generate_cred_by_code".
Definition refresh_url : string := BASE_URL ++ "/auth/refresh".
Definition binding_url : string := API_BASE_URL ++ "/game/player/binding".
Definition attendance_url : string := BASE_URL ++ "/game/endfield/attendance".

(** The block of [_get_oauth_code] that reads the decoded payload: the
    code when the status is 0 and a code is there, [None] otherwise. *)
Definition extract_oauth_code (data : json) : result json :=
  (status <- get data "status" JNull ;;
   inner <- (if equal status (JInt 0)
             then (d <- get data "data" (JDict []) ;; get d "code" JNull)
             else Ok (JBool false)) ;;
   if truthy inner
   then (d <- getitem data (JStr "data") ;; getitem d (JStr "code"))
   else Ok JNull)%py.

Definition grant_request (a : adapter) : request :=
  Request POST grant_url
    [("Content-Type", JStr "application/json");
     ("Accept", JStr "application/json")]
    (Some (JDict [("token", JStr (account_token a));
                  ("appCode", JStr APP_CODE);
                  ("type", JInt 0)])).

(** [_get_oauth_code] *)
Definition _get_oauth_code (w : upstream) : M json :=
  try_except
    (a <- self ;;
     data <- http w (grant_request a) ;;
     lift (extract_oauth_code data))%method
    (fun _ => ret JNull).

(** The same block of [_get_cred]; the log line slices the cred. *)
Definition extract_cred (data : json) : result json :=
  (code <- get data "code" JNull ;;
   inner <- (if equal code (JInt 0)
             then (d <- get data "data" (JDict []) ;; get d "cred" JNull)
             else Ok (JBool false)) ;;
   if truthy inner
   then (d <- getitem data (JStr "data") ;;
         cred <- getitem d (JStr "cred") ;;
         _ <- slice_prefix cred ;;
         Ok cred)
   else Ok JNull)%py.

Definition cred_request (oauth_code : json) : request :=
  Request POST cred_url
    [("Content-Type", JStr "application/json");
     ("Accept", JStr "application/json");
     ("platform", JStr PLATFORM);
     ("Referer", JStr "https://www.skport.com/");
     ("Origin", JStr "https://www.skport.com")]
    (Some (JDict [("kind", JInt 1); ("code", oauth_code)])).

(** [_get_cred] *)
Definition _get_cred (w : upstream) (oauth_code : json) : M json :=
  try_except
    (data <- http w (cred_request oauth_code) ;;
     lift (extract_cred data))%method
    (fun _ => ret JNull).

(** The headers every authenticated call carries. *)
Definition auth_headers (a : adapter) (timestamp : string)
  : list (string * json) :=
  [("cred", cred a);
   ("platform", JStr PLATFORM);
   ("vname", JStr VNAME);
   ("timestamp", JStr timestamp);
   ("sk-language", JStr "en")].

(** The same block of [_get_sign_token]; the log line slices the token. *)
Definition extract_sign_token (data : json) : result json :=
  (code <- get data "code" JNull ;;
   inner <- (if equal code (JInt 0)
             then (d <- get data "data" (JDict []) ;; get d "token" JNull)
             else Ok (JBool false)) ;;
   if truthy inner
   then (d <- getitem data (JStr "data") ;;
         sign_token <- getitem d (JStr "token") ;;
         _ <- slice_prefix sign_token ;;
         Ok sign_token)
   else Ok JNull)%py.

Definition refresh_request (a : adapter) (timestamp : string) : request :=
  Request GET refresh_url (auth_headers a timestamp) None.

(** [_get_sign_token] *)
Definition _get_sign_token (w : upstream) : M json :=
  try_except
    (timestamp <- timestamp_now w ;;
     a <- self ;;
     data <- http w (refresh_request a timestamp) ;;
     lift (extract_sign_token data))%method
    (fun _ => ret JNull).

(** ** The signature *)

(** [_compute_sign]; the first argument is [self.sign_token]. *)
Definition _compute_sign (sign_token : json) (path body timestamp : string)
  : result string :=
  let header_obj := JDict [("platform", JStr PLATFORM);
                           ("timestamp", JStr timestamp);
                           ("dId", JStr "");
                           ("vName", JStr VNAME)] in
  let headers_json := dumps "," ":" header_obj in
  let sign_string := path ++ body ++ timestamp ++ headers_json in
  (key <- encode sign_token ;;
   let hmac_hash := Hmac.hexdigest key (Bytes.encode sign_string) in
   let md5_hash := Md5.hexdigest (Bytes.encode hmac_hash) in
   Ok md5_hash)%py.

Definition sign_request (path body timestamp : string) : M string :=
  fun a => (_compute_sign (sign_token a) path body timestamp, a).

(** ** The player binding *)

(** The loop [for app in apps] of [_get_player_binding]; [JNull] when it
    runs to its end without returning. *)
Fixpoint find_role (apps : list json) : result json :=
  match apps with
  | [] => Ok JNull
  | app :: rest =>
      (app_code <- get app "appCode" JNull ;;
       bound <- (if equal app_code (JStr "endfield")
                 then get app "bindingList" JNull
                 else Ok (JBool false)) ;;
       if truthy bound then
         binding_list <- getitem app (JStr "bindingList") ;;
         binding <- getitem binding_list (JInt 0) ;;
         default_role <- get binding "defaultRole" JNull ;;
         role <- (if truthy default_role then Ok default_role
                  else
                    roles <- get binding "roles" JNull ;;
                    if truthy roles
                    then (roles <- get binding "roles" (JList [JDict []]) ;;
                          getitem roles (JInt 0))
                    else Ok JNull) ;;
         if truthy role then
           role_id <- get role "roleId" JNull ;;
           server_id <- get role "serverId" JNull ;;
           Ok (JStr (ENDFIELD_GAME_ID ++ "_" ++ str role_id
                       ++ "_" ++ str server_id))
         else find_role rest
       else find_role rest)%py
  end.

(** The block of [_get_player_binding] that reads the decoded payload. *)
Definition extract_game_role (data : json) : result json :=
  (code <- get data "code" JNull ;;
   inner <- (if equal code (JInt 0)
             then (d <- get data "data" (JDict []) ;; get d "list" JNull)
             else Ok (JBool false)) ;;
   if truthy inner
   then (d <- getitem data (JStr "data") ;;
         apps <- getitem d (JStr "list") ;;
         apps <- iter apps ;;
         find_role apps)
   else Ok JNull)%py.

Definition binding_path : string := "/api/v1/game/player/binding".

Definition binding_request (a : adapter) (timestamp signature : string)
  : request :=
  Request GET binding_url
    (auth_headers a timestamp ++ [("sign", JStr signature)]) None.

(** [_get_player_binding] *)
Definition _get_player_binding (w : upstream) : M json :=
  try_except
    (timestamp <- timestamp_now w ;;
     signature <- sign_request binding_path "" timestamp ;;
     a <- self ;;
     data <- http w (binding_request a timestamp signature) ;;
     lift (extract_game_role data))%method
    (fun _ => ret JNull).

(** [authenticate] *)
Definition authenticate (w : upstream) : M bool :=
  try_except
    (a <- self ;;
     have_cred <-
       (if negb (truthy (cred a)) then
          oauth_code <- _get_oauth_code w ;;
          if negb (truthy oauth_code) then ret false
          else
            cred <- _get_cred w oauth_code ;;
            if negb (truthy cred) then ret false
            else (modify (set_cred cred) ;; ret true)
        else ret true) ;;
     if negb have_cred then ret false
     else
       sign_token <- _get_sign_token w ;;
       if negb (truthy sign_token) then ret false
       else
         modify (set_sign_token sign_token) ;;
         game_role <- _get_player_binding w ;;
         modify (set_game_role game_role) ;;
         ret true)%method
    (fun _ => ret false).

(** ** The check-in client *)

Definition attendance_path : string := "/web/v1/game/endfield/attendance".

(** The payload both client operations return when anything raises. *)
Definition error_payload (e : exn) : json :=
  JDict [("code", JInt (-1)); ("message", JStr (exn_text e))].

(** [if self.game_role: headers["sk-game-role"] = self.game_role] *)
Definition with_role (a : adapter) (headers : list (string * json))
  : list (string * json) :=
  if truthy (game_role a)
  then headers ++ [("sk-game-role", game_role a)]
  else headers.

Definition check_request (a : adapter) (timestamp signature : string)
  : request :=
  Request GET attendance_url
    (with_role a (auth_headers a timestamp ++ [("sign", JStr signature)]))
    None.

(** [check_attendance] *)
Definition check_attendance (w : upstream) : M json :=
  try_except
    (timestamp <- timestamp_now w ;;
     signature <- sign_request attendance_path "" timestamp ;;
     a <- self ;;
     http w (check_request a timestamp signature))%method
    (fun e => ret (error_payload e)).

Definition claim_request (a : adapter) (timestamp signature : string)
  : request :=
  Request POST attendance_url
    (with_role a (auth_headers a timestamp
                  ++ [("sign", JStr signature);
                      ("Content-Type", JStr "application/json")]))
    None.

(** [claim_attendance] *)
Definition claim_attendance (w : upstream) : M json :=
  try_except
    (timestamp <- timestamp_now w ;;
     signature <- sign_request attendance_path "" timestamp ;;
     a <- self ;;
     http w (claim_request a timestamp signature))%method
    (fun e => ret (error_payload e)).

(** ** The check-in decision *)

(** The dictionary built from a resource of a catalog. *)
Record reward_dict : Type := Reward {
  name : json;
  count : json;
  icon : json
}.

(** The dictionary [perform_checkin] returns. *)
Record outcome : Type := Outcome {
  success : bool;
  message : json;
  already_signed : bool;
  reward : option reward_dict;
  total_sign_day : Z
}.

Definition reward_of (resource : json) : result reward_dict :=
  (name <- get resource "name" (JStr "Unknown") ;;
   count <- get resource "count" (JInt 0) ;;
   icon <- get resource "icon" (JStr "") ;;
   Ok (Reward name count icon))%py.

(** [[c for c in calendar if c.get("done", False)]] *)
Fixpoint done_records (calendar : list json) : result (list json) :=
  match calendar with
  | [] => Ok []
  | c :: rest =>
      (done <- get c "done" (JBool false) ;;
       others <- done_records rest ;;
       Ok (if truthy done then c :: others else others))%py
  end.

(** [award_id and award_id in resource_map] *)
Definition resolves (resource_map award_id : json) : result bool :=
  if truthy award_id then contains_item resource_map award_id else Ok false.

(** The loop [for record in calendar] that keeps the reward of the last
    done record whose award is in the catalog. *)
Fixpoint last_reward_loop (resource_map : json) (calendar : list json)
    (last_reward : option reward_dict) : result (option reward_dict) :=
  match calendar with
  | [] => Ok last_reward
  | record :: rest =>
      (done <- get record "done" JNull ;;
       if truthy done then
         award_id <- get record "awardId" JNull ;;
         hit <- resolves resource_map award_id ;;
         if hit then
           resource <- getitem resource_map award_id ;;
           r <- reward_of resource ;;
           last_reward_loop resource_map rest (Some r)
         else last_reward_loop resource_map rest last_reward
       else last_reward_loop resource_map rest last_reward)%py
  end.

(** The loop [for award in award_ids] that fills [rewards]. *)
Fixpoint collect_rewards (claim_resource_map : json) (award_ids : list json)
  : result (list reward_dict) :=
  match award_ids with
  | [] => Ok []
  | award :: rest =>
      (award_id <- (if is_dict award then get award "id" JNull
                    else Ok award) ;;
       hit <- resolves claim_resource_map award_id ;;
       if hit then
         resource <- getitem claim_resource_map award_id ;;
         r <- reward_of resource ;;
         others <- collect_rewards claim_resource_map rest ;;
         Ok (r :: others)
       else collect_rewards claim_resource_map rest)%py
  end.

(** [", ".join([f"{r['name']} x{r['count']}" for r in rewards])
     if rewards else "Unknown"] *)
Definition reward_text (rewards : list reward_dict) : string :=
  match rewards with
  | [] => "Unknown"
  | _ => join ", " (map (fun r => str (name r) ++ " x" ++ str (count r)) rewards)
  end.

(** [msg.lower()]: only a [str] has the method. *)
Definition lower_method (msg : json) : result string :=
  match msg with
  | JStr s => Ok (lower s)
  | _ => attribute_error msg "lower"
  end.

(** [code in [1001, 10001] or "already" in msg.lower()] *)
Definition already_claimed (code msg : json) : result bool :=
  (listed <- contains_item (JList [JInt 1001; JInt 10001]) code ;;
   if listed then Ok true
   else (text <- lower_method msg ;; Ok (contains "already" text)))%py.

Definition auth_failed : outcome :=
  Outcome false (JStr "Authentication failed") false None 0.

(** What [perform_checkin] does with the payload of the claim call. *)
Definition claim_outcome (total_signed : Z) (claim_data : json)
  : result outcome :=
  (code <- get claim_data "code" JNull ;;
   msg <- get claim_data "message" (JStr "") ;;
   if equal code (JInt 0) then
     data <- get claim_data "data" (JDict []) ;;
     award_ids <- get data "awardIds" (JList []) ;;
     data <- get claim_data "data" (JDict []) ;;
     claim_resource_map <- get data "resourceInfoMap" (JDict []) ;;
     rewards <- (if truthy award_ids && truthy claim_resource_map
                 then (awards <- iter award_ids ;;
                       collect_rewards claim_resource_map awards)
                 else Ok []) ;;
     let primary_reward := match rewards with
                           | r :: _ => Some r
                           | [] => None
                           end in
     Ok (Outcome true
           (JStr ("Signed in successfully! Rewards: " ++ reward_text rewards))
           false primary_reward (total_signed + 1))
   else
     already <- already_claimed code msg ;;
     if already then
       Ok (Outcome true (JStr "Already signed in today") true None total_signed)
     else if equal code (JInt 10002) then
       Ok (Outcome false
             (JStr "Account token expired. Please update your token.")
             false None 0)
     else
       Ok (Outcome false
             (JStr ("API Error (code " ++ str code ++ "): " ++ str msg))
             false None total_signed))%py.

(** [perform_checkin] *)
Definition perform_checkin (w : upstream) : M outcome :=
  try_except
    (ok <- authenticate w ;;
     if negb ok then ret auth_failed
     else
       check_data <- check_attendance w ;;
       code <- lift (get check_data "code" JNull) ;;
       if negb (equal code (JInt 0)) then
         msg <- lift (get check_data "message"
                        (JStr "Failed to check attendance")) ;;
         ret (Outcome false msg false None 0)
       else
         data <- lift (get check_data "data" (JDict [])) ;;
         has_today <- lift (get data "hasToday" (JBool false)) ;;
         calendar <- lift (get data "calendar" (JList [])) ;;
         resource_map <- lift (get data "resourceInfoMap" (JDict [])) ;;
         records <- lift (iter calendar) ;;
         done <- lift (done_records records) ;;
         let total_signed := Z.of_nat (List.length done) in
         if truthy has_today then
           records <- lift (iter calendar) ;;
           last_reward <- lift (last_reward_loop resource_map records None) ;;
           ret (Outcome true (JStr "Already signed in today") true
                        last_reward total_signed)
         else
           claim_data <- claim_attendance w ;;
           lift (claim_outcome total_signed claim_data))%method
    (fun e => ret (Outcome false (JStr (exn_text e)) false None 0)).

End Endfield.

(* ================================================================== *)
(** * The account processor: [Game.sign] *)

Module Game.
Import Py Endfield.

(** [EndfieldAdapter(account_token)]: the constructor calls
    [account_token.startswith], which only a [str] has. *)
Definition new_adapter (account_token : json) : result adapter :=
  match account_token with
  | JStr token => Ok (__init__ token)
  | _ => attribute_error account_token "startswith"
  end.

(** [Game.sign]: the outcome of the adapter, field by field, or a failure
    carrying the text of whatever was raised. *)
Definition sign (w : upstream) (account_token : json) : outcome :=
  match new_adapter account_token with
  | Ok adapter =>
      match fst (perform_checkin w adapter) with
      | Ok result =>
          Outcome (success result) (message result) (already_signed result)
                  (reward result) (total_sign_day result)
      | Raise e => Outcome false (JStr (exn_text e)) false None 0
      end
  | Raise e => Outcome false (JStr (exn_text e)) false None 0
  end.

End Game.

(* ================================================================== *)
(** * The signature as the specification words it *)

Module SignatureSpec.
Import Py Endfield.

(** One member of a JSON object, with nothing between its parts. *)
Definition member (key value : string) : string :=
  dumps_str key ++ ":" ++ dumps_str value.

(** The header object: platform, timestamp, an empty device id and the
    client version, under the keys the service reads them from, in this
    order, separated by commas only. *)
Definition canonical_headers (timestamp : string) : string :=
  "{" ++ member "platform" PLATFORM
  ++ "," ++ member "timestamp" timestamp
  ++ "," ++ member "dId" ""
  ++ "," ++ member "vName" VNAME
  ++ "}".

(** MD5, in hexadecimal, of HMAC-SHA256, in hexadecimal, of
    [path || body || timestamp || headers] under the signing token. *)
Definition spec_sign (path body timestamp signing_token : string) : string :=
  let signing_string := path ++ body ++ timestamp ++ canonical_headers timestamp in
  let mac := Bytes.hex (Hmac.digest (Bytes.encode signing_token)
                                    (Bytes.encode signing_string)) in
  Bytes.hex (Md5.digest (Bytes.encode mac)).

End SignatureSpec.

(* ================================================================== *)
(** * What a run leaves in the trace *)

Module Observe.
Import Py Endfield.

(** What a step of the chain returns from a reply: the extracted value,
    [None] when the call or the extraction raised. *)
Definition or_none (r : result json) : json :=
  match r with
  | Ok v => v
  | Raise _ => JNull
  end.

(** The timestamp the next request of [a] will carry. *)
Definition stamp (w : upstream) (a : adapter) : string :=
  str_int (time w (ticks a)).

(** A reply reports success when it is a payload whose status field
    equals 0. *)
Definition status_ok (field : string) (r : reply) : bool :=
  match r with
  | Ok data =>
      match get data field JNull with
      | Ok s => equal s (JInt 0)
      | Raise _ => false
      end
  | Raise _ => false
  end.

(** A hop of the chain (grant, code for cred, refresh) that did not report
    success. *)
Definition hop_failed (x : exchange) : bool :=
  let url := req_url (fst x) in
  (String.eqb url grant_url && negb (status_ok "status" (snd x)))
  || (String.eqb url cred_url && negb (status_ok "code" (snd x)))
  || (String.eqb url refresh_url && negb (status_ok "code" (snd x))).

Definition chain_failure (t : list exchange) : bool := existsb hop_failed t.

Definition to_attendance (x : exchange) : bool :=
  String.eqb (req_url (fst x)) attendance_url.

Definition is_post (m : http_method) : bool :=
  match m with
  | POST => true
  | GET => false
  end.

(** The claim call: a POST to the attendance endpoint. *)
Definition is_claim (x : exchange) : bool :=
  to_attendance x && is_post (req_method (fst x)).

Definition is_grant (x : exchange) : bool :=
  String.eqb (req_url (fst x)) grant_url.

(** The test [__init__] applies to the raw token. *)
Definition short_form (token : string) : bool :=
  negb (startswith token "eyJ") && (len token <? 100).

Definition header_names (x : exchange) : list string :=
  map fst (req_headers (fst x)).

(** The refresh hop handed a signing token back. *)
Definition refresh_succeeded (x : exchange) : bool :=
  String.eqb (req_url (fst x)) refresh_url
  && truthy (or_none (bind (snd x) extract_sign_token)).

Definition field (k : string) (default : json) (d : list (string * json))
  : json :=
  match lookup k d with
  | Some v => v
  | None => default
  end.

Definition is_endfield_app (app : json) : bool :=
  match app with
  | JDict f => equal (field "appCode" JNull f) (JStr "endfield")
  | _ => false
  end.

(** The binding payload lists an entry for the target game. *)
Definition has_endfield_entry (data : json) : bool :=
  match data with
  | JDict top =>
      match field "data" (JDict []) top with
      | JDict d =>
          match field "list" JNull d with
          | JList apps => existsb is_endfield_app apps
          | _ => false
          end
      | _ => false
      end
  | _ => false
  end.

(** The binding lookup failed, or found nothing for the target game. *)
Definition binding_unresolved (x : exchange) : bool :=
  match snd x with
  | Ok data => negb (has_endfield_entry data)
  | Raise _ => true
  end.

(** Some refresh in the trace succeeded. *)
Definition refreshed (t : list exchange) : bool := existsb refresh_succeeded t.

(** No binding lookup in the trace found a role. *)
Definition no_binding_found (t : list exchange) : bool :=
  forallb (fun x => negb (String.eqb (req_url (fst x)) binding_url)
                    || binding_unresolved x) t.

End Observe.

(* ================================================================== *)
(** * The shapes of the payloads *)

Module Shape.
Import Py Endfield Observe.

(** The part of a check payload the decision reads, when the payload is an
    object, its [data] (if any) is an object, and the calendar (if any) is
    a list of objects. *)
Record snapshot : Type := Snapshot {
  has_today : json;
  calendar : list json;
  resource_map : json
}.

Definition snapshot_of (check_data : json) : option snapshot :=
  match check_data with
  | JDict top =>
      match field "data" (JDict []) top with
      | JDict d =>
          match field "calendar" (JList []) d with
          | JList cal =>
              if forallb is_dict cal
              then Some (Snapshot (field "hasToday" (JBool false) d) cal
                                  (field "resourceInfoMap" (JDict []) d))
              else None
          | _ => None
          end
      | _ => None
      end
  | _ => None
  end.

(** A calendar entry is done when its completion flag is true. *)
Definition marked_done (entry : json) : bool :=
  match entry with
  | JDict f => truthy (field "done" (JBool false) f)
  | _ => false
  end.

(** The number of entries marked done: the baseline. *)
Definition baseline (cal : list json) : Z :=
  Z.of_nat (List.length (filter marked_done cal)).

Definition reward_fields (r : list (string * json)) : reward_dict :=
  Reward (field "name" (JStr "Unknown") r)
         (field "count" (JInt 0) r)
         (field "icon" (JStr "") r).

(** The reward an id stands for in a catalog. *)
Definition resolve (m : list (string * json)) (id : json)
  : option reward_dict :=
  match id with
  | JStr k =>
      if String.eqb k "" then None
      else match lookup k m with
           | Some (JDict r) => Some (reward_fields r)
           | _ => None
           end
  | _ => None
  end.

Definition award_of (entry : json) : json :=
  match entry with
  | JDict f => field "awardId" JNull f
  | _ => JNull
  end.

(** The awarded id of an element of [awardIds]: under its key [id] when
    the element is an object, the element itself otherwise. *)
Definition award_id (award : json) : json :=
  match award with
  | JDict f => field "id" JNull f
  | _ => award
  end.

(** Whether the test [award_id and award_id in catalog] and the lookup
    after it go through without raising.  A false id is skipped before the
    catalog is touched.  For any other id the catalog must be an object,
    the id must be hashable, and the entry the id names, when it names
    one, must be an object. *)
Definition usable_id (catalog id : json) : bool :=
  negb (truthy id)
  || match catalog with
     | JDict m =>
         match id with
         | JStr k =>
             match lookup k m with
             | Some x => is_dict x
             | None => true
             end
         | JList _ | JDict _ => false
         | _ => true
         end
     | _ => false
     end.

(** A calendar entry the loop of the already-signed branch gets through:
    one that is not done, or whose reward id is usable. *)
Definition usable_entry (catalog entry : json) : bool :=
  negb (marked_done entry) || usable_id catalog (award_of entry).

(** The reward an id stands for in a catalog: none unless the catalog is
    an object. *)
Definition resolve_in (catalog id : json) : option reward_dict :=
  match catalog with
  | JDict m => resolve m id
  | _ => None
  end.

(** The part of a claim payload the success branch reads: the awards its
    loop visits and the catalog it looks them up in.  The payload is an
    object and its [data] (if any) is an object; when the awards and the
    catalog are both true values the awards are a list whose ids are
    usable, and otherwise the loop is not entered. *)
Definition awarded (claim_data : json) : option (list json * json) :=
  match claim_data with
  | JDict top =>
      match field "data" (JDict []) top with
      | JDict d =>
          let award_ids := field "awardIds" (JList []) d in
          let catalog := field "resourceInfoMap" (JDict []) d in
          if truthy award_ids && truthy catalog
          then match award_ids with
               | JList awards =>
                   if forallb (fun a => usable_id catalog (award_id a)) awards
                   then Some (awards, catalog)
                   else None
               | _ => None
               end
          else Some ([], catalog)
      | _ => None
      end
  | _ => None
  end.

(** The rewards a list of ids resolves to, in order. *)
Definition resolved (catalog : json) (ids : list json) : list reward_dict :=
  flat_map (fun id => match resolve_in catalog id with
                      | Some r => [r]
                      | None => []
                      end) ids.

(** The rewards whose name and count print exactly. *)
Definition printable_reward (r : reward_dict) : bool :=
  printed_exactly (name r) && printed_exactly (count r).

(** Looking an id up the way both loops of [perform_checkin] do: the test
    [id and id in catalog], then [catalog[id]] and the three [.get]. *)
Definition looked_up (catalog id : json) : result (option reward_dict) :=
  bind (resolves catalog id)
       (fun hit => if hit
                   then bind (getitem catalog id)
                             (fun resource => bind (reward_of resource)
                                                   (fun r => Ok (Some r)))
                   else Ok None).

(** The reward kept after one more calendar entry. *)
Definition keep_last (catalog : json)
    (acc : option reward_dict) (entry : json) : option reward_dict :=
  if marked_done entry
  then match resolve_in catalog (award_of entry) with
       | Some r => Some r
       | None => acc
       end
  else acc.

(** The [except] clause of [perform_checkin]. *)
Definition caught (r : result outcome) : result outcome :=
  match r with
  | Ok o => Ok o
  | Raise e => Ok (Outcome false (JStr (exn_text e)) false None 0)
  end.

End Shape.

(* ================================================================== *)
(** * A scripted upstream, for concrete runs *)

Module Sample.
Import Py Endfield Observe.

(** An upstream that answers each endpoint with a fixed reply. *)
Definition scripted (grant exchange_cred refresh binding check claim : reply)
  : upstream :=
  Upstream (fun n => 1700000000 + Z.of_nat n)
    (fun _ req =>
       if String.eqb (req_url req) grant_url then grant
       else if String.eqb (req_url req) cred_url then exchange_cred
       else if String.eqb (req_url req) refresh_url then refresh
       else if String.eqb (req_url req) binding_url then binding
       else if is_post (req_method req) then claim
       else check).

Definition ok_grant : reply :=
  Ok (JDict [("status", JInt 0); ("data", JDict [("code", JStr "oauth-code")])]).

Definition ok_cred : reply :=
  Ok (JDict [("code", JInt 0); ("data", JDict [("cred", JStr "cred-value")])]).

Definition ok_refresh : reply :=
  Ok (JDict [("code", JInt 0); ("data", JDict [("token", JStr "sign-token")])]).

Definition ok_binding : reply :=
  Ok (JDict
        [("code", JInt 0);
         ("data",
          JDict
            [("list",
              JList
                [JDict
                   [("appCode", JStr "endfield");
                    ("bindingList",
                     JList
                       [JDict
                          [("defaultRole",
                            JDict [("roleId", JStr "4021");
                                   ("serverId", JStr "2")])]])]])])]).

(** A binding payload with an entry for another game only. *)
Definition other_game_binding : reply :=
  Ok (JDict
        [("code", JInt 0);
         ("data",
          JDict
            [("list",
              JList [JDict [("appCode", JStr "arknights");
                            ("bindingList", JList [])]])])]).

Definition day (done : bool) (award : string) : json :=
  JDict [("done", JBool done); ("awardId", JStr award)].

Definition catalog : json :=
  JDict [("orundum", JDict [("name", JStr "Orundum"); ("count", JInt 100);
                            ("icon", JStr "orundum.png")]);
         ("lmd", JDict [("name", JStr "LMD"); ("count", JInt 5000)])].

(** Five entries done, two to come. *)
Definition five_done : list json :=
  [day true "lmd"; day true "lmd"; day true "orundum"; day true "lmd";
   day true "orundum"; day false "lmd"; day false "orundum"].

Definition check_payload (today : bool) : json :=
  JDict [("code", JInt 0);
         ("message", JStr "OK");
         ("data", JDict [("hasToday", JBool today);
                         ("calendar", JList five_done);
                         ("resourceInfoMap", catalog)])].

Definition claim_payload (code : Z) (msg : string) : json :=
  JDict [("code", JInt code);
         ("message", JStr msg);
         ("data", JDict [("awardIds", JList [JDict [("id", JStr "orundum")]]);
                         ("resourceInfoMap", catalog)])].

Definition long_token : string := "eyJhbGciOiJIUzI1NiJ9.account".
Definition short_token : string := "4f9c2a7e1b".

(** The upstream of a day on which everything answers as it should. *)
Definition healthy (today : bool) (claim : reply) : upstream :=
  scripted ok_grant ok_cred ok_refresh ok_binding
           (Ok (check_payload today)) claim.

End Sample.

(* ================================================================== *)
(** * Reading the calls of a run *)

Module Calls.
Import Py Endfield Observe.

(** The value a request carries under a header name. *)
Definition header (k : string) (x : exchange) : option json :=
  lookup k (req_headers (fst x)).

(** The six calls the adapter knows. *)
Inductive endpoint : Type :=
| Grant | ExchangeCred | Refresh | Binding | Check | Claim.

Definition endpoint_eqb (p q : endpoint) : bool :=
  match p, q with
  | Grant, Grant | ExchangeCred, ExchangeCred | Refresh, Refresh
  | Binding, Binding | Check, Check | Claim, Claim => true
  | _, _ => false
  end.

(** Which call an exchange is, by its URL and method. *)
Definition endpoint_of (x : exchange) : option endpoint :=
  let url := req_url (fst x) in
  let post := is_post (req_method (fst x)) in
  if String.eqb url grant_url then (if post then Some Grant else None)
  else if String.eqb url cred_url then (if post then Some ExchangeCred else None)
  else if String.eqb url refresh_url then (if post then None else Some Refresh)
  else if String.eqb url binding_url then (if post then None else Some Binding)
  else if String.eqb url attendance_url
       then (if post then Some Claim else Some Check)
  else None.

Definition kinds (t : list exchange) : list (option endpoint) :=
  map endpoint_of t.

(** The order in which a run can make its calls. *)
Definition call_order : list (option endpoint) :=
  [Some Grant; Some ExchangeCred; Some Refresh; Some Binding;
   Some Check; Some Claim].

Definition same_kind (p q : option endpoint) : bool :=
  match p, q with
  | Some a, Some b => endpoint_eqb a b
  | _, _ => false
  end.

(** [l] is [order] with some elements left out. *)
Fixpoint is_subseq (order l : list (option endpoint)) : bool :=
  match l with
  | [] => true
  | x :: l' =>
      match order with
      | [] => false
      | y :: order' =>
          if same_kind x y then is_subseq order' l' else is_subseq order' l
      end
  end.

(** The timestamps the requests of a trace carry, in order. *)
Definition stamps (t : list exchange) : list json :=
  flat_map (fun x => match header "timestamp" x with
                     | Some v => [v]
                     | None => []
                     end) t.

(** The first [n] readings of the clock, as the adapter writes them. *)
Definition readings (w : upstream) (first n : nat) : list json :=
  map (fun k => JStr (str_int (time w k))) (seq first n).

Definition HOST : string := "https://zonai.skport.com".

Fixpoint strip_prefix (p s : string) : option string :=
  match p with
  | EmptyString => Some s
  | String c p' =>
      match s with
      | EmptyString => None
      | String d s' => if Ascii.eqb c d then strip_prefix p' s' else None
      end
  end.

(** The path of a URL of the service: what follows the host. *)
Definition url_path (url : string) : string :=
  match strip_prefix HOST url with
  | Some path => path
  | None => url
  end.

(** The calls that must be signed: the binding lookup and the two
    attendance calls. *)
Definition is_signed_call (x : exchange) : bool :=
  String.eqb (req_url (fst x)) binding_url
  || String.eqb (req_url (fst x)) attendance_url.

(** The [sign] header of [x] is the signature, under [token], of the path
    of its URL, an empty body and its own [timestamp] header. *)
Definition signed_by (token : json) (x : exchange) : bool :=
  match header "timestamp" x, header "sign" x with
  | Some (JStr ts), Some (JStr sg) =>
      match _compute_sign token (url_path (req_url (fst x))) "" ts with
      | Ok s => String.eqb s sg
      | Raise _ => false
      end
  | _, _ => false
  end.

(** A signed call is signed as above, and any other call has no [sign]
    header. *)
Definition signature_ok (token : json) (x : exchange) : bool :=
  if is_signed_call x then signed_by token x
  else match header "sign" x with
       | None => true
       | Some _ => false
       end.

(** What a run adds to the trace after the chain: nothing, the check, or
    the check and the claim, each signed over its own timestamp. *)
Definition attendance_calls (w : upstream) (a : adapter)
    (new : list exchange) : Prop :=
  new = []
  \/ (exists sg r,
         _compute_sign (sign_token a) attendance_path "" (stamp w a) = Ok sg
         /\ new = [(check_request a (stamp w a) sg, r)])
  \/ (exists sg r sg' r',
         _compute_sign (sign_token a) attendance_path "" (stamp w a) = Ok sg
         /\ _compute_sign (sign_token a) attendance_path ""
                          (stamp w (tick a)) = Ok sg'
         /\ new = [(check_request a (stamp w a) sg, r);
                   (claim_request a (stamp w (tick a)) sg', r')]).

Definition is_str (v : json) : bool :=
  match v with
  | JStr _ => true
  | _ => false
  end.

(** The characters [hexdigest] writes. *)
Definition is_lower_hex (c : ascii) : bool :=
  let n := char_code c in
  ((48 <=? n) && (n <=? 57)) || ((97 <=? n) && (n <=? 102)).

(** An entry of the binding list that the loop of [_get_player_binding]
    passes over: an object that is not for the target game, or has no
    binding. *)
Definition passed_over (app : json) : bool :=
  match app with
  | JDict f =>
      negb (equal (field "appCode" JNull f) (JStr "endfield"))
      || negb (truthy (field "bindingList" JNull f))
  | _ => false
  end.

(** The role string built from a role object. *)
Definition role_string (role : list (string * json)) : string :=
  ENDFIELD_GAME_ID ++ "_" ++ str (field "roleId" JNull role)
  ++ "_" ++ str (field "serverId" JNull role).

(** What an outcome always satisfies: the day count is not negative, and
    a failure names no reward. *)
Definition well_formed (o : outcome) : Prop :=
  0 <= total_sign_day o /\ (success o = false -> reward o = None).

End Calls.

(* ================================================================== *)
(** * The account processor: the rest of [game.py] *)

Module Processor.
Import Py Endfield.

(** [len(v)] *)
Definition py_len (v : json) : result Z :=
  match v with
  | JList l => Ok (Z.of_nat (List.length l))
  | JDict d => Ok (Z.of_nat (List.length (keys d)))
  | JStr s => Ok (len s)
  | _ => type_error ("object of type '" ++ type_name v ++ "' has no len()")
  end.

(** The fields of a [Game] object. *)
Record game : Type := GameObject {
  game_name : json;
  full_name : json;
  config : json;
  data : json
}.

(** [Game.__init__]: [config["game"]] must be there. *)
Definition new_game (name config cookies : json) : result game :=
  (full_name <- getitem config (JStr "game") ;;
   Ok (GameObject name full_name config cookies))%py.

(** The reward of an outcome as the Python value it is. *)
Definition reward_value (r : option reward_dict) : json :=
  match r with
  | Some r => JDict [("name", name r); ("count", count r); ("icon", icon r)]
  | None => JNull
  end.

(** The dictionary [process_all_accounts] builds for one account from the
    dictionary [sign] returned. *)
Definition account_result (account_name full_name : json) (o : outcome)
  : json :=
  JDict [("account_name", account_name);
         ("game", full_name);
         ("success", JBool (success o));
         ("message", message o);
         ("already_signed", JBool (already_signed o));
         ("reward", reward_value (reward o));
         ("total_sign_day", JInt (total_sign_day o));
         ("uid", JNull);
         ("nickname", JNull);
         ("rank", JNull);
         ("region", JNull)].

(** The loop of [process_all_accounts]; account number [i] meets the
    upstream [ws i], each through an adapter of its own. *)
Fixpoint process_accounts (ws : nat -> upstream) (full_name : json)
    (i : nat) (accounts : list json) : result (list json) :=
  match accounts with
  | [] => Ok []
  | account_data :: rest =>
      (account_name <- getitem account_data (JStr "name") ;;
       account_token <- getitem account_data (JStr "cookie") ;;
       let sign_result := Game.sign (ws i) account_token in
       others <- process_accounts ws full_name (S i) rest ;;
       Ok (account_result account_name full_name sign_result :: others))%py
  end.

(** [Game.process_all_accounts] *)
Definition process_all_accounts (ws : nat -> upstream) (g : game)
  : result (list json) :=
  (accounts <- iter (data g) ;;
   process_accounts ws (full_name g) 0 accounts)%py.

(** The name and the token of an account entry that holds both. *)
Definition account_fields (account_data : json) : option (json * json) :=
  match account_data with
  | JDict d =>
      match lookup "name" d, lookup "cookie" d with
      | Some n, Some c => Some (n, c)
      | _, _ => None
      end
  | _ => None
  end.

Definition has_fields (account_data : json) : bool :=
  match account_fields account_data with
  | Some _ => true
  | None => false
  end.

(** A result built by the loop from an outcome of [sign]. *)
Definition from_sign (fn r : json) : Prop :=
  exists n o,
    r = account_result n fn o
    /\ (already_signed o = true -> success o = true).

(** ** The notification *)

(** [discord.Color.green()] and [discord.Color.red()] *)
Inductive colour : Type := Green | Red.

Record embed_field : Type := Field {
  field_name : string;
  field_value : string;
  field_inline : bool
}.

(** A [discord.Embed] as the calls made on it describe it: the arguments
    of the constructor, of [set_author], of each [add_field], of
    [set_footer] and of [set_thumbnail] when it is called. *)
Record embed : Type := Embed {
  embed_title : string;
  embed_description : json;
  embed_color : colour;
  embed_author : string;
  embed_author_icon : json;
  embed_fields : list embed_field;
  embed_footer : json;
  embed_thumbnail : option json
}.

(** [data["success"] or data.get("already_signed")], as a truth value. *)
Definition counts_as_success (data : json) : result bool :=
  (success <- getitem data (JStr "success") ;;
   if truthy success then Ok true
   else (already <- get data "already_signed" JNull ;; Ok (truthy already)))%py.

(** [Game._build_notification_embed] *)
Definition _build_notification_embed (g : game) (data : json)
  : result embed :=
  (assets <- get (config g) "assets" (JDict []) ;;
   author_name <- get assets "author" (JStr "Endministrator") ;;
   game_name <- get assets "game" (JStr "Arknights: Endfield") ;;
   icon_url <- get assets "icon" (JStr "") ;;
   success <- getitem data (JStr "success") ;;
   let color := if truthy success then Green else Red in
   message <- getitem data (JStr "message") ;;
   account_name <- get data "account_name" (JStr "Doctor") ;;
   shown <- counts_as_success data ;;
   fields <-
     (if shown then
        total_days <- get data "total_sign_day" (JInt 0) ;;
        let days := Field "📅 Total Sign-ins" (str total_days ++ " days") true in
        reward <- get data "reward" JNull ;;
        if truthy reward then
          reward_name <- get reward "name" (JStr "Unknown") ;;
          reward_count <- get reward "count" (JInt 0) ;;
          Ok [days;
              Field "🎁 Reward" (str reward_name ++ " x" ++ str reward_count)
                    true]
        else Ok [days]
      else Ok []) ;;
   Ok (Embed "📋 Daily Check-in Report" message color
             (str author_name ++ " • " ++ str account_name) icon_url
             fields game_name
             (if truthy icon_url then Some icon_url else None)))%py.

(** What [send_discord_notification_direct] uses and [src/] does not hold:
    the stored channel setting of a guild, [int()] on it, and whether
    [get_bot_instance()] and [bot.get_channel(id)] return an object.  Each
    may raise. *)
Record discord : Type := Discord {
  get_guild_setting : Z -> string -> result json;
  int_of : json -> result Z;
  bot_instance : result bool;
  get_channel : Z -> result bool
}.

(** A call of [channel.send]: the channel and the embed. *)
Definition sent : Type := (Z * embed)%type.

(** [Game.send_discord_notification_direct]: the calls of [channel.send]
    it makes.  Everything is inside one [try] whose [except] only logs, so
    a raise at any step ends the method without a call. *)
Definition send_discord_notification_direct (d : discord) (g : game)
    (guild_id : Z) (success_data : json) : list sent :=
  match get_guild_setting d guild_id "channel_checkin" with
  | Raise _ => []
  | Ok channel_id_str =>
      if negb (truthy channel_id_str) then []
      else
        match int_of d channel_id_str with
        | Raise _ => []
        | Ok channel_id =>
            match bot_instance d with
            | Raise _ | Ok false => []
            | Ok true =>
                match get_channel d channel_id with
                | Raise _ | Ok false => []
                | Ok true =>
                    match _build_notification_embed g success_data with
                    | Raise _ => []
                    | Ok embed => [(channel_id, embed)]
                    end
                end
            end
        end
  end.

(** [[r for r in results if r["success"] or r.get("already_signed")]] *)
Fixpoint success_results (results : list json) : result (list json) :=
  match results with
  | [] => Ok []
  | r :: rest =>
      (keep <- counts_as_success r ;;
       others <- success_results rest ;;
       Ok (if keep then r :: others else others))%py
  end.

(** [GameManager.process_game_checkins]: the list it returns and the
    calls of [channel.send] made on the way. *)
Definition process_game_checkins (ws : nat -> upstream) (d : discord)
    (guild_id : Z) (name game_config accounts : json)
  : result (list json * list sent) :=
  (_ <- py_len accounts ;;
   _ <- getitem game_config (JStr "game") ;;
   game <- new_game name game_config accounts ;;
   results <- process_all_accounts ws game ;;
   success_results <- success_results results ;;
   Ok (success_results,
       flat_map (send_discord_notification_direct d game guild_id)
                success_results))%py.

End Processor.

(* ================================================================== *)
(** * Sample accounts and a sample Discord *)

Module SampleBatch.
Import Py Endfield Processor.

Definition game_config : json :=
  JDict [("game", JStr "Arknights: Endfield");
         ("assets", JDict [("author", JStr "Endministrator");
                           ("icon", JStr "https://example.org/icon.png")])].

Definition account (name token : string) : json :=
  JDict [("name", JStr name); ("cookie", JStr token)].

Definition accounts : json :=
  JList [account "Amiya" Sample.long_token;
         account "Perlica" Sample.short_token;
         account "Chen" "eyJ.expired"].

(** The first account has signed in already, the second claims today's
    reward, the third has a token the grant refuses. *)
Definition worlds (i : nat) : upstream :=
  match i with
  | O => Sample.healthy true (Ok (Sample.claim_payload 0 "OK"))
  | S O => Sample.healthy false (Ok (Sample.claim_payload 0 "OK"))
  | _ => Sample.scripted (Ok (JDict [("status", JInt 3)]))
                         Sample.ok_cred Sample.ok_refresh Sample.ok_binding
                         (Ok (Sample.check_payload false))
                         (Ok (Sample.claim_payload 0 "OK"))
  end.

(** A Discord with channel 42 configured and reachable. *)
Definition discord_up : discord :=
  Discord (fun _ _ => Ok (JStr "42")) (fun _ => Ok 42) (Ok true)
          (fun _ => Ok true).

End SampleBatch.

(* ================================================================== *)
(** * Properties *)

Import Py Endfield Observe Shape.

(** ** The hash functions on published test vectors *)

Example sha256_abc :
  Sha256.hexdigest (Bytes.encode "abc")
  = "ba7816bf8f01cfea414140de5dae2223b00361a396177a9cb410ff61f20015ad".
Proof. vm_compute. reflexivity. Qed.

Example md5_abc :
  Md5.hexdigest (Bytes.encode "abc") = "900150983cd24fb0d6963f7d28e17f72".
Proof. vm_compute. reflexivity. Qed.

Example hmac_fox :
  Hmac.hexdigest (Bytes.encode "key")
    (Bytes.encode "The quick brown fox jumps over the lazy dog")
  = "f7bc83f430538424b13298e6aa6fb143ef4d59a14946175997479dbc2d1a3cd8".
Proof. vm_compute. reflexivity. Qed.

Example md5_two_blocks :
  Md5.hexdigest (repeat 97 70) = "0f5c6c4e740bfcc08c3c26ccb2673d46".
Proof. vm_compute. reflexivity. Qed.

Example sha256_two_blocks :
  Sha256.hexdigest (repeat 97 56)
  = "b35439a4ac6f0948b6d6f9e3c6af0f5f590ce20f1bde7090ef7970686ec6738a".
Proof. vm_compute. reflexivity. Qed.

Example hmac_long_key :
  Hmac.hexdigest (repeat 107 70) []
  = "d15d4f22a7a5993c5f7674e0cf564d572ec94e748e5d512724916adf257cfaca".
Proof. vm_compute. reflexivity. Qed.

(** ** The signature *)

Lemma append_assoc (s t u : string) : (s ++ t) ++ u = s ++ (t ++ u).
Proof.
  induction s as [|c s IH]; simpl; [reflexivity | now rewrite IH].
Qed.

(** [json.dumps] with separators [(',', ':')] writes the header object as
    the specification describes it. *)
Lemma header_object_serialized (timestamp : string) :
  dumps "," ":" (JDict [("platform", JStr PLATFORM);
                        ("timestamp", JStr timestamp);
                        ("dId", JStr "");
                        ("vName", JStr VNAME)])
  = SignatureSpec.canonical_headers timestamp.
Proof.
  unfold SignatureSpec.canonical_headers, SignatureSpec.member.
  cbn [dumps mem existsb String.eqb Ascii.eqb Bool.eqb orb join].
  rewrite !append_assoc. reflexivity.
Qed.

(** C3. For every path, body, timestamp and signing token, [_compute_sign]
    returns the MD5 hex digest of the HMAC-SHA256 hex digest, keyed by the
    token, of [path || body || timestamp || H], where [H] is the header
    object serialized without whitespace in its fixed key order; computing
    it leaves the adapter as it was. *)
Theorem compute_sign_matches_spec :
  forall (path body timestamp signing_token : string),
    _compute_sign (JStr signing_token) path body timestamp
    = Ok (SignatureSpec.spec_sign path body timestamp signing_token)
    /\ forall a : adapter,
         snd (sign_request path body timestamp a) = a
         /\ fst (sign_request path body timestamp a)
            = _compute_sign (sign_token a) path body timestamp.
Proof.
  intros path body timestamp signing_token. split.
  - unfold _compute_sign. rewrite header_object_serialized. reflexivity.
  - intros a. split; reflexivity.
Qed.

(** The value Python computes for the same arguments. *)
Example compute_sign_attendance :
  _compute_sign (JStr "sign-token") attendance_path "" "1700000002"
  = Ok "9361cb0b8b7230e4ddfa14be91a66796".
Proof. vm_compute. reflexivity. Qed.

(** ** One method at a time

    Each method, run from any state, as an equation: what it returns and
    the state it leaves. *)

Section MethodRuns.

Variable w : upstream.

Lemma get_oauth_code_run (a : adapter) :
  let r := respond w (trace a) (grant_request a) in
  _get_oauth_code w a
  = (Ok (or_none (bind r extract_oauth_code)),
     log_exchange (grant_request a, r) a).
Proof.
  intros r. unfold _get_oauth_code, try_except, mbind, self, http, lift, ret.
  fold r. destruct r as [data|e]; cbn [bind or_none]; [|reflexivity].
  destruct (extract_oauth_code data); reflexivity.
Qed.

Lemma get_cred_run (a : adapter) (oauth_code : json) :
  let r := respond w (trace a) (cred_request oauth_code) in
  _get_cred w oauth_code a
  = (Ok (or_none (bind r extract_cred)),
     log_exchange (cred_request oauth_code, r) a).
Proof.
  intros r. unfold _get_cred, try_except, mbind, self, http, lift, ret.
  fold r. destruct r as [data|e]; cbn [bind or_none]; [|reflexivity].
  destruct (extract_cred data); reflexivity.
Qed.

Lemma get_sign_token_run (a : adapter) :
  let req := refresh_request a (stamp w a) in
  let r := respond w (trace a) req in
  _get_sign_token w a
  = (Ok (or_none (bind r extract_sign_token)),
     log_exchange (req, r) (tick a)).
Proof.
  intros req r. unfold _get_sign_token, try_except, mbind, self, http, lift, ret,
    timestamp_now.
  cbn [trace tick]. change (refresh_request (tick a) _) with req. fold r.
  destruct r as [data|e]; cbn [bind or_none]; [|reflexivity].
  destruct (extract_sign_token data); reflexivity.
Qed.

Lemma get_player_binding_run (a : adapter) :
  _get_player_binding w a
  = match _compute_sign (sign_token a) binding_path "" (stamp w a) with
    | Ok signature =>
        let req := binding_request a (stamp w a) signature in
        let r := respond w (trace a) req in
        (Ok (or_none (bind r extract_game_role)),
         log_exchange (req, r) (tick a))
    | Raise _ => (Ok JNull, tick a)
    end.
Proof.
  unfold _get_player_binding, try_except, mbind, self, http, lift, ret,
    timestamp_now, sign_request.
  cbn [trace tick sign_token].
  change (str_int (time w (ticks a))) with (stamp w a).
  destruct (_compute_sign (sign_token a) binding_path "" (stamp w a)) as [sg|e];
    [|reflexivity].
  change (binding_request (tick a) (stamp w a) sg)
    with (binding_request a (stamp w a) sg).
  cbv zeta.
  destruct (respond w (trace a) (binding_request a (stamp w a) sg))
    as [data|e]; cbn [bind or_none]; [|reflexivity].
  destruct (extract_game_role data); reflexivity.
Qed.

Lemma check_attendance_run (a : adapter) :
  check_attendance w a
  = match _compute_sign (sign_token a) attendance_path "" (stamp w a) with
    | Ok signature =>
        let req := check_request a (stamp w a) signature in
        let r := respond w (trace a) req in
        (Ok (match r with Ok data => data | Raise e => error_payload e end),
         log_exchange (req, r) (tick a))
    | Raise e => (Ok (error_payload e), tick a)
    end.
Proof.
  unfold check_attendance, try_except, mbind, self, http, lift, ret,
    timestamp_now, sign_request.
  cbn [trace tick sign_token].
  change (str_int (time w (ticks a))) with (stamp w a).
  destruct (_compute_sign (sign_token a) attendance_path "" (stamp w a)) as [sg|e];
    [|reflexivity].
  change (check_request (tick a) (stamp w a) sg)
    with (check_request a (stamp w a) sg).
  cbv zeta.
  destruct (respond w (trace a) (check_request a (stamp w a) sg))
    as [data|e]; reflexivity.
Qed.

Lemma claim_attendance_run (a : adapter) :
  claim_attendance w a
  = match _compute_sign (sign_token a) attendance_path "" (stamp w a) with
    | Ok signature =>
        let req := claim_request a (stamp w a) signature in
        let r := respond w (trace a) req in
        (Ok (match r with Ok data => data | Raise e => error_payload e end),
         log_exchange (req, r) (tick a))
    | Raise e => (Ok (error_payload e), tick a)
    end.
Proof.
  unfold claim_attendance, try_except, mbind, self, http, lift, ret,
    timestamp_now, sign_request.
  cbn [trace tick sign_token].
  change (str_int (time w (ticks a))) with (stamp w a).
  destruct (_compute_sign (sign_token a) attendance_path "" (stamp w a)) as [sg|e];
    [|reflexivity].
  change (claim_request (tick a) (stamp w a) sg)
    with (claim_request a (stamp w a) sg).
  cbv zeta.
  destruct (respond w (trace a) (claim_request a (stamp w a) sg))
    as [data|e]; reflexivity.
Qed.

End MethodRuns.

(** ** Running the chain *)

Ltac run_step :=
  first
    [ rewrite get_oauth_code_run
    | rewrite get_cred_run
    | rewrite get_sign_token_run
    | rewrite get_player_binding_run
    | rewrite check_attendance_run
    | rewrite claim_attendance_run ];
  cbv beta zeta iota.

Ltac split_truthy :=
  match goal with
  | |- context [if negb (truthy ?v) then _ else _] =>
      let H := fresh "Htruthy" in
      destruct (truthy v) eqn:H; cbn [negb]; cbv beta zeta iota
  | |- context [match _compute_sign ?t ?p ?b ?s with _ => _ end] =>
      let H := fresh "Hsign" in
      destruct (_compute_sign t p b s) eqn:H; cbv beta zeta iota
  end.

Ltac run_authenticate :=
  unfold authenticate, try_except, mbind, self, modify, ret;
  cbv beta zeta iota;
  repeat (first [run_step | split_truthy]).

Lemma authenticate_total w a : exists b a', authenticate w a = (Ok b, a').
Proof.
  run_authenticate; eauto.
Qed.


(** A step hands a value back only from a payload whose status is 0. *)
Ltac needs_status extract field :=
  let data := fresh "data" in
  let s := fresh "s" in
  intros [data|?]; cbn [bind or_none truthy status_ok]; [|discriminate];
  unfold extract;
  destruct (get data field JNull) as [s|?]; cbn [bind or_none truthy];
  [|discriminate];
  destruct (equal s (JInt 0)); [reflexivity|];
  cbn; discriminate.

Lemma oauth_code_needs_status :
  forall r : reply,
    truthy (or_none (bind r extract_oauth_code)) = true ->
    status_ok "status" r = true.
Proof. needs_status extract_oauth_code "status". Qed.

Lemma cred_needs_status :
  forall r : reply,
    truthy (or_none (bind r extract_cred)) = true ->
    status_ok "code" r = true.
Proof. needs_status extract_cred "code". Qed.

Lemma sign_token_needs_status :
  forall r : reply,
    truthy (or_none (bind r extract_sign_token)) = true ->
    status_ok "code" r = true.
Proof. needs_status extract_sign_token "code". Qed.

Lemma grant_hop_ok a r :
  truthy (or_none (bind r extract_oauth_code)) = true ->
  hop_failed (grant_request a, r) = false.
Proof.
  intros H. unfold hop_failed. cbn [fst snd grant_request req_url].
  rewrite (oauth_code_needs_status _ H). reflexivity.
Qed.

Lemma cred_hop_ok c r :
  truthy (or_none (bind r extract_cred)) = true ->
  hop_failed (cred_request c, r) = false.
Proof.
  intros H. unfold hop_failed. cbn [fst snd cred_request req_url].
  rewrite (cred_needs_status _ H). reflexivity.
Qed.

Lemma refresh_hop_ok a ts r :
  truthy (or_none (bind r extract_sign_token)) = true ->
  hop_failed (refresh_request a ts, r) = false.
Proof.
  intros H. unfold hop_failed. cbn [fst snd refresh_request req_url].
  rewrite (sign_token_needs_status _ H). reflexivity.
Qed.

Lemma binding_hop_ok a ts sg r : hop_failed (binding_request a ts sg, r) = false.
Proof. reflexivity. Qed.

Lemma attendance_hop_ok x : to_attendance x = true -> hop_failed x = false.
Proof.
  unfold to_attendance, hop_failed. intros H.
  apply String.eqb_eq in H. rewrite H. reflexivity.
Qed.

Create HintDb hops.
#[local] Hint Resolve grant_hop_ok cred_hop_ok refresh_hop_ok binding_hop_ok
  : hops.

Ltac trace_simpl :=
  cbn [fst snd trace account_token cred sign_token game_role ticks
       set_cred set_sign_token set_game_role log_exchange tick] in *;
  repeat rewrite <- app_assoc in *; cbn [app] in *.

(** How a run of [authenticate] extends the trace. *)
Lemma authenticate_trace w a b a' :
  authenticate w a = (Ok b, a') ->
  exists new,
    trace a' = (trace a ++ new)%list
    /\ Forall (fun x => to_attendance x = false) new
    /\ (b = true -> Forall (fun x => hop_failed x = false) new).
Proof.
  revert b a'. run_authenticate; intros b a' E; inversion E; subst; clear E;
    trace_simpl; eexists; (split; [reflexivity|]); split;
    try (intros; discriminate);
    repeat (apply Forall_cons || apply Forall_nil);
    try reflexivity;
    auto with hops.
Qed.

Ltac split_match :=
  match goal with
  | |- context [match ?x with _ => _ end] =>
      lazymatch x with
      | context [match _ with _ => _ end] => fail
      | _ => let H := fresh "Hcase" in destruct x eqn:H
      end
  end.

Ltac run_checkin :=
  unfold perform_checkin, try_except, mbind, self, modify, ret, lift;
  cbv beta zeta iota.

Lemma perform_checkin_auth_failed w a a1 :
  authenticate w a = (Ok false, a1) ->
  perform_checkin w a = (Ok auth_failed, a1).
Proof. intros H. run_checkin. rewrite H. reflexivity. Qed.

(** Once authenticated, a run only adds calls to the attendance endpoint:
    the check, and possibly the claim, built from the state the chain
    left. *)
Lemma perform_checkin_trace w a a1 :
  authenticate w a = (Ok true, a1) ->
  exists o a3 new,
    perform_checkin w a = (Ok o, a3)
    /\ trace a3 = (trace a1 ++ new)%list
    /\ Forall (fun x => exists ts sg,
                   fst x = check_request a1 ts sg
                   \/ fst x = claim_request a1 ts sg) new.
Proof.
  intros H. run_checkin. rewrite H. cbv beta zeta iota. cbn [negb].
  rewrite check_attendance_run.
  repeat (first [rewrite claim_attendance_run | split_match]; cbv beta zeta iota);
  do 3 eexists; (split; [reflexivity|]); trace_simpl;
  (split; [try reflexivity; try (symmetry; apply app_nil_r)|]);
  repeat (apply Forall_cons || apply Forall_nil);
  do 2 eexists; cbn [fst]; (left; reflexivity) || (right; reflexivity).
Qed.

Lemma perform_checkin_total w a : exists o a', perform_checkin w a = (Ok o, a').
Proof.
  destruct (authenticate_total w a) as (b & a1 & H). destruct b.
  - destruct (perform_checkin_trace w a a1 H) as (o & a3 & new & E & _). eauto.
  - rewrite (perform_checkin_auth_failed w a a1 H). eauto.
Qed.

(** ** C6: a failed hop gives the one authentication outcome *)

Lemma client_request_to_attendance a (x : exchange) :
  (exists ts sg, fst x = check_request a ts sg \/ fst x = claim_request a ts sg) ->
  to_attendance x = true.
Proof.
  intros (ts & sg & [E|E]); unfold to_attendance; rewrite E; reflexivity.
Qed.

(** C6. Whenever a hop of the credential chain -- the OAuth grant, the
    exchange of the code for a cred, the token refresh -- comes back
    without a success status, [perform_checkin] returns exactly the
    outcome "Authentication failed", with no reward, zero days and nothing
    that tells the hops apart. *)
Theorem failed_hop_gives_authentication_failed :
  forall (w : upstream) (token : string),
    chain_failure (trace (snd (perform_checkin w (__init__ token)))) = true ->
    fst (perform_checkin w (__init__ token)) = Ok auth_failed.
Proof.
  intros w token H. apply existsb_exists in H. destruct H as (x & Hin & Hfail).
  destruct (authenticate_total w (__init__ token)) as (b & a1 & Hauth).
  destruct b.
  - exfalso.
    destruct (authenticate_trace w _ _ _ Hauth) as (new & Ht & _ & Hok).
    destruct (perform_checkin_trace w _ _ Hauth) as (o & a3 & new' & E & Ht' & Hall).
    rewrite E in Hin. cbn [snd] in Hin. rewrite Ht', Ht in Hin.
    assert (Hnil : trace (__init__ token) = []).
    { unfold __init__. destruct (_ && _); reflexivity. }
    rewrite Hnil in Hin. cbn [app] in Hin.
    apply in_app_or in Hin. destruct Hin as [Hin|Hin].
    + specialize (Hok eq_refl). rewrite Forall_forall in Hok.
      rewrite (Hok x Hin) in Hfail. discriminate.
    + rewrite Forall_forall in Hall.
      pose proof (client_request_to_attendance _ _ (Hall x Hin)) as Hx.
      rewrite (attendance_hop_ok _ Hx) in Hfail. discriminate.
  - rewrite (perform_checkin_auth_failed w _ _ Hauth). reflexivity.
Qed.

Lemma failed_hop_witness :
  let w := Sample.scripted (Ok (JDict [("status", JInt 3); ("msg", JStr "token invalid")]))
                           Sample.ok_cred Sample.ok_refresh Sample.ok_binding
                           (Ok (Sample.check_payload false))
                           (Ok (Sample.claim_payload 0 "OK")) in
  chain_failure (trace (snd (perform_checkin w (__init__ Sample.long_token)))) = true
  /\ fst (perform_checkin w (__init__ Sample.long_token)) = Ok auth_failed.
Proof.
  intros w.
  assert (H : chain_failure (trace (snd (perform_checkin w (__init__ Sample.long_token))))
              = true) by (vm_compute; reflexivity).
  split; [exact H | exact (failed_hop_gives_authentication_failed w _ H)].
Defined.

(** ** C9: nothing escapes the client operations or the check-in *)

(** C9. [check_attendance] and [claim_attendance] never raise: when the
    transport or the decoder raises [e] they return the payload with code
    -1 and the text of [e], and -1 is not the success code; and
    [perform_checkin] returns an outcome from every state, whatever the
    upstream does. *)
Theorem client_and_checkin_never_raise :
  forall (w : upstream) (a : adapter),
    (exists v a' new,
        check_attendance w a = (Ok v, a')
        /\ trace a' = (trace a ++ new)%list
        /\ forall req e, In (req, Raise e) new -> v = error_payload e)
    /\ (exists v a' new,
           claim_attendance w a = (Ok v, a')
           /\ trace a' = (trace a ++ new)%list
           /\ forall req e, In (req, Raise e) new -> v = error_payload e)
    /\ (forall e, get (error_payload e) "code" JNull = Ok (JInt (-1))
                  /\ equal (JInt (-1)) (JInt 0) = false)
    /\ exists o a', perform_checkin w a = (Ok o, a').
Proof.
  intros w a. split; [|split; [|split]].
  - rewrite check_attendance_run.
    destruct (_compute_sign _ _ _ _) as [sg|e].
    + cbv zeta. do 3 eexists. split; [reflexivity|]. split; [reflexivity|].
      intros req e [E|[]]. inversion E as [[Hreq Hr]]. rewrite Hr. reflexivity.
    + exists (error_payload e), (tick a), []. split; [reflexivity|].
      split; [symmetry; apply app_nil_r | intros req e' []].
  - rewrite claim_attendance_run.
    destruct (_compute_sign _ _ _ _) as [sg|e].
    + cbv zeta. do 3 eexists. split; [reflexivity|]. split; [reflexivity|].
      intros req e [E|[]]. inversion E as [[Hreq Hr]]. rewrite Hr. reflexivity.
    + exists (error_payload e), (tick a), []. split; [reflexivity|].
      split; [symmetry; apply app_nil_r | intros req e' []].
  - intros e. split; reflexivity.
  - apply perform_checkin_total.
Qed.

(** ** C10: an already-signed outcome is a success *)

Lemma claim_outcome_already_is_success total claim_data o :
  claim_outcome total claim_data = Ok o ->
  already_signed o = true -> success o = true.
Proof.
  unfold claim_outcome, bind.
  repeat split_match; intros E; inversion E; subst; cbn; congruence.
Qed.

Lemma perform_checkin_already_is_success w a o a' :
  perform_checkin w a = (Ok o, a') ->
  already_signed o = true -> success o = true.
Proof.
  run_checkin.
  destruct (authenticate w a) as [[[|]|e] a1]; cbv beta zeta iota; cbn [negb];
    try (intros E; inversion E; subst; cbn; congruence).
  rewrite check_attendance_run.
  repeat (first [rewrite claim_attendance_run | split_match]; cbv beta zeta iota);
    intros E; inversion E; subst; cbn; try congruence;
    eauto using claim_outcome_already_is_success.
Qed.

(** C10. In every outcome [perform_checkin] returns, and in every outcome
    [Game.sign] returns, "already signed" comes with "success": no branch
    reports an already-signed state together with a failure. *)
Theorem already_signed_implies_success :
  forall (w : upstream) (a : adapter) (account_token : json) (o : outcome),
    fst (perform_checkin w a) = Ok o \/ Game.sign w account_token = o ->
    already_signed o = true ->
    success o = true.
Proof.
  intros w a account_token o [H|H] Hsigned.
  - destruct (perform_checkin w a) as [r a'] eqn:E. cbn [fst] in H. subst r.
    exact (perform_checkin_already_is_success _ _ _ _ E Hsigned).
  - unfold Game.sign in H.
    destruct (Game.new_adapter account_token) as [ad|e];
      [|subst o; discriminate].
    destruct (perform_checkin w ad) as [[r|e] a'] eqn:E; cbn [fst] in H;
      [|subst o; discriminate].
    subst o. cbn in Hsigned |- *.
    exact (perform_checkin_already_is_success _ _ _ _ E Hsigned).
Qed.

Lemma already_signed_witness :
  let w := Sample.healthy true (Ok (Sample.claim_payload 0 "OK")) in
  let o := Game.sign w (JStr Sample.long_token) in
  already_signed o = true /\ success o = true.
Proof.
  intros w o.
  assert (H : already_signed o = true) by (vm_compute; reflexivity).
  split; [exact H|].
  exact (already_signed_implies_success w (__init__ Sample.long_token)
           (JStr Sample.long_token) o (or_intror eq_refl) H).
Defined.

(** ** C7: which tokens go through OAuth *)

Lemma init_short token :
  short_form token = true ->
  __init__ token = Adapter token (JStr token) JNull JNull [] 0.
Proof. unfold short_form, __init__. intros ->. reflexivity. Qed.

Lemma init_long token :
  short_form token = false ->
  __init__ token = Adapter token JNull JNull JNull [] 0.
Proof. unfold short_form, __init__. intros ->. reflexivity. Qed.

Lemma truthy_str s : truthy (JStr s) = true <-> s <> "".
Proof.
  cbn [truthy]. destruct (String.eqb_spec s ""); cbn; split; congruence.
Qed.

(** Without a cred the first call is the OAuth grant. *)
Lemma authenticate_without_cred w a :
  truthy (cred a) = false ->
  exists r rest,
    trace (snd (authenticate w a))
    = (trace a ++ (grant_request a, r) :: rest)%list.
Proof.
  intros Hc. unfold authenticate, try_except, mbind, self, modify, ret.
  cbv beta zeta iota. rewrite Hc. cbn [negb].
  repeat (first [run_step | split_truthy]); trace_simpl;
    do 2 eexists; reflexivity.
Qed.

(** With a cred the first call is the refresh, carrying that cred, and the
    grant is never called. *)
Lemma authenticate_with_cred w a :
  truthy (cred a) = true ->
  exists r rest,
    trace (snd (authenticate w a))
    = (trace a ++ (refresh_request a (stamp w a), r) :: rest)%list
    /\ Forall (fun x => is_grant x = false)
              ((refresh_request a (stamp w a), r) :: rest).
Proof.
  intros Hc. unfold authenticate, try_except, mbind, self, modify, ret.
  cbv beta zeta iota. rewrite Hc. cbn [negb].
  repeat (first [run_step | split_truthy]); trace_simpl;
    do 2 eexists; (split; [reflexivity|]);
    repeat (apply Forall_cons || apply Forall_nil); reflexivity.
Qed.

(** A short-form token that is not empty never reaches the grant: the
    first call is the refresh, with the token itself as the cred. *)
Lemma short_token_skips_oauth w token :
  short_form token = true -> token <> "" ->
  exists r rest,
    trace (snd (authenticate w (__init__ token)))
    = (Request GET refresh_url
         [("cred", JStr token); ("platform", JStr PLATFORM);
          ("vname", JStr VNAME);
          ("timestamp", JStr (str_int (time w 0%nat)));
          ("sk-language", JStr "en")] None, r) :: rest
    /\ forall x, In x (trace (snd (authenticate w (__init__ token)))) ->
                 is_grant x = false.
Proof.
  intros Hs Hne. rewrite (init_short _ Hs).
  destruct (authenticate_with_cred w (Adapter token (JStr token) JNull JNull [] 0))
    as (r & rest & Ht & Hall).
  { apply truthy_str. exact Hne. }
  exists r, rest. rewrite Ht. split; [reflexivity|].
  intros x Hin. rewrite Forall_forall in Hall. apply Hall. exact Hin.
Qed.

(** A long-form token always starts with the grant, which carries it. *)
Lemma long_token_starts_oauth w token :
  short_form token = false ->
  exists r rest,
    trace (snd (authenticate w (__init__ token)))
    = (Request POST grant_url
         [("Content-Type", JStr "application/json");
          ("Accept", JStr "application/json")]
         (Some (JDict [("token", JStr token); ("appCode", JStr APP_CODE);
                       ("type", JInt 0)])), r) :: rest.
Proof.
  intros Hs. rewrite (init_long _ Hs).
  destruct (authenticate_without_cred w (Adapter token JNull JNull JNull [] 0))
    as (r & rest & Ht); [reflexivity|].
  exists r, rest. rewrite Ht. reflexivity.
Qed.

(** C7, at the empty token.  The empty string passes the short-form test
    and [__init__] stores it as the cred, yet [authenticate] finds the cred
    false and opens with the OAuth grant, whatever the upstream is. *)
Theorem empty_token_starts_oauth :
  forall w : upstream,
    short_form "" = true
    /\ cred (__init__ "") = JStr ""
    /\ exists r rest,
         trace (snd (authenticate w (__init__ ""))) = (grant_request (__init__ ""), r) :: rest
         /\ is_grant (grant_request (__init__ ""), r) = true.
Proof.
  intros w. split; [reflexivity|]. split; [reflexivity|].
  destruct (authenticate_without_cred w (__init__ "")) as (r & rest & Ht);
    [reflexivity|].
  exists r, rest. split; [exact Ht | reflexivity].
Qed.

(** ** C8: an unresolved binding does not stop the chain *)

Lemma find_role_none apps :
  existsb is_endfield_app apps = false -> or_none (find_role apps) = JNull.
Proof.
  induction apps as [|app rest IH]; [reflexivity|].
  cbn [existsb]. intros H. apply orb_false_iff in H. destruct H as [Happ Hrest].
  cbn [find_role].
  destruct app as [| | | | |f]; try reflexivity.
  cbn [get bind]. unfold is_endfield_app, field in Happ. rewrite Happ.
  cbn [bind truthy]. apply IH. exact Hrest.
Qed.

Lemma no_endfield_among_strings ks :
  existsb is_endfield_app (map JStr ks) = false.
Proof. induction ks as [|k ks IH]; [reflexivity | exact IH]. Qed.

Lemma unresolved_no_role (x : exchange) :
  binding_unresolved x = true ->
  or_none (bind (snd x) extract_game_role) = JNull.
Proof.
  unfold binding_unresolved. destruct (snd x) as [data|e]; [|reflexivity].
  intros H. apply negb_true_iff in H. cbn [bind].
  unfold extract_game_role.
  destruct data as [| | | | |top]; try reflexivity.
  cbn [get bind]. destruct (equal _ (JInt 0)); [|reflexivity].
  cbn [has_endfield_entry] in H. unfold field in H.
  destruct (lookup "data" top) as [d|] eqn:Hd; [|reflexivity].
  destruct d as [| | | | |dd]; try reflexivity.
  cbn [get bind].
  destruct (lookup "list" dd) as [l|] eqn:Hl; [|reflexivity].
  destruct (truthy l) eqn:Hl'; [|reflexivity].
  cbn [getitem bind]. rewrite Hd. cbn [getitem bind]. rewrite Hl. cbn [bind].
  destruct l as [| | | s |apps|m]; try reflexivity; cbn [iter bind].
  - apply find_role_none, no_endfield_among_strings.
  - apply find_role_none, H.
  - apply find_role_none, no_endfield_among_strings.
Qed.

Lemma authenticate_after_refresh w a b a' new :
  authenticate w a = (Ok b, a') ->
  trace a' = (trace a ++ new)%list ->
  (exists x, In x new /\ refresh_succeeded x = true) ->
  (forall x, In x new -> req_url (fst x) = binding_url ->
             binding_unresolved x = true) ->
  b = true /\ game_role a' = JNull.
Proof.
  revert b a'. run_authenticate; intros b a' E; inversion E; subst; clear E;
    trace_simpl; intros Ht (x & Hin & Hs) Hall;
    apply app_inv_head in Ht; subst new; cbn [In] in *.
  all: try (exfalso;
            repeat (destruct Hin as [<-|Hin]; [|]); try contradiction;
            unfold refresh_succeeded in Hs; cbn [fst snd req_url grant_request
              cred_request refresh_request] in Hs;
            try (rewrite Htruthy0 in Hs); try (rewrite Htruthy1 in Hs);
            try (rewrite Htruthy2 in Hs);
            cbn in Hs; discriminate).
  all: split; [reflexivity|]; try reflexivity.
  all: match goal with
       | |- or_none (bind ?r extract_game_role) = JNull =>
           match goal with
           | |- context [binding_request ?s ?ts ?sg] =>
               apply (unresolved_no_role (binding_request s ts sg, r));
               apply Hall; [|reflexivity]; auto 10
           end
       end.
Qed.

(** C8. When the token refresh succeeds and the binding lookup fails or
    lists no entry for the target game, [authenticate] still returns
    [True] with [game_role] left at [None], and every call the check-in
    then makes to the attendance endpoint carries the cred, platform,
    version, timestamp, language and signature headers (and the content
    type on the claim) but no role header. *)
Theorem unresolved_binding_still_authenticated :
  forall (w : upstream) (token : string),
    refreshed (trace (snd (authenticate w (__init__ token)))) = true ->
    no_binding_found (trace (snd (authenticate w (__init__ token)))) = true ->
    fst (authenticate w (__init__ token)) = Ok true
    /\ game_role (snd (authenticate w (__init__ token))) = JNull
    /\ forall x,
         In x (trace (snd (perform_checkin w (__init__ token)))) ->
         to_attendance x = true ->
         header_names x
         = (["cred"; "platform"; "vname"; "timestamp"; "sk-language"; "sign"]
            ++ (if is_post (req_method (fst x)) then ["Content-Type"] else []))%list.
Proof.
  intros w token Hr Hb.
  destruct (authenticate_total w (__init__ token)) as (b & a1 & Hauth).
  rewrite Hauth in *. cbn [fst snd] in *.
  assert (Hnil : trace (__init__ token) = []).
  { unfold __init__. destruct (_ && _); reflexivity. }
  destruct (authenticate_after_refresh w _ _ _ (trace a1) Hauth) as [-> Hrole].
  - rewrite Hnil. reflexivity.
  - apply existsb_exists. exact Hr.
  - intros x Hin Hurl. unfold no_binding_found in Hb.
    rewrite forallb_forall in Hb. specialize (Hb x Hin).
    rewrite Hurl, String.eqb_refl in Hb. exact Hb.
  - split; [reflexivity|]. split; [exact Hrole|].
    destruct (authenticate_trace w _ _ _ Hauth) as (new & Ht & Hnot & _).
    destruct (perform_checkin_trace w _ _ Hauth) as (o & a3 & new' & E & Ht' & Hall).
    rewrite E. cbn [snd]. rewrite Ht'. intros x Hin Hx.
    apply in_app_or in Hin. destruct Hin as [Hin|Hin].
    + rewrite Ht, Hnil in Hin. cbn [app] in Hin.
      rewrite Forall_forall in Hnot. rewrite (Hnot x Hin) in Hx. discriminate.
    + rewrite Forall_forall in Hall.
      destruct (Hall x Hin) as (ts & sg & [Ex|Ex]);
        unfold header_names; rewrite Ex;
        unfold check_request, claim_request, with_role; rewrite Hrole;
        reflexivity.
Qed.

Lemma unresolved_binding_witness :
  let w := Sample.scripted Sample.ok_grant Sample.ok_cred Sample.ok_refresh
                           Sample.other_game_binding
                           (Ok (Sample.check_payload false))
                           (Ok (Sample.claim_payload 0 "OK")) in
  refreshed (trace (snd (authenticate w (__init__ Sample.short_token)))) = true
  /\ no_binding_found (trace (snd (authenticate w (__init__ Sample.short_token)))) = true
  /\ fst (authenticate w (__init__ Sample.short_token)) = Ok true
  /\ game_role (snd (authenticate w (__init__ Sample.short_token))) = JNull.
Proof.
  intros w.
  assert (H1 : refreshed (trace (snd (authenticate w (__init__ Sample.short_token))))
               = true) by (vm_compute; reflexivity).
  assert (H2 : no_binding_found
                 (trace (snd (authenticate w (__init__ Sample.short_token))))
               = true) by (vm_compute; reflexivity).
  destruct (unresolved_binding_still_authenticated w Sample.short_token H1 H2)
    as (Hok & Hrole & _).
  repeat split; assumption.
Defined.

(** The two attendance calls of that run, as the upstream sees them. *)
Example unresolved_binding_requests :
  let w := Sample.scripted Sample.ok_grant Sample.ok_cred Sample.ok_refresh
                           Sample.other_game_binding
                           (Ok (Sample.check_payload false))
                           (Ok (Sample.claim_payload 0 "OK")) in
  map (fun x => (req_method (fst x), header_names x))
      (filter to_attendance
         (trace (snd (perform_checkin w (__init__ Sample.short_token)))))
  = [(GET, ["cred"; "platform"; "vname"; "timestamp"; "sk-language"; "sign"]);
     (POST, ["cred"; "platform"; "vname"; "timestamp"; "sk-language"; "sign";
             "Content-Type"])].
Proof. vm_compute. reflexivity. Qed.

(** ** The decision, on payloads of the expected shape *)

Lemma equal_int_sym n c : equal (JInt n) c = equal c (JInt n).
Proof. destruct c; cbn [equal]; try reflexivity; apply Z.eqb_sym. Qed.

Lemma equal_int_other c n m :
  equal c (JInt n) = true -> equal c (JInt m) = (n =? m).
Proof.
  destruct c as [|b|k| | |]; cbn [equal]; try discriminate;
    intros H; apply Z.eqb_eq in H; subst; reflexivity.
Qed.

Lemma get_dict d k default : get (JDict d) k default = Ok (field k default d).
Proof. reflexivity. Qed.

Lemma is_dict_inv v : is_dict v = true -> exists d, v = JDict d.
Proof. destruct v; try discriminate. eauto. Qed.

(** What [perform_checkin] reads from a check payload with a snapshot. *)
Lemma snapshot_reads check_data s :
  snapshot_of check_data = Some s ->
  exists d,
    get check_data "data" (JDict []) = Ok (JDict d)
    /\ field "hasToday" (JBool false) d = has_today s
    /\ field "calendar" (JList []) d = JList (calendar s)
    /\ field "resourceInfoMap" (JDict []) d = resource_map s
    /\ forallb is_dict (calendar s) = true.
Proof.
  unfold snapshot_of.
  destruct check_data as [| | | | |top]; try discriminate.
  destruct (field "data" (JDict []) top) as [| | | | |d] eqn:Hd; try discriminate.
  destruct (field "calendar" (JList []) d) as [| | | |cal|] eqn:Hc; try discriminate.
  destruct (forallb is_dict cal) eqn:Hall; try discriminate.
  intros E. inversion E; subst; clear E. cbn [has_today calendar resource_map].
  exists d. rewrite get_dict, Hd. auto.
Qed.

Lemma done_flag_default f :
  truthy (field "done" JNull f) = truthy (field "done" (JBool false) f).
Proof. unfold field. destruct (lookup "done" f); reflexivity. Qed.

Lemma done_records_filter cal :
  forallb is_dict cal = true ->
  done_records cal = Ok (filter marked_done cal).
Proof.
  induction cal as [|c rest IH]; [reflexivity|].
  cbn [forallb]. intros H. apply andb_true_iff in H. destruct H as [Hc Hrest].
  destruct (is_dict_inv _ Hc) as (f & ->).
  cbn [done_records filter marked_done]. rewrite get_dict. cbn [bind].
  rewrite (IH Hrest). cbn [bind]. reflexivity.
Qed.

Lemma reward_of_dict r : reward_of (JDict r) = Ok (reward_fields r).
Proof. reflexivity. Qed.

(** A false id resolves to nothing, in any catalog. *)
Lemma resolve_in_false catalog id :
  truthy id = false -> resolve_in catalog id = None.
Proof.
  intros H. destruct catalog as [| | | | |m]; try reflexivity.
  destruct id as [| | |k| |]; try reflexivity.
  cbn [resolve_in resolve]. cbn [truthy] in H.
  apply negb_false_iff in H. rewrite H. reflexivity.
Qed.

(** On a usable id the test and the lookup of the code do not raise, and
    find what [resolve_in] finds. *)
Lemma looked_up_resolve catalog id :
  usable_id catalog id = true ->
  looked_up catalog id = Ok (resolve_in catalog id).
Proof.
  unfold usable_id, looked_up, resolves.
  destruct (truthy id) eqn:Ht; cbn [negb orb bind].
  - destruct catalog as [| | | | |m]; try discriminate.
    destruct id as [|b|n|k| |]; try discriminate; try reflexivity.
    cbn [truthy] in Ht. apply negb_true_iff in Ht.
    cbn [contains_item bind getitem resolve_in resolve]. rewrite Ht.
    destruct (lookup k m) as [x|]; cbn [bind]; [|reflexivity].
    intros Hx. destruct (is_dict_inv _ Hx) as (r & ->). reflexivity.
  - intros _. rewrite (resolve_in_false _ _ Ht). reflexivity.
Qed.

Lemma last_reward_loop_fold catalog cal acc :
  forallb is_dict cal = true ->
  forallb (usable_entry catalog) cal = true ->
  last_reward_loop catalog cal acc = Ok (fold_left (keep_last catalog) cal acc).
Proof.
  intros Hd Hs. revert acc Hd Hs.
  induction cal as [|c rest IH]; intros acc Hd Hs; [reflexivity|].
  cbn [forallb] in Hd, Hs.
  apply andb_true_iff in Hd. destruct Hd as [Hc Hd].
  apply andb_true_iff in Hs. destruct Hs as [Hsc Hs].
  destruct (is_dict_inv _ Hc) as (f & ->).
  cbn [last_reward_loop fold_left]. rewrite get_dict. cbn [bind].
  unfold keep_last at 2. unfold usable_entry in Hsc.
  cbn [marked_done award_of] in Hsc |- *.
  rewrite done_flag_default.
  destruct (truthy (field "done" (JBool false) f)); [|apply IH; assumption].
  cbn [negb orb] in Hsc.
  rewrite get_dict. cbn [bind].
  pose proof (looked_up_resolve catalog (field "awardId" JNull f) Hsc) as Hl.
  unfold looked_up in Hl.
  destruct (resolves catalog (field "awardId" JNull f)) as [[|]|e];
    cbn [bind] in Hl |- *; try discriminate.
  - destruct (getitem catalog (field "awardId" JNull f)) as [resource|e];
      cbn [bind] in Hl |- *; try discriminate.
    destruct (reward_of resource) as [r|e]; cbn [bind] in Hl |- *;
      try discriminate.
    injection Hl as Hr. rewrite <- Hr. apply IH; assumption.
  - injection Hl as Hr. rewrite <- Hr. apply IH; assumption.
Qed.

Lemma keep_last_not_done catalog after acc :
  forallb (fun e => negb (marked_done e)) after = true ->
  fold_left (keep_last catalog) after acc = acc.
Proof.
  revert acc. induction after as [|e rest IH]; intros acc H; [reflexivity|].
  cbn [forallb] in H. apply andb_true_iff in H. destruct H as [He Hrest].
  cbn [fold_left]. unfold keep_last at 2.
  apply negb_true_iff in He. rewrite He. apply IH. exact Hrest.
Qed.

(** The kept reward is that of the most recent done entry when it
    resolves. *)
Lemma keep_last_most_recent catalog before entry after r acc :
  marked_done entry = true ->
  forallb (fun e => negb (marked_done e)) after = true ->
  resolve_in catalog (award_of entry) = Some r ->
  fold_left (keep_last catalog) (before ++ entry :: after) acc = Some r.
Proof.
  intros Hdone Hafter Hr. rewrite fold_left_app. cbn [fold_left].
  rewrite keep_last_not_done by exact Hafter.
  unfold keep_last. rewrite Hdone, Hr. reflexivity.
Qed.

Lemma collect_rewards_resolved catalog awards :
  forallb (fun a => usable_id catalog (award_id a)) awards = true ->
  collect_rewards catalog awards = Ok (resolved catalog (map award_id awards)).
Proof.
  intros Hs. induction awards as [|award rest IH]; [reflexivity|].
  cbn [forallb] in Hs. apply andb_true_iff in Hs. destruct Hs as [Ha Hs].
  specialize (IH Hs).
  cbn [collect_rewards map]. unfold resolved. cbn [flat_map].
  fold (resolved catalog (map award_id rest)).
  assert (Hid : (if is_dict award then get award "id" JNull else Ok award)
                = Ok (award_id award)).
  { destruct award; reflexivity. }
  rewrite Hid. cbn [bind].
  pose proof (looked_up_resolve catalog (award_id award) Ha) as Hl.
  unfold looked_up in Hl.
  destruct (resolves catalog (award_id award)) as [[|]|e];
    cbn [bind] in Hl |- *; try discriminate.
  - destruct (getitem catalog (award_id award)) as [resource|e];
      cbn [bind] in Hl |- *; try discriminate.
    destruct (reward_of resource) as [r|e]; cbn [bind] in Hl |- *;
      try discriminate.
    injection Hl as Hr. rewrite <- Hr. rewrite IH. reflexivity.
  - injection Hl as Hr. rewrite <- Hr. rewrite IH. reflexivity.
Qed.

(** After a successful check with a snapshot, the whole of
    [perform_checkin] in one equation: the already-signed branch, or the
    claim call followed by [claim_outcome]. *)
Lemma perform_checkin_decides w a a1 a2 check_data code s :
  authenticate w a = (Ok true, a1) ->
  check_attendance w a1 = (Ok check_data, a2) ->
  get check_data "code" JNull = Ok code ->
  equal code (JInt 0) = true ->
  snapshot_of check_data = Some s ->
  perform_checkin w a
  = if truthy (has_today s)
    then (caught (bind (last_reward_loop (resource_map s) (calendar s) None)
                       (fun last_reward =>
                          Ok (Outcome true (JStr "Already signed in today") true
                                      last_reward (baseline (calendar s))))),
          a2)
    else (caught (bind (fst (claim_attendance w a2))
                       (claim_outcome (baseline (calendar s)))),
          snd (claim_attendance w a2)).
Proof.
  intros Hauth Hcheck Hcode Hzero Hsnap.
  destruct (snapshot_reads _ _ Hsnap) as (d & Hdata & Hh & Hc & Hr & Hall).
  run_checkin. rewrite Hauth. cbv beta zeta iota. cbn [negb].
  rewrite Hcheck. cbv beta zeta iota. rewrite Hcode. cbv beta zeta iota.
  rewrite Hzero. cbn [negb]. rewrite Hdata. cbv beta zeta iota.
  rewrite !get_dict, Hh, Hc, Hr. cbv beta zeta iota. cbn [iter].
  rewrite (done_records_filter _ Hall). cbv beta zeta iota.
  fold (baseline (calendar s)).
  destruct (truthy (has_today s)).
  - destruct (last_reward_loop (resource_map s) (calendar s) None);
      reflexivity.
  - destruct (claim_attendance w a2) as [[claim_data|e] a3]; cbn [fst snd bind];
      [|reflexivity].
    destruct (claim_outcome (baseline (calendar s)) claim_data); reflexivity.
Qed.

Lemma init_trace token : trace (__init__ token) = [].
Proof. unfold __init__. destruct (_ && _); reflexivity. Qed.

Lemma check_adds_no_claim w a v a' :
  check_attendance w a = (Ok v, a') ->
  existsb is_claim (trace a') = existsb is_claim (trace a).
Proof.
  rewrite check_attendance_run.
  destruct (_compute_sign _ _ _ _); cbv zeta; intros E; inversion E; subst;
    trace_simpl; [|reflexivity].
  rewrite existsb_app. cbn. apply orb_false_r.
Qed.

Lemma authenticate_adds_no_claim w a b a' :
  authenticate w a = (Ok b, a') ->
  existsb is_claim (trace a') = existsb is_claim (trace a).
Proof.
  intros H. destruct (authenticate_trace w _ _ _ H) as (new & Ht & Hnot & _).
  rewrite Ht, existsb_app.
  assert (Hnew : existsb is_claim new = false).
  { clear Ht. induction new as [|x rest IH]; [reflexivity|].
    inversion Hnot as [|? ? Hx Hrest]; subst. cbn [existsb].
    unfold is_claim at 1. rewrite Hx. cbn [andb orb]. apply IH. exact Hrest. }
  rewrite Hnew. apply orb_false_r.
Qed.

(** ** C1: already signed today *)

(** C1, as stated, at a check payload with code 0 and [hasToday] true whose
    resource catalog is [null]: on the first done entry the test
    [award_id in resource_map] raises, the [except] clause of
    [perform_checkin] takes over, and the outcome is a failure with zero
    days, not a success marked already signed. *)
Lemma signed_today_null_catalog :
  let check := JDict [("code", JInt 0);
                      ("data", JDict [("hasToday", JBool true);
                                      ("calendar", JList Sample.five_done);
                                      ("resourceInfoMap", JNull)])] in
  let w := Sample.scripted Sample.ok_grant Sample.ok_cred Sample.ok_refresh
                           Sample.ok_binding (Ok check)
                           (Ok (Sample.claim_payload 0 "OK")) in
  fst (check_attendance w (snd (authenticate w (__init__ Sample.long_token))))
  = Ok check
  /\ get check "code" JNull = Ok (JInt 0)
  /\ fst (perform_checkin w (__init__ Sample.long_token))
     = Ok (Outcome false
             (JStr "argument of type 'NoneType' is not iterable")
             false None 0)
  /\ ~ (exists o,
           fst (perform_checkin w (__init__ Sample.long_token)) = Ok o
           /\ success o = true
           /\ already_signed o = true).
Proof.
  intros check w.
  assert (E : fst (perform_checkin w (__init__ Sample.long_token))
              = Ok (Outcome false
                      (JStr "argument of type 'NoneType' is not iterable")
                      false None 0)) by (vm_compute; reflexivity).
  split; [vm_compute; reflexivity|]. split; [reflexivity|].
  split; [exact E|].
  intros (o & Ho & Hs & _). rewrite E in Ho. injection Ho as <-.
  discriminate Hs.
Qed.

(** C1, amended.  When the check payload has code 0, its [data] is an
    object whose calendar is a list of objects, [hasToday] is a true
    value, and every done entry with a reward id meets a catalog that is
    an object, with an id that can be a key and names an object if it
    names anything, [perform_checkin] returns a success marked already
    signed, with the message "Already signed in today", the number of
    calendar entries marked done as the day count and, when the most
    recent done entry resolves in the catalog, the reward it resolves to;
    and the run makes no claim call. *)
Theorem signed_today_outcome :
  forall (w : upstream) (token : string) (a1 a2 : adapter)
         (check_data : json) (s : snapshot),
    authenticate w (__init__ token) = (Ok true, a1) ->
    check_attendance w a1 = (Ok check_data, a2) ->
    get check_data "code" JNull = Ok (JInt 0) ->
    snapshot_of check_data = Some s ->
    truthy (has_today s) = true ->
    forallb (usable_entry (resource_map s)) (calendar s) = true ->
    exists o,
      perform_checkin w (__init__ token) = (Ok o, a2)
      /\ success o = true
      /\ already_signed o = true
      /\ message o = JStr "Already signed in today"
      /\ total_sign_day o = baseline (calendar s)
      /\ (forall before entry after r,
             calendar s = (before ++ entry :: after)%list ->
             marked_done entry = true ->
             forallb (fun e => negb (marked_done e)) after = true ->
             resolve_in (resource_map s) (award_of entry) = Some r ->
             reward o = Some r)
      /\ existsb is_claim (trace a2) = false.
Proof.
  intros w token a1 a2 check_data s Hauth Hcheck Hcode Hsnap Htoday Hcat.
  rewrite (perform_checkin_decides w _ _ _ _ _ _ Hauth Hcheck Hcode eq_refl Hsnap).
  rewrite Htoday.
  destruct (snapshot_reads _ _ Hsnap) as (d & _ & _ & _ & _ & Hall).
  rewrite (last_reward_loop_fold _ _ None Hall Hcat). cbn [bind caught].
  eexists. split; [reflexivity|]. cbn [success already_signed message
    total_sign_day reward]. repeat split.
  - intros before entry after r Hcal Hdone Hafter Hr. rewrite Hcal.
    apply keep_last_most_recent; assumption.
  - rewrite (check_adds_no_claim _ _ _ _ Hcheck).
    rewrite (authenticate_adds_no_claim _ _ _ _ Hauth).
    rewrite init_trace. reflexivity.
Qed.

Lemma signed_today_witness :
  let w := Sample.healthy true (Ok (Sample.claim_payload 0 "OK")) in
  let token := Sample.long_token in
  exists o,
    fst (perform_checkin w (__init__ token)) = Ok o
    /\ success o = true
    /\ already_signed o = true
    /\ total_sign_day o = 5
    /\ reward o = Some (Reward (JStr "Orundum") (JInt 100) (JStr "orundum.png"))
    /\ existsb is_claim (trace (snd (perform_checkin w (__init__ token)))) = false.
Proof.
  intros w token.
  pose (a1 := snd (authenticate w (__init__ token))).
  pose (a2 := snd (check_attendance w a1)).
  pose (s := Snapshot (JBool true) Sample.five_done Sample.catalog).
  assert (Hauth : authenticate w (__init__ token) = (Ok true, a1))
    by (vm_compute; reflexivity).
  assert (Hcheck : check_attendance w a1 = (Ok (Sample.check_payload true), a2))
    by (vm_compute; reflexivity).
  assert (Hcode : get (Sample.check_payload true) "code" JNull = Ok (JInt 0))
    by reflexivity.
  assert (Hsnap : snapshot_of (Sample.check_payload true) = Some s)
    by reflexivity.
  assert (Htoday : truthy (has_today s) = true) by reflexivity.
  assert (Hcat : forallb (usable_entry (resource_map s)) (calendar s) = true)
    by reflexivity.
  destruct (signed_today_outcome w token a1 a2 _ s
              Hauth Hcheck Hcode Hsnap Htoday Hcat)
    as (o & E & Hs & Ha & _ & Ht & Hr & Hc).
  exists o. rewrite E. cbn [fst snd]. repeat split; try assumption.
  apply (Hr (firstn 4 Sample.five_done) (Sample.day true "orundum")
            (skipn 5 Sample.five_done)); reflexivity.
Defined.

(** ** C4: a fresh claim *)

Lemma awarded_reads claim_data awards catalog :
  awarded claim_data = Some (awards, catalog) ->
  exists d,
    get claim_data "data" (JDict []) = Ok (JDict d)
    /\ field "resourceInfoMap" (JDict []) d = catalog
    /\ (if truthy (field "awardIds" (JList []) d) && truthy catalog
        then field "awardIds" (JList []) d = JList awards
             /\ forallb (fun a => usable_id catalog (award_id a)) awards = true
        else awards = []).
Proof.
  unfold awarded.
  destruct claim_data as [| | | | |top]; try discriminate.
  destruct (field "data" (JDict []) top) as [| | | | |d] eqn:Hd; try discriminate.
  cbv zeta.
  destruct (truthy (field "awardIds" (JList []) d)
            && truthy (field "resourceInfoMap" (JDict []) d)) eqn:Hboth.
  - destruct (field "awardIds" (JList []) d) as [| | | |l|] eqn:Ha;
      try discriminate.
    destruct (forallb _ l) eqn:Hok; try discriminate.
    intros E. injection E as <- <-.
    exists d. rewrite get_dict, Hd, Ha, Hboth. auto.
  - intros E. injection E as <- <-.
    exists d. rewrite get_dict, Hd, Hboth. auto.
Qed.

(** The success branch of [claim_outcome] on a payload of the expected
    shape. *)
Lemma claim_outcome_success total claim_data awards catalog :
  get claim_data "code" JNull = Ok (JInt 0) ->
  awarded claim_data = Some (awards, catalog) ->
  let rewards := resolved catalog (map award_id awards) in
  claim_outcome total claim_data
  = Ok (Outcome true
          (JStr ("Signed in successfully! Rewards: " ++ reward_text rewards))
          false (hd_error rewards) (total + 1)).
Proof.
  intros Hcode Haw rewards.
  destruct (awarded_reads _ _ _ Haw) as (d & Hdata & Hm & Hsel).
  unfold claim_outcome. rewrite Hcode. cbn [bind].
  assert (Hmsg : exists msg, get claim_data "message" (JStr "") = Ok msg).
  { destruct claim_data; try discriminate. eexists. reflexivity. }
  destruct Hmsg as (msg & ->). cbn [bind equal Z.eqb].
  rewrite Hdata. cbn [bind]. rewrite !get_dict, Hm. cbn [bind].
  assert (Hrs : (if truthy (field "awardIds" (JList []) d) && truthy catalog
                 then bind (iter (field "awardIds" (JList []) d))
                           (fun x => collect_rewards catalog x)
                 else Ok [])
                = Ok rewards).
  { destruct (truthy (field "awardIds" (JList []) d) && truthy catalog).
    - destruct Hsel as [Ha Hok]. rewrite Ha. cbn [iter bind].
      apply collect_rewards_resolved. exact Hok.
    - unfold rewards. rewrite Hsel. reflexivity. }
  rewrite Hrs. cbn [bind]. destruct rewards; reflexivity.
Qed.

(** C4, as stated, at a claim payload with code 0 whose [data] is [null]:
    the default of [.get("data", {})] does not apply to a key that is
    there, [None.get] raises, and the outcome is a failure with zero days,
    not a success with the baseline plus one. *)
Lemma fresh_claim_null_data :
  let claim := JDict [("code", JInt 0); ("message", JStr "OK");
                      ("data", JNull)] in
  let w := Sample.healthy false (Ok claim) in
  fst (claim_attendance w (snd (check_attendance w
         (snd (authenticate w (__init__ Sample.long_token))))))
  = Ok claim
  /\ get claim "code" JNull = Ok (JInt 0)
  /\ fst (perform_checkin w (__init__ Sample.long_token))
     = Ok (Outcome false (JStr "'NoneType' object has no attribute 'get'")
             false None 0)
  /\ baseline Sample.five_done = 5
  /\ ~ (exists o,
           fst (perform_checkin w (__init__ Sample.long_token)) = Ok o
           /\ success o = true
           /\ already_signed o = false
           /\ total_sign_day o = baseline Sample.five_done + 1).
Proof.
  intros claim w.
  assert (E : fst (perform_checkin w (__init__ Sample.long_token))
              = Ok (Outcome false
                      (JStr "'NoneType' object has no attribute 'get'")
                      false None 0)) by (vm_compute; reflexivity).
  split; [vm_compute; reflexivity|]. split; [reflexivity|].
  split; [exact E|]. split; [reflexivity|].
  intros (o & Ho & Hs & _). rewrite E in Ho. injection Ho as <-.
  discriminate Hs.
Qed.

(** C4, amended.  When the check payload has the shape of a snapshot with
    [hasToday] false, and the claim payload has code 0 and a [data] that
    is an object (or is missing) whose awards, when both they and the
    catalog are true values, are a list with usable ids, [perform_checkin]
    returns a success that is not already signed, with the baseline plus
    one as the day count, the first award that resolves in the claim
    payload's own catalog as the reward ([None] when none does), and a
    message that lists the resolved rewards as "name xcount" separated by
    commas, or says "Unknown".  The names and counts in the message are
    those that print exactly. *)
Theorem fresh_claim_outcome :
  forall (w : upstream) (token : string) (a1 a2 a3 : adapter)
         (check_data claim_data : json) (s : snapshot)
         (awards : list json) (catalog : json),
    authenticate w (__init__ token) = (Ok true, a1) ->
    check_attendance w a1 = (Ok check_data, a2) ->
    get check_data "code" JNull = Ok (JInt 0) ->
    snapshot_of check_data = Some s ->
    truthy (has_today s) = false ->
    claim_attendance w a2 = (Ok claim_data, a3) ->
    get claim_data "code" JNull = Ok (JInt 0) ->
    awarded claim_data = Some (awards, catalog) ->
    let rewards := resolved catalog (map award_id awards) in
    forallb printable_reward rewards = true ->
    perform_checkin w (__init__ token)
    = (Ok (Outcome true
             (JStr ("Signed in successfully! Rewards: "
                    ++ match rewards with
                       | [] => "Unknown"
                       | _ => join ", " (map (fun r => str (name r) ++ " x"
                                                       ++ str (count r))
                                             rewards)
                       end))
             false (hd_error rewards) (baseline (calendar s) + 1)),
       a3).
Proof.
  intros w token a1 a2 a3 check_data claim_data s awards catalog
         Hauth Hcheck Hcode Hsnap Htoday Hclaim Hzero Haw rewards _.
  rewrite (perform_checkin_decides w _ _ _ _ _ _ Hauth Hcheck Hcode eq_refl Hsnap).
  rewrite Htoday, Hclaim. cbn [fst snd bind].
  rewrite (claim_outcome_success _ _ _ _ Hzero Haw). reflexivity.
Qed.

(** The scenario of the specification: five entries done, nothing claimed
    today, and a claim that awards 100 Orundum. *)
Lemma fresh_claim_witness :
  let w := Sample.healthy false (Ok (Sample.claim_payload 0 "OK")) in
  fst (perform_checkin w (__init__ Sample.long_token))
  = Ok (Outcome true (JStr "Signed in successfully! Rewards: Orundum x100")
          false
          (Some (Reward (JStr "Orundum") (JInt 100) (JStr "orundum.png")))
          6).
Proof.
  intros w.
  pose (a1 := snd (authenticate w (__init__ Sample.long_token))).
  pose (a2 := snd (check_attendance w a1)).
  pose (a3 := snd (claim_attendance w a2)).
  pose (s := Snapshot (JBool false) Sample.five_done Sample.catalog).
  assert (Hauth : authenticate w (__init__ Sample.long_token) = (Ok true, a1))
    by (vm_compute; reflexivity).
  assert (Hcheck : check_attendance w a1 = (Ok (Sample.check_payload false), a2))
    by (vm_compute; reflexivity).
  assert (Hclaim : claim_attendance w a2
                   = (Ok (Sample.claim_payload 0 "OK"), a3))
    by (vm_compute; reflexivity).
  rewrite (fresh_claim_outcome w Sample.long_token a1 a2 a3 _ _ s
             [JDict [("id", JStr "orundum")]] Sample.catalog
             Hauth Hcheck eq_refl eq_refl eq_refl Hclaim eq_refl eq_refl
             eq_refl).
  reflexivity.
Defined.

(** ** C2 and C5: the other branches of the claim *)

(** The branches of [claim_outcome] when the code is not 0 and the message
    is a text: already claimed, token expired, or any other error. *)
Lemma claim_outcome_not_success total claim_data code msg :
  get claim_data "code" JNull = Ok code ->
  get claim_data "message" (JStr "") = Ok msg ->
  equal code (JInt 0) = false ->
  claim_outcome total claim_data
  = bind (already_claimed code msg)
         (fun already =>
            if already
            then Ok (Outcome true (JStr "Already signed in today") true None total)
            else if equal code (JInt 10002)
            then Ok (Outcome false
                       (JStr "Account token expired. Please update your token.")
                       false None 0)
            else Ok (Outcome false
                       (JStr ("API Error (code " ++ str code ++ "): " ++ str msg))
                       false None total)).
Proof.
  intros Hcode Hmsg Hzero. unfold claim_outcome.
  rewrite Hcode, Hmsg. cbn [bind]. rewrite Hzero. reflexivity.
Qed.

Lemma already_claimed_spec code msg :
  already_claimed code msg
  = if equal code (JInt 1001) || equal code (JInt 10001) then Ok true
    else bind (lower_method msg) (fun text => Ok (contains "already" text)).
Proof.
  unfold already_claimed. cbn [contains_item existsb bind].
  rewrite !equal_int_sym, orb_false_r. reflexivity.
Qed.

(** C2, as stated, at a claim payload with code 0 whose message says
    "already": the success branch comes first, so the outcome is a fresh
    sign-in with a reward and the baseline plus one, not an already-signed
    one with no reward and the baseline. *)
Lemma already_message_with_code_zero :
  let w := Sample.healthy false (Ok (Sample.claim_payload 0 "Already claimed")) in
  contains "already" (lower "Already claimed") = true
  /\ fst (claim_attendance w (snd (check_attendance w
            (snd (authenticate w (__init__ Sample.long_token))))))
     = Ok (Sample.claim_payload 0 "Already claimed")
  /\ fst (perform_checkin w (__init__ Sample.long_token))
     = Ok (Outcome true (JStr "Signed in successfully! Rewards: Orundum x100")
             false
             (Some (Reward (JStr "Orundum") (JInt 100) (JStr "orundum.png")))
             6)
  /\ baseline Sample.five_done = 5
  /\ ~ (exists o,
           fst (perform_checkin w (__init__ Sample.long_token)) = Ok o
           /\ success o = true
           /\ already_signed o = true
           /\ reward o = None
           /\ total_sign_day o = baseline Sample.five_done).
Proof.
  intros w.
  assert (E : fst (perform_checkin w (__init__ Sample.long_token))
              = Ok (Outcome true
                      (JStr "Signed in successfully! Rewards: Orundum x100")
                      false
                      (Some (Reward (JStr "Orundum") (JInt 100)
                                    (JStr "orundum.png")))
                      6)) by (vm_compute; reflexivity).
  split; [reflexivity|]. split; [vm_compute; reflexivity|].
  split; [exact E|]. split; [reflexivity|].
  intros (o & Ho & _ & Hsigned & _). rewrite E in Ho. injection Ho as <-.
  discriminate Hsigned.
Qed.

(** C2, amended. When the claim payload's code is not 0 and either the
    code is 1001 or 10001 or the message contains "already" in any case,
    [perform_checkin] returns a success marked already signed, with no
    reward and the baseline as the day count. *)
Theorem already_claimed_outcome :
  forall (w : upstream) (token : string) (a1 a2 a3 : adapter)
         (check_data claim_data code msg : json) (s : snapshot),
    authenticate w (__init__ token) = (Ok true, a1) ->
    check_attendance w a1 = (Ok check_data, a2) ->
    get check_data "code" JNull = Ok (JInt 0) ->
    snapshot_of check_data = Some s ->
    truthy (has_today s) = false ->
    claim_attendance w a2 = (Ok claim_data, a3) ->
    get claim_data "code" JNull = Ok code ->
    get claim_data "message" (JStr "") = Ok msg ->
    equal code (JInt 0) = false ->
    (equal code (JInt 1001) = true
     \/ equal code (JInt 10001) = true
     \/ exists text, msg = JStr text /\ contains "already" (lower text) = true) ->
    perform_checkin w (__init__ token)
    = (Ok (Outcome true (JStr "Already signed in today") true None
                   (baseline (calendar s))),
       a3).
Proof.
  intros w token a1 a2 a3 check_data claim_data code msg s
         Hauth Hcheck Hcode Hsnap Htoday Hclaim Hc Hm Hzero Halready.
  rewrite (perform_checkin_decides w _ _ _ _ _ _ Hauth Hcheck Hcode eq_refl Hsnap).
  rewrite Htoday, Hclaim. cbn [fst snd bind].
  rewrite (claim_outcome_not_success _ _ _ _ Hc Hm Hzero).
  rewrite already_claimed_spec.
  destruct Halready as [H|[H|(text & -> & H)]].
  - rewrite H. reflexivity.
  - rewrite H, orb_true_r. reflexivity.
  - destruct (_ || _); [reflexivity|]. cbn [lower_method bind]. rewrite H.
    reflexivity.
Qed.

Lemma already_claimed_witness :
  let w1 := Sample.healthy false (Ok (Sample.claim_payload 10001 "Duplicate request")) in
  let w2 := Sample.healthy false (Ok (Sample.claim_payload 500 "Reward ALREADY collected")) in
  fst (perform_checkin w1 (__init__ Sample.long_token))
  = Ok (Outcome true (JStr "Already signed in today") true None 5)
  /\ fst (perform_checkin w2 (__init__ Sample.long_token))
     = Ok (Outcome true (JStr "Already signed in today") true None 5).
Proof.
  intros w1 w2.
  pose (s := Snapshot (JBool false) Sample.five_done Sample.catalog).
  split.
  - pose (a1 := snd (authenticate w1 (__init__ Sample.long_token))).
    pose (a2 := snd (check_attendance w1 a1)).
    pose (a3 := snd (claim_attendance w1 a2)).
    assert (Hauth : authenticate w1 (__init__ Sample.long_token) = (Ok true, a1))
      by (vm_compute; reflexivity).
    assert (Hcheck : check_attendance w1 a1
                     = (Ok (Sample.check_payload false), a2))
      by (vm_compute; reflexivity).
    assert (Hclaim : claim_attendance w1 a2
                     = (Ok (Sample.claim_payload 10001 "Duplicate request"), a3))
      by (vm_compute; reflexivity).
    rewrite (already_claimed_outcome w1 Sample.long_token a1 a2 a3 _ _
               (JInt 10001) (JStr "Duplicate request") s
               Hauth Hcheck eq_refl eq_refl eq_refl Hclaim eq_refl eq_refl
               eq_refl (or_intror (or_introl eq_refl))).
    reflexivity.
  - pose (a1 := snd (authenticate w2 (__init__ Sample.long_token))).
    pose (a2 := snd (check_attendance w2 a1)).
    pose (a3 := snd (claim_attendance w2 a2)).
    assert (Hauth : authenticate w2 (__init__ Sample.long_token) = (Ok true, a1))
      by (vm_compute; reflexivity).
    assert (Hcheck : check_attendance w2 a1
                     = (Ok (Sample.check_payload false), a2))
      by (vm_compute; reflexivity).
    assert (Hclaim : claim_attendance w2 a2
                     = (Ok (Sample.claim_payload 500 "Reward ALREADY collected"), a3))
      by (vm_compute; reflexivity).
    rewrite (already_claimed_outcome w2 Sample.long_token a1 a2 a3 _ _
               (JInt 500) (JStr "Reward ALREADY collected") s
               Hauth Hcheck eq_refl eq_refl eq_refl Hclaim eq_refl eq_refl
               eq_refl
               (or_intror (or_intror
                  (ex_intro _ "Reward ALREADY collected" (conj eq_refl eq_refl))))).
    reflexivity.
Defined.

(** C5, as stated, at two claim payloads.  With code 10002 and a message
    that says "already" the already-claimed branch comes first, and the
    outcome is a success marked already signed with the baseline, not a
    failure with zero days.  With code 500 and a message that is [null],
    [msg.lower()] raises while the branches are tested, and the outcome
    has zero days, not the baseline. *)
Lemma hard_failure_overlap :
  let expired := JDict [("code", JInt 10002);
                        ("message", JStr "Token already expired")] in
  let silent := JDict [("code", JInt 500); ("message", JNull)] in
  let w1 := Sample.healthy false (Ok expired) in
  let w2 := Sample.healthy false (Ok silent) in
  fst (claim_attendance w1 (snd (check_attendance w1
         (snd (authenticate w1 (__init__ Sample.long_token))))))
  = Ok expired
  /\ fst (perform_checkin w1 (__init__ Sample.long_token))
     = Ok (Outcome true (JStr "Already signed in today") true None 5)
  /\ ~ (exists o,
           fst (perform_checkin w1 (__init__ Sample.long_token)) = Ok o
           /\ success o = false
           /\ total_sign_day o = 0)
  /\ fst (claim_attendance w2 (snd (check_attendance w2
            (snd (authenticate w2 (__init__ Sample.long_token))))))
     = Ok silent
  /\ already_claimed (JInt 500) JNull
     = Raise (Exn "AttributeError" "'NoneType' object has no attribute 'lower'")
  /\ fst (perform_checkin w2 (__init__ Sample.long_token))
     = Ok (Outcome false (JStr "'NoneType' object has no attribute 'lower'")
             false None 0)
  /\ baseline Sample.five_done = 5
  /\ ~ (exists o,
           fst (perform_checkin w2 (__init__ Sample.long_token)) = Ok o
           /\ success o = false
           /\ total_sign_day o = baseline Sample.five_done).
Proof.
  intros expired silent w1 w2.
  assert (E1 : fst (perform_checkin w1 (__init__ Sample.long_token))
               = Ok (Outcome true (JStr "Already signed in today") true None 5))
    by (vm_compute; reflexivity).
  assert (E2 : fst (perform_checkin w2 (__init__ Sample.long_token))
               = Ok (Outcome false
                       (JStr "'NoneType' object has no attribute 'lower'")
                       false None 0)) by (vm_compute; reflexivity).
  split; [vm_compute; reflexivity|]. split; [exact E1|]. split.
  { intros (o & Ho & Hs & _). rewrite E1 in Ho. injection Ho as <-.
    discriminate Hs. }
  split; [vm_compute; reflexivity|]. split; [reflexivity|].
  split; [exact E2|]. split; [reflexivity|].
  intros (o & Ho & _ & Hd). rewrite E2 in Ho. injection Ho as <-.
  discriminate Hd.
Qed.

(** C5, amended.  In the hard-failure branch of the claim -- the message
    is a text that does not contain "already" in any case, and the code
    is not 0, 1001 or 10001 -- code 10002 gives a failure that asks for
    the token to be updated, with zero days, and any other code gives a
    failure whose message carries the code and the upstream message, with
    the baseline as the day count.  The code in the message is one that
    prints exactly. *)
Theorem hard_failure_outcome :
  forall (w : upstream) (token : string) (a1 a2 a3 : adapter)
         (check_data claim_data code : json) (text : string) (s : snapshot),
    authenticate w (__init__ token) = (Ok true, a1) ->
    check_attendance w a1 = (Ok check_data, a2) ->
    get check_data "code" JNull = Ok (JInt 0) ->
    snapshot_of check_data = Some s ->
    truthy (has_today s) = false ->
    claim_attendance w a2 = (Ok claim_data, a3) ->
    get claim_data "code" JNull = Ok code ->
    get claim_data "message" (JStr "") = Ok (JStr text) ->
    equal code (JInt 0) = false ->
    equal code (JInt 1001) = false ->
    equal code (JInt 10001) = false ->
    contains "already" (lower text) = false ->
    printed_exactly code = true ->
    perform_checkin w (__init__ token)
    = (Ok (if equal code (JInt 10002)
           then Outcome false
                  (JStr "Account token expired. Please update your token.")
                  false None 0
           else Outcome false
                  (JStr ("API Error (code " ++ str code ++ "): " ++ text))
                  false None (baseline (calendar s))),
       a3).
Proof.
  intros w token a1 a2 a3 check_data claim_data code text s
         Hauth Hcheck Hcode Hsnap Htoday Hclaim Hc Hm Hzero H1 H2 Htext _.
  rewrite (perform_checkin_decides w _ _ _ _ _ _ Hauth Hcheck Hcode eq_refl Hsnap).
  rewrite Htoday, Hclaim. cbn [fst snd bind].
  rewrite (claim_outcome_not_success _ _ _ _ Hc Hm Hzero).
  rewrite already_claimed_spec, H1, H2. cbn [orb lower_method bind].
  rewrite Htext. cbn [str]. destruct (equal code (JInt 10002)); reflexivity.
Qed.

Lemma hard_failure_witness :
  let w1 := Sample.healthy false (Ok (Sample.claim_payload 10002 "token expired")) in
  let w2 := Sample.healthy false (Ok (Sample.claim_payload 500 "server busy")) in
  fst (perform_checkin w1 (__init__ Sample.long_token))
  = Ok (Outcome false (JStr "Account token expired. Please update your token.")
          false None 0)
  /\ fst (perform_checkin w2 (__init__ Sample.long_token))
     = Ok (Outcome false (JStr "API Error (code 500): server busy")
             false None 5).
Proof.
  intros w1 w2.
  pose (s := Snapshot (JBool false) Sample.five_done Sample.catalog).
  split.
  - pose (a1 := snd (authenticate w1 (__init__ Sample.long_token))).
    pose (a2 := snd (check_attendance w1 a1)).
    pose (a3 := snd (claim_attendance w1 a2)).
    assert (Hauth : authenticate w1 (__init__ Sample.long_token) = (Ok true, a1))
      by (vm_compute; reflexivity).
    assert (Hcheck : check_attendance w1 a1
                     = (Ok (Sample.check_payload false), a2))
      by (vm_compute; reflexivity).
    assert (Hclaim : claim_attendance w1 a2
                     = (Ok (Sample.claim_payload 10002 "token expired"), a3))
      by (vm_compute; reflexivity).
    rewrite (hard_failure_outcome w1 Sample.long_token a1 a2 a3 _ _
               (JInt 10002) "token expired" s
               Hauth Hcheck eq_refl eq_refl eq_refl Hclaim eq_refl eq_refl
               eq_refl eq_refl eq_refl eq_refl eq_refl).
    reflexivity.
  - pose (a1 := snd (authenticate w2 (__init__ Sample.long_token))).
    pose (a2 := snd (check_attendance w2 a1)).
    pose (a3 := snd (claim_attendance w2 a2)).
    assert (Hauth : authenticate w2 (__init__ Sample.long_token) = (Ok true, a1))
      by (vm_compute; reflexivity).
    assert (Hcheck : check_attendance w2 a1
                     = (Ok (Sample.check_payload false), a2))
      by (vm_compute; reflexivity).
    assert (Hclaim : claim_attendance w2 a2
                     = (Ok (Sample.claim_payload 500 "server busy"), a3))
      by (vm_compute; reflexivity).
    rewrite (hard_failure_outcome w2 Sample.long_token a1 a2 a3 _ _
               (JInt 500) "server busy" s
               Hauth Hcheck eq_refl eq_refl eq_refl Hclaim eq_refl eq_refl
               eq_refl eq_refl eq_refl eq_refl eq_refl).
    reflexivity.
Defined.

(** ** Concrete runs *)

(** The reward summary in the form "name xcount, ...". *)
Example reward_text_two :
  reward_text [Reward (JStr "X") (JInt 3) (JStr ""); Reward (JStr "Y") (JInt 1) (JStr "")]
  = "X x3, Y x1".
Proof. reflexivity. Qed.

(** A claim that awards nothing the catalog knows. *)
Example fresh_claim_unknown_reward :
  let claim := JDict [("code", JInt 0);
                      ("data", JDict [("awardIds", JList [JDict [("id", JStr "gift")]]);
                                      ("resourceInfoMap", Sample.catalog)])] in
  fst (perform_checkin (Sample.healthy false (Ok claim)) (__init__ Sample.short_token))
  = Ok (Outcome true (JStr "Signed in successfully! Rewards: Unknown")
          false None 6).
Proof. vm_compute. reflexivity. Qed.

(** When the most recent done entry has an award the catalog does not
    know, the loop keeps the reward of the last done entry that resolved. *)
Example signed_today_unresolved_last :
  let check := JDict [("code", JInt 0);
                      ("data", JDict [("hasToday", JBool true);
                                      ("calendar", JList [Sample.day true "lmd";
                                                          Sample.day true "gift"]);
                                      ("resourceInfoMap", Sample.catalog)])] in
  let w := Sample.scripted Sample.ok_grant Sample.ok_cred Sample.ok_refresh
                           Sample.ok_binding (Ok check)
                           (Ok (Sample.claim_payload 0 "OK")) in
  fst (perform_checkin w (__init__ Sample.long_token))
  = Ok (Outcome true (JStr "Already signed in today") true
          (Some (Reward (JStr "LMD") (JInt 5000) (JStr ""))) 2).
Proof. vm_compute. reflexivity. Qed.

(** A transport error on the check call ends in a failure outcome that
    carries its text. *)
Example check_transport_error :
  let w := Sample.scripted Sample.ok_grant Sample.ok_cred Sample.ok_refresh
                           Sample.ok_binding
                           (Raise (Exn "ConnectionError" "connection reset"))
                           (Ok (Sample.claim_payload 0 "OK")) in
  fst (perform_checkin w (__init__ Sample.long_token))
  = Ok (Outcome false (JStr "connection reset") false None 0).
Proof. vm_compute. reflexivity. Qed.

(** The search for "already" also reads the text of a transport error on
    the claim call. *)
Example claim_transport_error_saying_already :
  let w := Sample.healthy false
             (Raise (Exn "ConnectionError" "Connection already closed")) in
  fst (perform_checkin w (__init__ Sample.long_token))
  = Ok (Outcome true (JStr "Already signed in today") true None 5).
Proof. vm_compute. reflexivity. Qed.

(** ** Outside the expected shapes

    The theorems on the decision take a check payload of the shape
    [snapshot_of] describes.  Elsewhere an operation on the payload
    raises, and the [except] clause of [perform_checkin] turns it into a
    failure with zero days. *)

Example check_with_null_calendar :
  let check := JDict [("code", JInt 0);
                      ("data", JDict [("hasToday", JBool true);
                                      ("calendar", JNull)])] in
  let w := Sample.scripted Sample.ok_grant Sample.ok_cred Sample.ok_refresh
                           Sample.ok_binding (Ok check)
                           (Ok (Sample.claim_payload 0 "OK")) in
  fst (perform_checkin w (__init__ Sample.long_token))
  = Ok (Outcome false (JStr "'NoneType' object is not iterable") false None 0).
Proof. vm_compute. reflexivity. Qed.

(** A catalog entry that is not an object does no harm as long as no done
    entry names it, and a claim whose awards are [null] awards nothing. *)
Example unreferenced_catalog_entry :
  let check := JDict [("code", JInt 0);
                      ("data", JDict [("hasToday", JBool true);
                                      ("calendar", JList [Sample.day true "lmd"]);
                                      ("resourceInfoMap",
                                       JDict [("lmd", JDict [("name", JStr "LMD")]);
                                              ("note", JStr "n/a")])])] in
  let w := Sample.scripted Sample.ok_grant Sample.ok_cred Sample.ok_refresh
                           Sample.ok_binding (Ok check)
                           (Ok (Sample.claim_payload 0 "OK")) in
  forallb (usable_entry (JDict [("lmd", JDict [("name", JStr "LMD")]);
                                ("note", JStr "n/a")]))
          [Sample.day true "lmd"] = true
  /\ fst (perform_checkin w (__init__ Sample.long_token))
     = Ok (Outcome true (JStr "Already signed in today") true
             (Some (Reward (JStr "LMD") (JInt 0) (JStr ""))) 1).
Proof. split; vm_compute; reflexivity. Qed.

Example claim_with_null_awards :
  let claim := JDict [("code", JInt 0);
                      ("data", JDict [("awardIds", JNull);
                                      ("resourceInfoMap", JInt 7)])] in
  awarded claim = Some ([], JInt 7)
  /\ fst (perform_checkin (Sample.healthy false (Ok claim))
                          (__init__ Sample.long_token))
     = Ok (Outcome true (JStr "Signed in successfully! Rewards: Unknown")
             false None 6).
Proof. split; vm_compute; reflexivity. Qed.

(* ================================================================== *)
(** * Further properties of the adapter *)

Import Calls.

(** ** The calls of a run *)

(** Signing works exactly on a [str] token. *)
Lemma compute_sign_needs_str token path body ts s :
  _compute_sign token path body ts = Ok s -> is_str token = true.
Proof.
  unfold _compute_sign. destruct token; cbn [encode attribute_error bind];
    try discriminate. reflexivity.
Qed.

Lemma compute_sign_of_str token path body ts :
  is_str token = true -> exists s, _compute_sign token path body ts = Ok s.
Proof.
  destruct token; try discriminate. intros _.
  unfold _compute_sign. cbn [encode bind]. eauto.
Qed.

(** After the chain, [perform_checkin] calls the check and possibly the
    claim, and leaves the token and the role as the chain set them. *)
Lemma perform_checkin_calls w a a1 :
  authenticate w a = (Ok true, a1) ->
  exists o a3 new,
    perform_checkin w a = (Ok o, a3)
    /\ trace a3 = (trace a1 ++ new)%list
    /\ sign_token a3 = sign_token a1
    /\ game_role a3 = game_role a1
    /\ attendance_calls w a1 new.
Proof.
  intros H. run_checkin. rewrite H. cbv beta zeta iota. cbn [negb].
  rewrite check_attendance_run.
  repeat (first [rewrite claim_attendance_run | split_match]; cbv beta zeta iota);
  do 3 eexists; (split; [reflexivity|]); trace_simpl;
  (split; [try reflexivity; try (symmetry; apply app_nil_r)|]);
  (split; [reflexivity|]); (split; [reflexivity|]);
  unfold attendance_calls;
  first [ exfalso;
          match goal with
          | Hc : get (error_payload _) "code" JNull = Ok ?c,
            Hz : negb (equal ?c (JInt 0)) = false |- _ =>
              change (Ok (JInt (-1)) = Ok c) in Hc; injection Hc as <-;
              discriminate Hz
          end
        | left; reflexivity
        | right; left; do 2 eexists; split; [eassumption | reflexivity]
        | right; right; do 4 eexists;
          split; [eassumption | split; [eassumption | reflexivity]] ].
Qed.

Lemma endpoint_of_grant a r : endpoint_of (grant_request a, r) = Some Grant.
Proof. reflexivity. Qed.
Lemma endpoint_of_cred c r : endpoint_of (cred_request c, r) = Some ExchangeCred.
Proof. reflexivity. Qed.
Lemma endpoint_of_refresh a ts r :
  endpoint_of (refresh_request a ts, r) = Some Refresh.
Proof. reflexivity. Qed.
Lemma endpoint_of_binding a ts sg r :
  endpoint_of (binding_request a ts sg, r) = Some Binding.
Proof. reflexivity. Qed.
Lemma endpoint_of_check a ts sg r :
  endpoint_of (check_request a ts sg, r) = Some Check.
Proof. reflexivity. Qed.
Lemma endpoint_of_claim a ts sg r :
  endpoint_of (claim_request a ts sg, r) = Some Claim.
Proof. reflexivity. Qed.

Ltac kinds_simpl :=
  unfold kinds; cbn [map];
  rewrite ?endpoint_of_grant, ?endpoint_of_cred, ?endpoint_of_refresh,
    ?endpoint_of_binding, ?endpoint_of_check, ?endpoint_of_claim.

(** The calls the chain can make, by kind. *)
Lemma authenticate_kinds w a b a' :
  authenticate w a = (Ok b, a') ->
  exists new,
    trace a' = (trace a ++ new)%list
    /\ In (kinds new)
          [[Some Refresh]; [Some Refresh; Some Binding];
           [Some Grant]; [Some Grant; Some ExchangeCred];
           [Some Grant; Some ExchangeCred; Some Refresh];
           [Some Grant; Some ExchangeCred; Some Refresh; Some Binding]].
Proof.
  revert b a'. run_authenticate; intros b a' E; inversion E; subst; clear E;
    trace_simpl; eexists; (split; [reflexivity|]); kinds_simpl;
    cbn [In]; auto 10.
Qed.

Lemma attendance_kinds w a new :
  attendance_calls w a new ->
  In (kinds new) [[]; [Some Check]; [Some Check; Some Claim]].
Proof.
  intros [->|[(sg & r & _ & ->)|(sg & r & sg' & r' & _ & _ & ->)]];
    kinds_simpl; cbn [In]; auto.
Qed.

(** X1. A run makes its calls in one fixed order -- grant, code for cred,
    refresh, binding, check, claim -- each at most once: the trace of
    [perform_checkin] is that sequence with some calls left out, so it
    never holds more than six calls and never a retry. *)
Theorem calls_follow_fixed_order :
  forall (w : upstream) (token : string),
    is_subseq call_order
      (kinds (trace (snd (perform_checkin w (__init__ token))))) = true
    /\ (List.length (trace (snd (perform_checkin w (__init__ token)))) <= 6)%nat.
Proof.
  intros w token.
  assert (H : exists l, kinds (trace (snd (perform_checkin w (__init__ token)))) = l
                        /\ is_subseq call_order l = true
                        /\ (List.length l <= 6)%nat).
  { destruct (authenticate_total w (__init__ token)) as (b & a1 & Hauth).
    destruct (authenticate_kinds w _ _ _ Hauth) as (new & Ht & Hk).
    rewrite init_trace in Ht. cbn [app] in Ht.
    destruct b.
    - destruct (perform_checkin_calls w _ _ Hauth)
        as (o & a3 & new' & E & Ht' & _ & _ & Hcalls).
      rewrite E. cbn [snd]. rewrite Ht', Ht. unfold kinds. rewrite map_app.
      fold (kinds new) (kinds new'). eexists. split; [reflexivity|].
      pose proof (attendance_kinds _ _ _ Hcalls) as Hk'.
      cbn [In] in Hk, Hk'.
      repeat (destruct Hk as [<-|Hk]; [|]); try contradiction;
        repeat (destruct Hk' as [<-|Hk']; [|]); try contradiction;
        (split; [reflexivity | cbn; lia]).
    - rewrite (perform_checkin_auth_failed w _ _ Hauth). cbn [snd].
      rewrite Ht. eexists. split; [reflexivity|].
      cbn [In] in Hk.
      repeat (destruct Hk as [<-|Hk]; [|]); try contradiction;
        (split; [reflexivity | cbn; lia]). }
  destruct H as (l & Hl & Hsub & Hlen). rewrite Hl. split; [exact Hsub|].
  rewrite <- Hl in Hlen. unfold kinds in Hlen. rewrite length_map in Hlen.
  exact Hlen.
Qed.

(** ** Timestamps and signatures *)

Lemma stamp_of_grant a r : header "timestamp" (grant_request a, r) = None.
Proof. reflexivity. Qed.
Lemma stamp_of_cred c r : header "timestamp" (cred_request c, r) = None.
Proof. reflexivity. Qed.
Lemma stamp_of_refresh a ts r :
  header "timestamp" (refresh_request a ts, r) = Some (JStr ts).
Proof. reflexivity. Qed.
Lemma stamp_of_binding a ts sg r :
  header "timestamp" (binding_request a ts sg, r) = Some (JStr ts).
Proof. reflexivity. Qed.
Lemma stamp_of_check a ts sg r :
  header "timestamp" (check_request a ts sg, r) = Some (JStr ts).
Proof.
  unfold header, check_request, with_role. cbn [fst req_headers].
  destruct (truthy (game_role a)); reflexivity.
Qed.
Lemma stamp_of_claim a ts sg r :
  header "timestamp" (claim_request a ts sg, r) = Some (JStr ts).
Proof.
  unfold header, claim_request, with_role. cbn [fst req_headers].
  destruct (truthy (game_role a)); reflexivity.
Qed.

Ltac stamps_simpl :=
  unfold stamps; cbn [flat_map];
  rewrite ?stamp_of_grant, ?stamp_of_cred, ?stamp_of_refresh,
    ?stamp_of_binding, ?stamp_of_check, ?stamp_of_claim;
  cbn [app List.length].

Lemma compute_sign_raises token path body ts e :
  _compute_sign token path body ts = Raise e -> is_str token = false.
Proof.
  intros H. destruct (is_str token) eqn:Hs; [|reflexivity].
  destruct (compute_sign_of_str token path body ts Hs) as (s & Hok).
  congruence.
Qed.

(** The chain stamps its requests with consecutive readings of the clock;
    it reads the clock without sending only when the token cannot sign. *)
Lemma authenticate_stamps w a b a' :
  authenticate w a = (Ok b, a') ->
  exists new,
    trace a' = (trace a ++ new)%list
    /\ stamps new = readings w (ticks a) (List.length (stamps new))
    /\ (b = true ->
        ticks a' = (ticks a + List.length (stamps new))%nat
        \/ is_str (sign_token a') = false).
Proof.
  revert b a'. run_authenticate; intros b a' E; inversion E; subst; clear E;
    trace_simpl; eexists; (split; [reflexivity|]); stamps_simpl;
    (split; [reflexivity|]); try (intros; discriminate); intros _;
    first [ left; cbn; lia
          | right; eapply compute_sign_raises; eassumption ].
Qed.

Lemma readings_app w i n m :
  (readings w i n ++ readings w (i + n) m)%list = readings w i (n + m).
Proof. unfold readings. rewrite <- map_app, <- seq_app. reflexivity. Qed.

Lemma stamps_app t u : stamps (t ++ u) = (stamps t ++ stamps u)%list.
Proof. unfold stamps. apply flat_map_app. Qed.

(** X2. Every request that carries a timestamp carries a reading of its
    own: the timestamps of a run, in the order of the calls, are the
    first readings of the clock, none skipped and none used twice. *)
Theorem each_call_has_a_fresh_timestamp :
  forall (w : upstream) (token : string),
    stamps (trace (snd (perform_checkin w (__init__ token))))
    = readings w 0
        (List.length (stamps (trace (snd (perform_checkin w (__init__ token)))))).
Proof.
  intros w token.
  destruct (authenticate_total w (__init__ token)) as (b & a1 & Hauth).
  destruct (authenticate_stamps w _ _ _ Hauth) as (new & Ht & Hst & Hticks).
  assert (H0 : ticks (__init__ token) = 0%nat).
  { unfold __init__. destruct (_ && _); reflexivity. }
  rewrite init_trace in Ht. cbn [app] in Ht. rewrite H0 in Hst, Hticks.
  destruct b.
  - destruct (perform_checkin_calls w _ _ Hauth)
      as (o & a3 & new' & E & Ht' & _ & _ & Hcalls).
    rewrite E. cbn [snd]. rewrite Ht', Ht, stamps_app, length_app.
    destruct Hcalls as [->|Hcalls].
    { cbn [stamps flat_map List.length]. rewrite app_nil_r, Nat.add_0_r.
      exact Hst. }
    assert (Hstr : is_str (sign_token a1) = true).
    { destruct Hcalls as [(sg & r & Hs & _)|(sg & r & sg' & r' & Hs & _)];
        exact (compute_sign_needs_str _ _ _ _ _ Hs). }
    destruct (Hticks eq_refl) as [Hn|Hn]; [|congruence].
    cbn [Nat.add] in Hn.
    rewrite <- readings_app, <- Hst. f_equal. cbn [Nat.add].
    destruct Hcalls as [(sg & r & _ & ->)|(sg & r & sg' & r' & _ & _ & ->)];
      stamps_simpl; unfold stamp, readings; cbn [ticks tick seq map];
      rewrite Hn; reflexivity.
  - rewrite (perform_checkin_auth_failed w _ _ Hauth). cbn [snd].
    rewrite Ht. exact Hst.
Qed.

Lemma sign_of_grant tok a r : signature_ok tok (grant_request a, r) = true.
Proof. reflexivity. Qed.
Lemma sign_of_cred tok c r : signature_ok tok (cred_request c, r) = true.
Proof. reflexivity. Qed.
Lemma sign_of_refresh tok a ts r :
  signature_ok tok (refresh_request a ts, r) = true.
Proof. reflexivity. Qed.

Lemma sign_of_binding tok a ts sg r :
  _compute_sign tok binding_path "" ts = Ok sg ->
  signature_ok tok (binding_request a ts sg, r) = true.
Proof.
  intros H. unfold signature_ok.
  change (is_signed_call (binding_request a ts sg, r)) with true.
  cbv iota. unfold signed_by. rewrite stamp_of_binding.
  change (header "sign" (binding_request a ts sg, r)) with (Some (JStr sg)).
  change (url_path (req_url (fst (binding_request a ts sg, r))))
    with binding_path.
  rewrite H. apply String.eqb_refl.
Qed.

Lemma sign_header_of_check a ts sg r :
  header "sign" (check_request a ts sg, r) = Some (JStr sg).
Proof.
  unfold header, check_request, with_role. cbn [fst req_headers].
  destruct (truthy (game_role a)); reflexivity.
Qed.

Lemma sign_header_of_claim a ts sg r :
  header "sign" (claim_request a ts sg, r) = Some (JStr sg).
Proof.
  unfold header, claim_request, with_role. cbn [fst req_headers].
  destruct (truthy (game_role a)); reflexivity.
Qed.

Lemma sign_of_check tok a ts sg r :
  _compute_sign tok attendance_path "" ts = Ok sg ->
  signature_ok tok (check_request a ts sg, r) = true.
Proof.
  intros H. unfold signature_ok.
  change (is_signed_call (check_request a ts sg, r)) with true.
  cbv iota. unfold signed_by. rewrite stamp_of_check, sign_header_of_check.
  change (url_path (req_url (fst (check_request a ts sg, r))))
    with attendance_path.
  rewrite H. apply String.eqb_refl.
Qed.

Lemma sign_of_claim tok a ts sg r :
  _compute_sign tok attendance_path "" ts = Ok sg ->
  signature_ok tok (claim_request a ts sg, r) = true.
Proof.
  intros H. unfold signature_ok.
  change (is_signed_call (claim_request a ts sg, r)) with true.
  cbv iota. unfold signed_by. rewrite stamp_of_claim, sign_header_of_claim.
  change (url_path (req_url (fst (claim_request a ts sg, r))))
    with attendance_path.
  rewrite H. apply String.eqb_refl.
Qed.

Lemma authenticate_signatures w a b a' :
  authenticate w a = (Ok b, a') ->
  exists new,
    trace a' = (trace a ++ new)%list
    /\ forallb (signature_ok (sign_token a')) new = true.
Proof.
  revert b a'. run_authenticate; intros b a' E; inversion E; subst; clear E;
    trace_simpl; eexists; (split; [reflexivity|]); cbn [forallb];
    rewrite ?sign_of_grant, ?sign_of_cred, ?sign_of_refresh; cbn [andb];
    try reflexivity.
  all: rewrite sign_of_binding; [reflexivity | assumption].
Qed.

(** X3. Every call to the binding endpoint or to the attendance endpoint
    carries, as its [sign] header, the signature under the adapter's
    signing token of the path of its own URL, an empty body and its own
    [timestamp] header; the grant, the code exchange and the refresh carry
    no [sign] header. *)
Theorem every_signed_call_is_signed_over_itself :
  forall (w : upstream) (token : string),
    forallb (signature_ok (sign_token (snd (perform_checkin w (__init__ token)))))
            (trace (snd (perform_checkin w (__init__ token)))) = true.
Proof.
  intros w token.
  destruct (authenticate_total w (__init__ token)) as (b & a1 & Hauth).
  destruct (authenticate_signatures w _ _ _ Hauth) as (new & Ht & Hs).
  rewrite init_trace in Ht. cbn [app] in Ht.
  destruct b.
  - destruct (perform_checkin_calls w _ _ Hauth)
      as (o & a3 & new' & E & Ht' & Htok & _ & Hcalls).
    rewrite E. cbn [snd]. rewrite Ht', Ht, Htok, forallb_app, Hs.
    cbn [andb].
    destruct Hcalls as [->|[(sg & r & H1 & ->)|(sg & r & sg' & r' & H1 & H2 & ->)]];
      cbn [forallb]; rewrite ?(sign_of_check _ _ _ _ _ H1),
                       ?(sign_of_claim _ _ _ _ _ H2); reflexivity.
  - rewrite (perform_checkin_auth_failed w _ _ Hauth). cbn [snd].
    rewrite Ht. exact Hs.
Qed.

(** ** The game role *)

Lemma find_role_passes_over passed apps :
  forallb passed_over passed = true ->
  find_role (passed ++ apps) = find_role apps.
Proof.
  induction passed as [|app rest IH]; [reflexivity|].
  cbn [forallb]. intros H. apply andb_true_iff in H. destruct H as [Happ Hrest].
  destruct app as [| | | | |f]; try discriminate.
  cbn [app find_role]. rewrite get_dict. cbn [bind].
  unfold passed_over in Happ. apply orb_true_iff in Happ.
  destruct (equal (field "appCode" JNull f) (JStr "endfield")).
  - destruct Happ as [Happ|Happ]; [discriminate|].
    rewrite get_dict. cbn [bind]. apply negb_true_iff in Happ. rewrite Happ.
    apply IH. exact Hrest.
  - cbn [bind truthy]. apply IH. exact Hrest.
Qed.

Lemma truthy_dict r : r <> [] -> truthy (JDict r) = true.
Proof. destruct r; [congruence | reflexivity]. Qed.

(** The role the loop returns at an entry for the target game whose first
    binding has a role. *)
Lemma find_role_at_entry f b bindings role rest :
  equal (field "appCode" JNull f) (JStr "endfield") = true ->
  lookup "bindingList" f = Some (JList (JDict b :: bindings)) ->
  role <> [] ->
  (lookup "defaultRole" b = Some (JDict role)
   \/ (truthy (field "defaultRole" JNull b) = false
       /\ exists others, lookup "roles" b = Some (JList (JDict role :: others)))) ->
  find_role (JDict f :: rest) = Ok (JStr (role_string role)).
Proof.
  intros Hcode Hlist Hrole Hsel.
  destruct role as [|kv role']; [congruence|]. set (role := kv :: role') in *.
  cbn [find_role]. rewrite get_dict. cbn [bind]. rewrite Hcode.
  rewrite get_dict. unfold field at 1. rewrite Hlist. cbn [bind truthy].
  cbn [getitem]. rewrite Hlist. cbn [bind getitem as_index].
  change (seq_index "list" (JDict b :: bindings) 0) with (@Ok json (JDict b)).
  cbn [bind]. rewrite get_dict. cbn [bind].
  destruct Hsel as [Hd|(Hd & others & Hr)].
  - unfold field at 1 2. rewrite Hd. reflexivity.
  - rewrite Hd. rewrite !get_dict. cbn [bind]. unfold field at 1 2.
    rewrite Hr. cbn [truthy bind getitem as_index].
    change (seq_index "list" (JDict role :: others) 0) with (@Ok json (JDict role)).
    reflexivity.
Qed.

(** X4. [_get_player_binding] passes over the entries of the binding list
    that are not for the target game or have no binding, and at the first
    entry that is and has one it returns ["3_<roleId>_<serverId>"] built
    from the default role of the first binding when there is one, and
    from the first of its roles otherwise. *)
Theorem binding_role_selection :
  forall (w : upstream) (a : adapter) (sg : string)
         (top d : list (string * json)) (passed rest bindings : list json)
         (f b role : list (string * json)),
    _compute_sign (sign_token a) binding_path "" (stamp w a) = Ok sg ->
    respond w (trace a) (binding_request a (stamp w a) sg) = Ok (JDict top) ->
    equal (field "code" JNull top) (JInt 0) = true ->
    lookup "data" top = Some (JDict d) ->
    lookup "list" d = Some (JList (passed ++ JDict f :: rest)) ->
    forallb passed_over passed = true ->
    equal (field "appCode" JNull f) (JStr "endfield") = true ->
    lookup "bindingList" f = Some (JList (JDict b :: bindings)) ->
    role <> [] ->
    (lookup "defaultRole" b = Some (JDict role)
     \/ (truthy (field "defaultRole" JNull b) = false
         /\ exists others,
              lookup "roles" b = Some (JList (JDict role :: others)))) ->
    fst (_get_player_binding w a) = Ok (JStr (role_string role)).
Proof.
  intros w a sg top d passed rest bindings f b role
         Hsign Hreply Hcode Hdata Hlist Hpassed Happ Hbind Hrole Hsel.
  rewrite get_player_binding_run, Hsign. cbv zeta. rewrite Hreply.
  cbn [fst bind]. unfold extract_game_role.
  rewrite get_dict. cbn [bind]. rewrite Hcode. rewrite get_dict.
  unfold field at 1. rewrite Hdata. cbn [bind]. rewrite get_dict.
  unfold field at 1. rewrite Hlist. cbn [bind].
  assert (Ht : truthy (JList (passed ++ JDict f :: rest)) = true).
  { destruct passed; reflexivity. }
  rewrite Ht. cbn [getitem]. rewrite Hdata. cbn [bind getitem].
  rewrite Hlist. cbn [bind iter].
  rewrite (find_role_passes_over _ _ Hpassed).
  rewrite (find_role_at_entry _ _ _ _ _ Happ Hbind Hrole Hsel). reflexivity.
Qed.

Lemma binding_role_witness :
  let a := Adapter "" (JStr "cred-value") (JStr "sign-token") JNull [] 0 in
  let default_first :=
    JDict [("code", JInt 0);
           ("data", JDict [("list",
              JList [JDict [("appCode", JStr "arknights")];
                     JDict [("appCode", JStr "endfield");
                            ("bindingList",
                             JList [JDict [("defaultRole",
                                            JDict [("roleId", JStr "4021");
                                                   ("serverId", JInt 2)]);
                                           ("roles",
                                            JList [JDict [("roleId", JStr "77");
                                                          ("serverId", JInt 9)]])]])]])])] in
  let roles_only :=
    JDict [("code", JInt 0);
           ("data", JDict [("list",
              JList [JDict [("appCode", JStr "endfield");
                            ("bindingList",
                             JList [JDict [("defaultRole", JNull);
                                           ("roles",
                                            JList [JDict [("roleId", JStr "77");
                                                          ("serverId", JInt 9)]])]])]])])] in
  fst (_get_player_binding (Upstream (fun _ => 1700000000)
                                     (fun _ _ => Ok default_first)) a)
  = Ok (JStr "3_4021_2")
  /\ fst (_get_player_binding (Upstream (fun _ => 1700000000)
                                        (fun _ _ => Ok roles_only)) a)
     = Ok (JStr "3_77_9").
Proof.
  intros a default_first roles_only. split.
  - assert (Hsign : exists sg,
               _compute_sign (sign_token a) binding_path ""
                 (stamp (Upstream (fun _ => 1700000000)
                                  (fun _ _ => Ok default_first)) a) = Ok sg)
      by (apply compute_sign_of_str; reflexivity).
    destruct Hsign as (sg & Hsign).
    exact (binding_role_selection _ a sg _ _
             [JDict [("appCode", JStr "arknights")]] [] []
             _ _ [("roleId", JStr "4021"); ("serverId", JInt 2)]
             Hsign eq_refl eq_refl eq_refl eq_refl eq_refl eq_refl eq_refl
             ltac:(discriminate) (or_introl eq_refl)).
  - assert (Hsign : exists sg,
               _compute_sign (sign_token a) binding_path ""
                 (stamp (Upstream (fun _ => 1700000000)
                                  (fun _ _ => Ok roles_only)) a) = Ok sg)
      by (apply compute_sign_of_str; reflexivity).
    destruct Hsign as (sg & Hsign).
    exact (binding_role_selection _ a sg _ _ [] [] []
             _ _ [("roleId", JStr "77"); ("serverId", JInt 9)]
             Hsign eq_refl eq_refl eq_refl eq_refl eq_refl eq_refl eq_refl
             ltac:(discriminate)
             (or_intror (conj eq_refl (ex_intro _ [] eq_refl)))).
Defined.

(** What the loop returns is [None] or a role string, which is never
    empty. *)
Lemma find_role_shape apps v :
  find_role apps = Ok v -> v = JNull \/ truthy v = true.
Proof.
  revert v. induction apps as [|app rest IH]; intros v.
  - cbn. intros E. injection E as <-. auto.
  - cbn [find_role]. unfold bind.
    repeat split_match; try discriminate; try (apply IH);
      intros E; injection E as <-; right; reflexivity.
Qed.

Lemma game_role_shape (r : reply) :
  or_none (bind r extract_game_role) = JNull
  \/ truthy (or_none (bind r extract_game_role)) = true.
Proof.
  destruct r as [data|e]; cbn [bind or_none]; [|auto].
  unfold extract_game_role, bind.
  repeat split_match; cbn [or_none]; auto;
    match goal with
    | |- context [find_role ?l] =>
        destruct (find_role l) as [v|e] eqn:Hf; cbn [or_none]; auto;
        exact (find_role_shape l v Hf)
    end.
Qed.

Lemma authenticate_role w a b a' :
  authenticate w a = (Ok b, a') ->
  game_role a' = game_role a
  \/ game_role a' = JNull
  \/ truthy (game_role a') = true.
Proof.
  revert b a'. run_authenticate; intros b a' E; inversion E; subst; clear E;
    trace_simpl; auto.
  all: match goal with
       | |- context [or_none (bind ?r extract_game_role)] =>
           destruct (game_role_shape r) as [H|H]; auto
       end.
Qed.

Lemma init_role token : game_role (__init__ token) = JNull.
Proof. unfold __init__. destruct (_ && _); reflexivity. Qed.

(** X5. When the binding lookup resolved a role, the check and the claim
    both carry it in the [sk-game-role] header, after the headers every
    signed call has. *)
Theorem resolved_role_is_sent :
  forall (w : upstream) (token role : string),
    game_role (snd (authenticate w (__init__ token))) = JStr role ->
    forall x,
      In x (trace (snd (perform_checkin w (__init__ token)))) ->
      to_attendance x = true ->
      header "sk-game-role" x = Some (JStr role)
      /\ header_names x
         = (["cred"; "platform"; "vname"; "timestamp"; "sk-language"; "sign"]
            ++ (if is_post (req_method (fst x)) then ["Content-Type"] else [])
            ++ ["sk-game-role"])%list.
Proof.
  intros w token role Hrole x Hin Hx.
  destruct (authenticate_total w (__init__ token)) as (b & a1 & Hauth).
  rewrite Hauth in Hrole. cbn [snd] in Hrole.
  destruct (authenticate_trace w _ _ _ Hauth) as (new & Ht & Hnot & _).
  rewrite init_trace in Ht. cbn [app] in Ht.
  assert (Htruthy : truthy (game_role a1) = true).
  { destruct (authenticate_role w _ _ _ Hauth) as [H|[H|H]].
    - rewrite init_role in H. congruence.
    - congruence.
    - exact H. }
  destruct b.
  - destruct (perform_checkin_trace w _ _ Hauth)
      as (o & a3 & new' & E & Ht' & Hall).
    rewrite E in Hin. cbn [snd] in Hin. rewrite Ht' in Hin.
    apply in_app_or in Hin. destruct Hin as [Hin|Hin].
    + rewrite Ht in Hin. rewrite Forall_forall in Hnot.
      rewrite (Hnot x Hin) in Hx. discriminate.
    + rewrite Forall_forall in Hall.
      destruct (Hall x Hin) as (ts & sg & [Ex|Ex]);
        unfold header, header_names; rewrite Ex;
        unfold check_request, claim_request, with_role; rewrite Htruthy, Hrole;
        split; reflexivity.
  - rewrite (perform_checkin_auth_failed w _ _ Hauth) in Hin. cbn [snd] in Hin.
    rewrite Ht in Hin. rewrite Forall_forall in Hnot.
    rewrite (Hnot x Hin) in Hx. discriminate.
Qed.

Lemma resolved_role_witness :
  let w := Sample.healthy false (Ok (Sample.claim_payload 0 "OK")) in
  game_role (snd (authenticate w (__init__ Sample.short_token))) = JStr "3_4021_2"
  /\ map (header "sk-game-role")
         (filter to_attendance
            (trace (snd (perform_checkin w (__init__ Sample.short_token)))))
     = [Some (JStr "3_4021_2"); Some (JStr "3_4021_2")].
Proof.
  intros w.
  assert (Hrole : game_role (snd (authenticate w (__init__ Sample.short_token)))
                  = JStr "3_4021_2") by (vm_compute; reflexivity).
  split; [exact Hrole|].
  pose proof (resolved_role_is_sent w Sample.short_token "3_4021_2" Hrole) as H.
  assert (Hf : forall l,
             (forall x, In x l -> to_attendance x = true ->
                        header "sk-game-role" x = Some (JStr "3_4021_2")) ->
             map (header "sk-game-role") (filter to_attendance l)
             = map (fun _ => Some (JStr "3_4021_2")) (filter to_attendance l)).
  { induction l as [|x l IH]; intros Hl; [reflexivity|].
    cbn [filter]. destruct (to_attendance x) eqn:Hx.
    - cbn [map]. rewrite (Hl x (or_introl eq_refl) Hx).
      rewrite IH; [reflexivity|]. intros y Hy. apply Hl. right. exact Hy.
    - apply IH. intros y Hy. apply Hl. right. exact Hy. }
  rewrite Hf.
  - vm_compute. reflexivity.
  - intros x Hin Hx. exact (proj1 (H x Hin Hx)).
Defined.

(** ** What authentication leaves behind *)

Lemma refresh_not_grant a r : refresh_succeeded (grant_request a, r) = false.
Proof. reflexivity. Qed.
Lemma refresh_not_cred c r : refresh_succeeded (cred_request c, r) = false.
Proof. reflexivity. Qed.
Lemma refresh_not_binding a ts sg r :
  refresh_succeeded (binding_request a ts sg, r) = false.
Proof. reflexivity. Qed.
Lemma refresh_is_refresh a ts r :
  refresh_succeeded (refresh_request a ts, r)
  = truthy (or_none (bind r extract_sign_token)).
Proof. reflexivity. Qed.

Lemma authenticate_outcome w a b a' :
  authenticate w a = (Ok b, a') ->
  exists new,
    trace a' = (trace a ++ new)%list
    /\ refreshed new = b
    /\ (b = true ->
        truthy (cred a') = true /\ truthy (sign_token a') = true)
    /\ (b = false ->
        sign_token a' = sign_token a /\ game_role a' = game_role a).
Proof.
  revert b a'. run_authenticate; intros b a' E; inversion E; subst; clear E;
    trace_simpl; eexists; (split; [reflexivity|]);
    unfold refreshed; cbn [existsb];
    rewrite ?refresh_not_grant, ?refresh_not_cred, ?refresh_not_binding,
      ?refresh_is_refresh; cbn [orb];
    repeat match goal with
           | H : truthy _ = _ |- _ => rewrite H
           end; cbn [orb];
    (split; [reflexivity|]); split; intros; try discriminate; auto.
Qed.

(** X6. [authenticate] returns [True] exactly when the refresh handed a
    signing token back.  It then holds a cred and a signing token; when it
    returns [False] the signing token and the role stay [None], whichever
    hop failed. *)
Theorem authenticated_iff_refreshed :
  forall (w : upstream) (token : string),
    fst (authenticate w (__init__ token))
    = Ok (refreshed (trace (snd (authenticate w (__init__ token)))))
    /\ (if refreshed (trace (snd (authenticate w (__init__ token))))
        then truthy (cred (snd (authenticate w (__init__ token)))) = true
             /\ truthy (sign_token (snd (authenticate w (__init__ token)))) = true
        else sign_token (snd (authenticate w (__init__ token))) = JNull
             /\ game_role (snd (authenticate w (__init__ token))) = JNull).
Proof.
  intros w token.
  destruct (authenticate_total w (__init__ token)) as (b & a1 & Hauth).
  destruct (authenticate_outcome w _ _ _ Hauth) as (new & Ht & Hr & Htrue & Hfalse).
  rewrite init_trace in Ht. cbn [app] in Ht.
  rewrite Hauth. cbn [fst snd]. rewrite Ht, Hr. split; [reflexivity|].
  destruct b.
  - apply Htrue. reflexivity.
  - destruct (Hfalse eq_refl) as [Hs Hg]. rewrite Hs, Hg, init_role.
    split; [|reflexivity]. unfold __init__. destruct (_ && _); reflexivity.
Qed.

(** ** A check that does not answer with code 0 *)

(** X7. When the chain succeeded and the check call comes back with an
    object whose code is not 0, be it the upstream's or the -1 of the error
    payload, [perform_checkin] stops there: it reports a failure with the
    message of that object (a fixed text when it has none) and zero days,
    and no claim is sent. *)
Theorem check_failure_outcome :
  forall (w : upstream) (token : string) (a1 : adapter)
         (fields : list (string * json)),
    authenticate w (__init__ token) = (Ok true, a1) ->
    fst (check_attendance w a1) = Ok (JDict fields) ->
    equal (field "code" JNull fields) (JInt 0) = false ->
    perform_checkin w (__init__ token)
    = (Ok (Outcome false
                   (field "message" (JStr "Failed to check attendance") fields)
                   false None 0),
       snd (check_attendance w a1))
    /\ existsb is_claim (trace (snd (perform_checkin w (__init__ token))))
       = false.
Proof.
  intros w token a1 fields Hauth Hcheck Hcode.
  assert (E : perform_checkin w (__init__ token)
              = (Ok (Outcome false
                       (field "message" (JStr "Failed to check attendance")
                              fields)
                       false None 0),
                 snd (check_attendance w a1))).
  { run_checkin. rewrite Hauth. cbv beta zeta iota. cbn [negb].
    destruct (check_attendance w a1) as [r a2]. cbn [fst snd] in *. subst r.
    cbv beta zeta iota. rewrite !get_dict. cbv beta zeta iota.
    rewrite Hcode. reflexivity. }
  split; [exact E|].
  rewrite E. cbn [snd].
  destruct (check_attendance w a1) as [r a2] eqn:Hc. cbn [fst snd] in *.
  subst r.
  rewrite (check_adds_no_claim _ _ _ _ Hc).
  rewrite (authenticate_adds_no_claim _ _ _ _ Hauth).
  rewrite init_trace. reflexivity.
Qed.

Lemma check_failure_witness :
  let refused :=
    Sample.scripted Sample.ok_grant Sample.ok_cred Sample.ok_refresh
      Sample.ok_binding
      (Ok (JDict [("code", JInt 10002); ("message", JStr "token expired")]))
      (Ok (Sample.claim_payload 0 "OK")) in
  let silent :=
    Sample.scripted Sample.ok_grant Sample.ok_cred Sample.ok_refresh
      Sample.ok_binding
      (Raise (Exn "ConnectionError" "connection reset"))
      (Ok (Sample.claim_payload 0 "OK")) in
  fst (perform_checkin refused (__init__ Sample.long_token))
  = Ok (Outcome false (JStr "token expired") false None 0)
  /\ fst (perform_checkin silent (__init__ Sample.short_token))
     = Ok (Outcome false (JStr "connection reset") false None 0).
Proof.
  intros refused silent. split.
  - rewrite (proj1 (check_failure_outcome refused Sample.long_token
                      (snd (authenticate refused (__init__ Sample.long_token)))
                      [("code", JInt 10002); ("message", JStr "token expired")]
                      ltac:(vm_compute; reflexivity)
                      ltac:(vm_compute; reflexivity)
                      ltac:(vm_compute; reflexivity))).
    reflexivity.
  - rewrite (proj1 (check_failure_outcome silent Sample.short_token
                      (snd (authenticate silent (__init__ Sample.short_token)))
                      [("code", JInt (-1)); ("message", JStr "connection reset")]
                      ltac:(vm_compute; reflexivity)
                      ltac:(vm_compute; reflexivity)
                      ltac:(vm_compute; reflexivity))).
    reflexivity.
Defined.

(** ** The client without a signing token *)

(** X8. With a signing token that is not a [str] (it is [None] until the
    chain has run) neither client operation sends anything: each reads the
    clock, fails to sign, and returns the -1 payload with the text of the
    [AttributeError]. *)
Theorem client_without_token_sends_nothing :
  forall (w : upstream) (a : adapter),
    is_str (sign_token a) = false ->
    let payload :=
      JDict [("code", JInt (-1));
             ("message",
              JStr ("'" ++ type_name (sign_token a)
                    ++ "' object has no attribute 'encode'"))] in
    check_attendance w a = (Ok payload, tick a)
    /\ claim_attendance w a = (Ok payload, tick a)
    /\ trace (tick a) = trace a.
Proof.
  intros w a Hs payload.
  rewrite check_attendance_run, claim_attendance_run.
  unfold _compute_sign.
  destruct (sign_token a); try discriminate; cbn [encode attribute_error bind];
    repeat split; reflexivity.
Qed.

Lemma client_without_token_witness :
  let w := Sample.healthy false (Ok (Sample.claim_payload 0 "OK")) in
  fst (check_attendance w (__init__ Sample.long_token))
  = Ok (JDict [("code", JInt (-1));
               ("message",
                JStr "'NoneType' object has no attribute 'encode'")])
  /\ trace (snd (claim_attendance w (__init__ Sample.long_token))) = [].
Proof.
  intros w.
  destruct (client_without_token_sends_nothing w (__init__ Sample.long_token)
              eq_refl) as (Hcheck & Hclaim & Ht).
  rewrite Hcheck, Hclaim. split; reflexivity.
Defined.

(** ** [Game.sign] *)

(** X9. For a [str] token [Game.sign] returns what the adapter's
    [perform_checkin] returns, field for field; its own [except] branch is
    reached by a token that is not a [str] only, and then reports the
    [AttributeError] of the constructor as a failure. *)
Theorem sign_is_the_adapter_outcome :
  forall (w : upstream) (account_token : json),
    match account_token with
    | JStr token =>
        fst (perform_checkin w (__init__ token))
        = Ok (Game.sign w account_token)
    | _ =>
        Game.sign w account_token
        = Outcome false
            (JStr ("'" ++ type_name account_token
                   ++ "' object has no attribute 'startswith'"))
            false None 0
    end.
Proof.
  intros w account_token. destruct account_token; try reflexivity.
  unfold Game.sign, Game.new_adapter.
  destruct (perform_checkin_total w (__init__ s)) as (o & a' & E).
  rewrite E. cbn [fst]. destruct o; reflexivity.
Qed.

(** ** What every outcome satisfies *)

Lemma claim_outcome_well_formed total claim_data o :
  0 <= total ->
  claim_outcome total claim_data = Ok o -> well_formed o.
Proof.
  intros Ht. unfold claim_outcome, bind, well_formed.
  repeat split_match; intros E; inversion E; subst; cbn; split;
    solve [lia | congruence | reflexivity | discriminate | auto].
Qed.

Lemma perform_checkin_well_formed w a o a' :
  perform_checkin w a = (Ok o, a') -> well_formed o.
Proof.
  run_checkin.
  destruct (authenticate w a) as [[[|]|e] a1]; cbv beta zeta iota; cbn [negb];
    try (intros E; inversion E; subst; split; cbn; [lia|reflexivity]).
  rewrite check_attendance_run.
  repeat (first [rewrite claim_attendance_run | split_match]; cbv beta zeta iota);
    intros E; inversion E; subst;
    try (split; cbn; solve [lia | congruence | reflexivity | discriminate]);
    try (eapply claim_outcome_well_formed; [|eassumption]; lia).
Qed.

(** X10. Whatever the token and the upstream, the outcome [Game.sign]
    returns counts no negative number of days and names a reward only when
    it reports success. *)
Theorem sign_outcome_well_formed :
  forall (w : upstream) (account_token : json),
    0 <= total_sign_day (Game.sign w account_token)
    /\ (success (Game.sign w account_token) = false ->
        reward (Game.sign w account_token) = None).
Proof.
  intros w account_token. unfold Game.sign.
  destruct (Game.new_adapter account_token) as [ad|e];
    [|split; cbn; [lia|reflexivity]].
  destruct (perform_checkin w ad) as [[o|e] a'] eqn:E; cbn [fst];
    [|split; cbn; [lia|reflexivity]].
  exact (perform_checkin_well_formed _ _ _ _ E).
Qed.

(** ** The form of a signature *)

Lemma hex_digit_lower d : 0 <= d < 16 -> is_lower_hex (Bytes.hex_digit d) = true.
Proof.
  intros H.
  assert (Hd : d = 0 \/ d = 1 \/ d = 2 \/ d = 3 \/ d = 4 \/ d = 5 \/ d = 6
               \/ d = 7 \/ d = 8 \/ d = 9 \/ d = 10 \/ d = 11 \/ d = 12
               \/ d = 13 \/ d = 14 \/ d = 15) by lia.
  repeat (destruct Hd as [->|Hd]; [reflexivity|]). subst d. reflexivity.
Qed.

Lemma le_bytes_range k x :
  Forall (fun b => 0 <= b < 256) (Bytes.le_bytes k x).
Proof.
  revert x. induction k as [|k IH]; intros x; cbn [Bytes.le_bytes].
  - constructor.
  - constructor; [|apply IH].
    change 255 with (Z.ones 8). rewrite Z.land_ones by lia.
    apply Z.mod_pos_bound. reflexivity.
Qed.

Lemma hex_lower bs :
  Forall (fun b => 0 <= b < 256) bs ->
  String.length (Bytes.hex bs) = (2 * List.length bs)%nat
  /\ forallb is_lower_hex (list_ascii_of_string (Bytes.hex bs)) = true.
Proof.
  induction 1 as [|b r Hb Hr [IHl IHh]]; [split; reflexivity|].
  cbn [Bytes.hex Bytes.hex_byte String.append String.length
       list_ascii_of_string forallb List.length].
  rewrite IHl, IHh. split; [lia|].
  rewrite !hex_digit_lower; [reflexivity| |].
  - change 15 with (Z.ones 4). rewrite Z.land_ones by lia.
    apply Z.mod_pos_bound. reflexivity.
  - rewrite Z.shiftr_div_pow2 by lia. change (2 ^ 4) with 16.
    split; [apply Z.div_pos; lia | apply Z.div_lt_upper_bound; lia].
Qed.

Lemma md5_round_length m st i :
  List.length st = 4%nat -> List.length (Md5.round m st i) = 4%nat.
Proof.
  destruct st as [|a [|b [|c [|d [|e r]]]]]; try discriminate. intros _.
  unfold Md5.round. destruct (Md5.mix i b c d). reflexivity.
Qed.

Lemma md5_rounds_length m l st :
  List.length st = 4%nat -> List.length (fold_left (Md5.round m) l st) = 4%nat.
Proof.
  revert st. induction l as [|i l IH]; intros st H; [exact H|].
  cbn [fold_left]. apply IH. apply md5_round_length. exact H.
Qed.

Lemma md5_compress_length h block :
  List.length h = 4%nat -> List.length (Md5.compress h block) = 4%nat.
Proof.
  intros H. unfold Md5.compress. cbv zeta.
  rewrite length_map, length_combine, md5_rounds_length by exact H.
  rewrite H. reflexivity.
Qed.

Lemma md5_state_length l h :
  List.length h = 4%nat -> List.length (fold_left Md5.compress l h) = 4%nat.
Proof.
  revert h. induction l as [|b l IH]; intros h H; [exact H|].
  cbn [fold_left]. apply IH. apply md5_compress_length. exact H.
Qed.

Lemma md5_digest_bytes msg :
  List.length (Md5.digest msg) = 16%nat
  /\ Forall (fun b => 0 <= b < 256) (Md5.digest msg).
Proof.
  unfold Md5.digest. cbv zeta.
  pose proof (md5_state_length
                (Bytes.blocks 64 (Bytes.pad64 (Bytes.le_bytes 8) msg))
                Md5.A0 eq_refl) as H.
  destruct (fold_left Md5.compress _ Md5.A0) as [|a [|b [|c [|d [|e r]]]]];
    try discriminate.
  split; [reflexivity|].
  cbn [flat_map]. rewrite app_nil_r.
  repeat (apply Forall_app; split); apply le_bytes_range.
Qed.

(** X11. With a [str] signing token [_compute_sign] always produces a
    signature, and the signature is 32 lowercase hexadecimal digits,
    whatever the path, the body and the timestamp. *)
Theorem signature_is_32_hex_digits :
  forall (sign_token path body timestamp : string),
    exists s,
      _compute_sign (JStr sign_token) path body timestamp = Ok s
      /\ String.length s = 32%nat
      /\ forallb is_lower_hex (list_ascii_of_string s) = true.
Proof.
  intros tok path body ts. unfold _compute_sign. cbn [encode bind].
  eexists. split; [reflexivity|].
  unfold Md5.hexdigest.
  match goal with
  | |- context [Md5.digest ?m] =>
      destruct (md5_digest_bytes m) as [Hl Hr];
      destruct (hex_lower _ Hr) as [Hlen Hhex]
  end.
  rewrite Hl in Hlen. split; [exact Hlen|exact Hhex].
Qed.

(** ** The form of the token and the first call *)

Lemma existsb_none {A} (f : A -> bool) (l : list A) :
  (forall x, In x l -> f x = false) -> existsb f l = false.
Proof.
  induction l as [|x l IH]; intros H; [reflexivity|].
  cbn [existsb]. rewrite (H x (or_introl eq_refl)). cbn [orb].
  apply IH. intros y Hy. apply H. right. exact Hy.
Qed.

(** X12. The form of a token that is not empty settles the first call of
    the chain: a short-form token goes to the refresh as the cred and the
    grant is never called; any other token goes to the grant in the body. *)
Theorem token_form_settles_first_call :
  forall (w : upstream) (token : string),
    token <> "" ->
    exists r rest,
      trace (snd (authenticate w (__init__ token)))
      = ((if short_form token
          then Request GET refresh_url
                 [("cred", JStr token); ("platform", JStr PLATFORM);
                  ("vname", JStr VNAME);
                  ("timestamp", JStr (str_int (time w 0%nat)));
                  ("sk-language", JStr "en")] None
          else Request POST grant_url
                 [("Content-Type", JStr "application/json");
                  ("Accept", JStr "application/json")]
                 (Some (JDict [("token", JStr token);
                               ("appCode", JStr APP_CODE);
                               ("type", JInt 0)]))), r) :: rest
      /\ (short_form token = true ->
          existsb is_grant (trace (snd (authenticate w (__init__ token))))
          = false).
Proof.
  intros w token Hne. destruct (short_form token) eqn:Hs.
  - destruct (short_token_skips_oauth w token Hs Hne) as (r & rest & Ht & Hall).
    exists r, rest. split; [exact Ht|]. intros _.
    apply existsb_none. exact Hall.
  - destruct (long_token_starts_oauth w token Hs) as (r & rest & Ht).
    exists r, rest. split; [exact Ht|]. discriminate.
Qed.

Lemma token_form_witness :
  let w := Sample.healthy false (Ok (Sample.claim_payload 0 "OK")) in
  (exists x rest,
      trace (snd (authenticate w (__init__ Sample.short_token))) = x :: rest
      /\ req_url (fst x) = refresh_url)
  /\ (exists x rest,
        trace (snd (authenticate w (__init__ Sample.long_token))) = x :: rest
        /\ req_url (fst x) = grant_url).
Proof.
  intros w. split.
  - destruct (token_form_settles_first_call w Sample.short_token)
      as (r & rest & Ht & _); [discriminate|].
    rewrite Ht. eexists; eexists; split; reflexivity.
  - destruct (token_form_settles_first_call w Sample.long_token)
      as (r & rest & Ht & _); [discriminate|].
    rewrite Ht. eexists; eexists; split; reflexivity.
Defined.

(* ================================================================== *)
(** * The account processor *)

Import Processor.

(** ** One result for each account *)

Lemma process_accounts_results ws fn accounts :
  forallb has_fields accounts = true ->
  forall i,
    exists results,
      process_accounts ws fn i accounts = Ok results
      /\ List.length results = List.length accounts
      /\ forall k a n c,
           nth_error accounts k = Some a ->
           account_fields a = Some (n, c) ->
           nth_error results k
           = Some (account_result n fn (Game.sign (ws (i + k)%nat) c)).
Proof.
  induction accounts as [|a rest IH]; intros Hall i.
  - exists []. repeat split. intros [|k]; discriminate.
  - cbn [forallb] in Hall. apply andb_prop in Hall. destruct Hall as [Ha Hrest].
    destruct (IH Hrest (S i)) as (others & E & Hlen & Hnth).
    unfold has_fields in Ha.
    destruct (account_fields a) as [[n c]|] eqn:Hf; [|discriminate].
    unfold account_fields in Hf.
    destruct a as [| | | | |d]; try discriminate.
    destruct (lookup "name" d) as [n'|] eqn:Hn; [|discriminate].
    destruct (lookup "cookie" d) as [c'|] eqn:Hc; [|discriminate].
    injection Hf as -> ->.
    cbn [process_accounts getitem]. rewrite Hn, Hc. cbn [bind]. rewrite E.
    cbn [bind].
    eexists. split; [reflexivity|]. split; [cbn [List.length]; lia|].
    intros [|k] a0 n0 c0 Hk Hf0.
    + cbn [nth_error] in Hk. injection Hk as <-.
      unfold account_fields in Hf0. rewrite Hn, Hc in Hf0.
      injection Hf0 as <- <-. rewrite Nat.add_0_r. reflexivity.
    + cbn [nth_error] in Hk |- *. rewrite (Hnth k a0 n0 c0 Hk Hf0).
      replace (S i + k)%nat with (i + S k)%nat by lia. reflexivity.
Qed.

(** X13. When every entry of the account list holds a name and a token,
    [process_all_accounts] does not raise and returns one result for each
    account, in the order of the list: the name, the game, and the outcome
    of [sign] on the token against what that account's sign-in met.  A
    sign-in that fails becomes a failure result and stops nothing. *)
Theorem every_account_gets_a_result :
  forall (ws : nat -> upstream) (g : game) (accounts : list json),
    data g = JList accounts ->
    forallb has_fields accounts = true ->
    exists results,
      process_all_accounts ws g = Ok results
      /\ List.length results = List.length accounts
      /\ forall i a n c,
           nth_error accounts i = Some a ->
           account_fields a = Some (n, c) ->
           nth_error results i
           = Some (account_result n (full_name g) (Game.sign (ws i) c)).
Proof.
  intros ws g accounts Hdata Hall.
  destruct (process_accounts_results ws (full_name g) accounts Hall 0)
    as (results & E & Hlen & Hnth).
  exists results. unfold process_all_accounts. rewrite Hdata.
  cbn [iter bind]. auto.
Qed.

Lemma every_account_witness :
  let g := GameObject (JStr "endfield") (JStr "Arknights: Endfield")
                      SampleBatch.game_config SampleBatch.accounts in
  exists results,
    process_all_accounts SampleBatch.worlds g = Ok results
    /\ List.length results = 3%nat
    /\ nth_error results 2
       = Some (account_result (JStr "Chen") (JStr "Arknights: Endfield")
                 (Outcome false (JStr "Authentication failed") false None 0)).
Proof.
  intros g.
  destruct (every_account_gets_a_result SampleBatch.worlds g
              [SampleBatch.account "Amiya" Sample.long_token;
               SampleBatch.account "Perlica" Sample.short_token;
               SampleBatch.account "Chen" "eyJ.expired"]
              eq_refl eq_refl) as (results & E & Hlen & Hnth).
  exists results. split; [exact E|]. split; [exact Hlen|].
  rewrite (Hnth 2%nat _ (JStr "Chen") (JStr "eyJ.expired") eq_refl eq_refl).
  apply f_equal. apply f_equal. vm_compute. reflexivity.
Defined.

(** ** An entry without a name or a token *)

Lemma process_accounts_aborts ws fn before d after :
  forallb has_fields before = true ->
  has_fields (JDict d) = false ->
  forall i,
    process_accounts ws fn i (before ++ JDict d :: after)
    = Raise (Exn "KeyError"
               (match lookup "name" d with
                | None => "'name'"
                | Some _ => "'cookie'"
                end)).
Proof.
  intros Hall Hd. induction before as [|a rest IH]; intros i.
  - cbn [app process_accounts getitem]. unfold has_fields, account_fields in Hd.
    destruct (lookup "name" d) as [n|]; [|reflexivity].
    destruct (lookup "cookie" d) as [c|]; [discriminate|reflexivity].
  - cbn [forallb] in Hall. apply andb_prop in Hall. destruct Hall as [Ha Hrest].
    unfold has_fields, account_fields in Ha.
    destruct a as [| | | | |da]; try discriminate.
    destruct (lookup "name" da) as [n|] eqn:Hn; [|discriminate].
    destruct (lookup "cookie" da) as [c|] eqn:Hc; [|discriminate].
    cbn [app process_accounts getitem]. rewrite Hn, Hc. cbn [bind].
    rewrite (IH Hrest). reflexivity.
Qed.

(** X14. An entry of the account list that is an object without a name, or
    with a name and without a token, makes [process_all_accounts] raise a
    [KeyError] for the key it misses first: nothing catches it, and the
    results of the accounts before it are not returned. *)
Theorem incomplete_account_aborts_batch :
  forall (ws : nat -> upstream) (g : game) (before after : list json)
         (d : list (string * json)),
    data g = JList (before ++ JDict d :: after) ->
    forallb has_fields before = true ->
    has_fields (JDict d) = false ->
    process_all_accounts ws g
    = Raise (Exn "KeyError"
               (match lookup "name" d with
                | None => "'name'"
                | Some _ => "'cookie'"
                end)).
Proof.
  intros ws g before after d Hdata Hall Hd.
  unfold process_all_accounts. rewrite Hdata. cbn [iter bind].
  apply process_accounts_aborts; assumption.
Qed.

Lemma incomplete_account_witness :
  process_all_accounts SampleBatch.worlds
    (GameObject (JStr "endfield") (JStr "Arknights: Endfield")
       SampleBatch.game_config
       (JList [SampleBatch.account "Amiya" Sample.long_token;
               JDict [("name", JStr "Perlica")];
               SampleBatch.account "Chen" "eyJ.expired"]))
  = Raise (Exn "KeyError" "'cookie'").
Proof.
  exact (incomplete_account_aborts_batch SampleBatch.worlds
           (GameObject (JStr "endfield") (JStr "Arknights: Endfield")
              SampleBatch.game_config
              (JList [SampleBatch.account "Amiya" Sample.long_token;
                      JDict [("name", JStr "Perlica")];
                      SampleBatch.account "Chen" "eyJ.expired"]))
           [SampleBatch.account "Amiya" Sample.long_token]
           [SampleBatch.account "Chen" "eyJ.expired"]
           [("name", JStr "Perlica")]
           eq_refl eq_refl eq_refl).
Defined.

(** ** The notifications of a batch *)

Lemma sign_already_is_success w account_token :
  already_signed (Game.sign w account_token) = true ->
  success (Game.sign w account_token) = true.
Proof.
  unfold Game.sign.
  destruct (Game.new_adapter account_token) as [ad|e]; [|discriminate].
  destruct (perform_checkin w ad) as [[r|e] a'] eqn:E; cbn [fst];
    [|discriminate].
  cbn. exact (perform_checkin_already_is_success _ _ _ _ E).
Qed.

Lemma process_accounts_from_sign ws fn accounts :
  forall i results,
    process_accounts ws fn i accounts = Ok results ->
    Forall (from_sign fn) results.
Proof.
  induction accounts as [|a rest IH]; intros i results.
  - cbn. intros E. injection E as <-. constructor.
  - cbn [process_accounts]. unfold bind.
    destruct (getitem a (JStr "name")) as [n|]; [|discriminate].
    destruct (getitem a (JStr "cookie")) as [c|]; [|discriminate].
    destruct (process_accounts ws fn (S i) rest) as [others|] eqn:E;
      [|discriminate].
    intros R. injection R as <-. constructor; [|exact (IH _ _ E)].
    exists n, (Game.sign (ws i) c). split; [reflexivity|].
    apply sign_already_is_success.
Qed.

Lemma counts_as_success_result n fn o :
  counts_as_success (account_result n fn o)
  = Ok (success o || already_signed o).
Proof.
  unfold counts_as_success, account_result. cbn.
  destruct (success o); reflexivity.
Qed.

Lemma success_results_kept fn results :
  Forall (from_sign fn) results ->
  forall kept,
    success_results results = Ok kept ->
    Forall (fun r => exists n o, r = account_result n fn o /\ success o = true)
           kept
    /\ (List.length kept <= List.length results)%nat.
Proof.
  induction 1 as [|r rest (n & o & -> & Ho) Hrest IH]; intros kept.
  - cbn. intros E. injection E as <-. split; [apply Forall_nil|reflexivity].
  - cbn [success_results]. rewrite counts_as_success_result. cbn [bind].
    destruct (success_results rest) as [others|]; [|discriminate].
    destruct (IH others eq_refl) as [Hothers Hlen].
    cbn [bind]. intros E. injection E as <-.
    destruct (success o) eqn:Hs; cbn [orb].
    + split; [|cbn [List.length]; lia]. constructor; [|exact Hothers].
      exists n, o. auto.
    + destruct (already_signed o) eqn:Ha.
      * discriminate (Ho eq_refl).
      * split; [exact Hothers|cbn [List.length]; lia].
Qed.

Lemma embed_of_success g n fn o e :
  success o = true ->
  _build_notification_embed g (account_result n fn o) = Ok e ->
  embed_color e = Green
  /\ embed_description e = message o
  /\ exists rest,
       embed_fields e
       = Field "📅 Total Sign-ins" (str_int (total_sign_day o) ++ " days") true
         :: rest.
Proof.
  intros Hs. unfold _build_notification_embed.
  rewrite counts_as_success_result, Hs. unfold account_result, bind.
  cbn [getitem get lookup String.eqb Ascii.eqb Bool.eqb truthy orb].
  rewrite Hs.
  repeat split_match; try discriminate; intros E; injection E as <-;
    cbn; eauto.
Qed.

Lemma send_at_most_one d g guild_id r :
  (List.length (send_discord_notification_direct d g guild_id r) <= 1)%nat
  /\ forall ch e,
       In (ch, e) (send_discord_notification_direct d g guild_id r) ->
       _build_notification_embed g r = Ok e.
Proof.
  unfold send_discord_notification_direct.
  repeat split_match; cbn [List.length In]; split; try lia;
    intros ch e H; try contradiction.
  destruct H as [H|[]]. injection H as _ <-. reflexivity.
Qed.

Lemma flat_map_at_most {A B} (f : A -> list B) (l : list A) :
  (forall x, (List.length (f x) <= 1)%nat) ->
  (List.length (flat_map f l) <= List.length l)%nat.
Proof.
  intros H. induction l as [|x l IH]; [cbn; lia|].
  cbn [flat_map List.length]. rewrite length_app. specialize (H x). lia.
Qed.

(** X15. [process_game_checkins] returns, of the results of the batch, the
    successful ones only; it sends at most one notification for each, and
    every notification it sends is green, carries the message of the
    result, and opens with the day count.  The red embed and the embed
    without fields are never sent, because an already-signed result is
    always a success. *)
Theorem notifications_report_successes :
  forall (ws : nat -> upstream) (d : discord) (guild_id : Z)
         (name game_config accounts : json)
         (returned : list json) (calls : list sent),
    process_game_checkins ws d guild_id name game_config accounts
    = Ok (returned, calls) ->
    Forall (fun r => get r "success" JNull = Ok (JBool true)) returned
    /\ (List.length calls <= List.length returned)%nat
    /\ Forall (fun call =>
                 embed_color (snd call) = Green
                 /\ (exists r, In r returned
                               /\ get r "message" JNull
                                  = Ok (embed_description (snd call)))
                 /\ exists days rest,
                      embed_fields (snd call)
                      = Field "📅 Total Sign-ins" days true :: rest)
              calls.
Proof.
  intros ws d guild_id name game_config accounts returned calls.
  unfold process_game_checkins, new_game, process_all_accounts, bind.
  destruct (py_len accounts); [|discriminate].
  destruct (getitem game_config (JStr "game")) as [fn|]; [|discriminate].
  cbn [data full_name].
  destruct (iter accounts) as [l|]; [|discriminate].
  destruct (process_accounts ws fn 0 l) as [results|] eqn:E; [|discriminate].
  destruct (success_results results) as [kept|] eqn:K; [|discriminate].
  intros R. injection R as <- <-.
  pose proof (process_accounts_from_sign _ _ _ _ _ E) as Hall.
  destruct (success_results_kept _ _ Hall _ K) as [Hkept _].
  split; [|split].
  - eapply Forall_impl; [|exact Hkept].
    intros r (n & o & -> & Hs). cbn. rewrite Hs. reflexivity.
  - apply flat_map_at_most. intros r. apply send_at_most_one.
  - apply Forall_forall. intros [ch e] Hin.
    apply in_flat_map in Hin. destruct Hin as (r & Hr & Hin).
    apply send_at_most_one in Hin.
    rewrite Forall_forall in Hkept.
    destruct (Hkept r Hr) as (n & o & -> & Hs).
    destruct (embed_of_success _ _ _ _ _ Hs Hin) as (Hc & Hd & rest & Hf).
    cbn [snd]. split; [exact Hc|]. split.
    + eexists. split; [exact Hr|]. rewrite Hd. reflexivity.
    + eauto.
Qed.

Lemma notifications_witness :
  match process_game_checkins SampleBatch.worlds SampleBatch.discord_up 7
          (JStr "endfield") SampleBatch.game_config SampleBatch.accounts with
  | Ok (returned, calls) =>
      List.length returned = 2%nat
      /\ map (fun call => embed_color (snd call)) calls = [Green; Green]
  | Raise _ => False
  end.
Proof.
  destruct (process_game_checkins SampleBatch.worlds SampleBatch.discord_up 7
              (JStr "endfield") SampleBatch.game_config SampleBatch.accounts)
    as [[returned calls]|e] eqn:E.
  - destruct (notifications_report_successes _ _ _ _ _ _ _ _ E)
      as (_ & _ & Hcalls).
    vm_compute in E. injection E as <- <-. split; reflexivity.
  - vm_compute in E. discriminate E.
Defined.
